(** * reminder/util.py: date argument parsing and relative-time formatting

    A shallow embedding of [DateArgument.match], [parse_timezone],
    [pluralize] and [format_time].

    Conventions of the embedding:
    - a Python [str] is a [string]; its characters stand for the code points
      0..255, on which the [re] module's [\d], [\s] and [IGNORECASE] are
      modelled exactly. Text with other code points is not described: there
      [IGNORECASE] also lets U+017F stand for s and U+0130, U+0131 for i, so
      that [day_regex] matches text whose first three characters, lowered,
      are no key of the table of day names;
    - a dict with string keys is a [gmap string _];
    - code that may raise or read the system clock lives in the monad [Py]:
      the clock is an explicit sequence of readings, consumed one per call of
      [datetime.now]. *)

From Stdlib Require Import ZArith Strings.String Strings.Ascii Numbers.DecimalString.
From stdpp Require Import base option list strings gmap.

Local Open Scope string_scope.
#[local] Arguments String.append !_ _ / : simpl nomatch.

(** ** Characters and strings *)

Definition code (c : ascii) : nat := nat_of_ascii c.

Definition in_range (lo hi : nat) (c : ascii) : bool :=
  (lo <=? code c)%nat && (code c <=? hi)%nat.

(** [str.lower()] on one character: A-Z and the cased letters U+00C0..U+00DE
    (all but the multiplication sign U+00D7) move up by 32. *)
Definition chr_lower (c : ascii) : ascii :=
  if in_range 65 90 c || (in_range 192 222 c && negb (code c =? 215)%nat)
  then ascii_of_nat (code c + 32)
  else c.

Fixpoint lower (s : string) : string :=
  match s with
  | EmptyString => EmptyString
  | String c s' => String (chr_lower c) (lower s')
  end.

(** [s[n:]] *)
Fixpoint str_drop (n : nat) (s : string) : string :=
  match n, s with
  | O, _ => s
  | S n', String _ s' => str_drop n' s'
  | S _, EmptyString => EmptyString
  end.

(** [s[:n]] *)
Fixpoint str_take (n : nat) (s : string) : string :=
  match n, s with
  | S n', String c s' => String c (str_take n' s')
  | _, _ => EmptyString
  end.

(** ** Regular expressions: the fragment of [re] used by the module *)

Module Re.

Inductive regex : Type :=
  | Eps
  | Lit (c : ascii)
  | Class (p : ascii -> bool)
  | Cat (r1 r2 : regex)
  | Or (r1 r2 : regex)
  | Maybe (r : regex)
  | Many1 (p : ascii -> bool)
  | Group (name : string) (r : regex).

(** A match object: where the match ended and what the named groups hold
    (a group that took no part in the match is absent). *)
Record match_obj := MatchObj {
  m_end : nat;
  m_groups : gmap string string
}.

(** [\d]: the decimal digits. *)
Definition digit : ascii -> bool := in_range 48 57.

(** [\s]: Unicode white space below 256: TAB..CR, FS..US, space, NEL, NBSP. *)
Definition space (c : ascii) : bool :=
  in_range 9 13 c || in_range 28 32 c || (code c =? 133)%nat || (code c =? 160)%nat.

Definition one_of (s : string) (c : ascii) : bool :=
  existsb (Ascii.eqb c) (list_ascii_of_string s).

(** A literal of the pattern against a character of the text. Under
    [IGNORECASE] two characters below 256 match when their lower cases are
    the same. *)
Definition lit_eq (ignorecase : bool) (c x : ascii) : bool :=
  if ignorecase then Ascii.eqb (chr_lower x) (chr_lower c) else Ascii.eqb x c.

Section Exec.
Variable ignorecase : bool.

Definition cont := string -> nat -> gmap string string -> option match_obj.

(** [p+], greedy: the longest run first, then shorter ones. *)
Fixpoint many (p : ascii -> bool) (s : string) (pos : nat)
    (g : gmap string string) (k : cont) : option match_obj :=
  match s with
  | String x s' =>
      if p x then
        match many p s' (S pos) g k with
        | Some m => Some m
        | None => k s' (S pos) g
        end
      else None
  | EmptyString => None
  end.

(** Backtracking matcher in continuation-passing style: [s] is the text
    still ahead, [pos] its offset in the whole text. *)
Fixpoint exec (r : regex) (s : string) (pos : nat)
    (g : gmap string string) (k : cont) : option match_obj :=
  match r with
  | Eps => k s pos g
  | Lit c =>
      match s with
      | String x s' => if lit_eq ignorecase c x then k s' (S pos) g else None
      | EmptyString => None
      end
  | Class p =>
      match s with
      | String x s' => if p x then k s' (S pos) g else None
      | EmptyString => None
      end
  | Cat r1 r2 => exec r1 s pos g (fun s' pos' g' => exec r2 s' pos' g' k)
  | Or r1 r2 =>
      match exec r1 s pos g k with
      | Some m => Some m
      | None => exec r2 s pos g k
      end
  | Maybe r1 =>
      match exec r1 s pos g k with
      | Some m => Some m
      | None => k s pos g
      end
  | Many1 p => many p s pos g k
  | Group name r1 =>
      exec r1 s pos g
        (fun s' pos' g' => k s' pos' (<[name := str_take (pos' - pos) s]> g'))
  end.
End Exec.

Record pattern := Pattern { pat_regex : regex; pat_ignorecase : bool }.

(** [pattern.match(val, pos)] *)
Definition re_match (p : pattern) (val : string) (pos : nat) : option match_obj :=
  exec (pat_ignorecase p) (pat_regex p) (str_drop pos val) pos ∅
       (fun _ pos' g => Some (MatchObj pos' g)).

Fixpoint group_names (r : regex) : list string :=
  match r with
  | Eps | Lit _ | Class _ | Many1 _ => []
  | Cat r1 r2 | Or r1 r2 => group_names r1 ++ group_names r2
  | Maybe r1 => group_names r1
  | Group name r1 => name :: group_names r1
  end.

(** [m.groupdict()]: every named group of the pattern, [None] when unset. *)
Definition groupdict (p : pattern) (m : match_obj) : list (string * option string) :=
  map (fun name => (name, m_groups m !! name)) (group_names (pat_regex p)).

(** Building blocks for writing patterns down. *)
Fixpoint str (s : string) : regex :=
  match s with
  | EmptyString => Eps
  | String c EmptyString => Lit c
  | String c s' => Cat (Lit c) (str s')
  end.

Fixpoint cat (rs : list regex) : regex :=
  match rs with
  | [] => Eps
  | [r] => r
  | r :: rs' => Cat r (cat rs')
  end.

Fixpoint alt (rs : list regex) : regex :=
  match rs with
  | [] => Eps
  | [r] => r
  | r :: rs' => Or r (alt rs')
  end.

Fixpoint times (n : nat) (r : regex) : regex :=
  match n with
  | O => Eps
  | 1%nat => r
  | S n' => Cat r (times n' r)
  end.

End Re.

Import Re.

(** ** The four patterns of the module *)

(** [(?:(?P<name>[-+]?\d+)\s?<unit>\s?)?] *)
Definition delta_field (name : string) (unit : regex) : regex :=
  Maybe (cat [Group name (Cat (Maybe (Class (one_of "-+"))) (Many1 digit));
              Maybe (Class space); unit; Maybe (Class space)]).

Definition timedelta_regex : pattern :=
  Pattern
    (cat [delta_field "years" (Cat (Lit "y") (Maybe (Cat (str "ear") (Maybe (Lit "s")))));
          delta_field "months" (Cat (str "month") (Maybe (Lit "s")));
          delta_field "weeks" (Cat (Lit "w") (Maybe (Cat (str "eek") (Maybe (Lit "s")))));
          delta_field "days" (Cat (Lit "d") (Maybe (Cat (str "ay") (Maybe (Lit "s")))));
          delta_field "hours" (Cat (Lit "h") (Maybe (Cat (str "our") (Maybe (Lit "s")))));
          delta_field "minutes" (Cat (Lit "m") (Maybe (Cat (str "inute") (Maybe (Lit "s")))));
          delta_field "seconds" (Cat (Lit "s") (Maybe (Cat (str "econd") (Maybe (Lit "s")))))])
    true.

Definition date_regex : pattern :=
  Pattern
    (cat [Group "year" (times 4 (Class digit)); Lit "-";
          Group "month" (Cat (Class digit) (Maybe (Class digit))); Lit "-";
          Group "day" (Cat (Class digit) (Maybe (Class digit)))])
    false.

Definition day_regex : pattern :=
  Pattern
    (alt [str "today";
          str "tomorrow";
          Cat (str "mon") (Maybe (str "day"));
          cat [str "tue"; Maybe (Lit "s"); Maybe (str "day")];
          Cat (str "wed") (Maybe (str "nesday"));
          Cat (str "thu") (Maybe (Cat (str "rs") (Maybe (str "day"))));
          Cat (str "fri") (Maybe (str "day"));
          Cat (str "sat") (Maybe (str "urday"));
          Cat (str "sun") (Maybe (str "day"))])
    true.

Definition time_regex : pattern :=
  Pattern
    (cat [Maybe (cat [Class space; str "at"; Class space]);
          Group "hour" (times 2 (Class digit));
          Class (one_of ":.");
          Group "minute" (times 2 (Class digit));
          Maybe (Cat (Class (one_of ":.")) (Group "second" (times 2 (Class digit))))])
    true.

(** ** Exceptions, outcomes and the system clock *)

Inductive exn : Type :=
  | AttributeError
  | KeyError
  | IndexError
  | TypeError
  | ValueError
  | OverflowError
  | ArgumentSyntaxError (message : string) (show_usage : bool).

Inductive outcome (A : Type) : Type :=
  | Return (a : A)
  | Raise (e : exn).
Arguments Return {A} a.
Arguments Raise {A} e.

#[export] Instance outcome_ret : MRet outcome := @Return.
#[export] Instance outcome_bind : MBind outcome := fun A B f m =>
  match m with
  | Return a => f a
  | Raise e => Raise e
  end.

(** What a [datetime] carries as [tzinfo]: a name and a fixed offset from UTC,
    in seconds. *)
Record tzinfo := TzInfo { tzname : string; utcoffset : Z }.

(** A time zone of the database: the [tzinfo] in force at a POSIX time, given
    in microseconds. *)
Definition timezone : Type := Z -> tzinfo.

Definition UTC : timezone := fun _ => TzInfo "UTC" 0.

(** The system clock as the program sees it: reading number [i] yields
    [readings i] microseconds since the epoch; [reads] counts the readings
    taken so far. [system_zone] is the zone of the host, which the one-argument
    [datetime.now()] uses. *)
Record sysclock := SysClock {
  readings : nat -> Z;
  reads : nat;
  system_zone : timezone
}.

Definition Py (A : Type) : Type := sysclock -> outcome A * sysclock.

#[export] Instance Py_ret : MRet Py := fun A a c => (Return a, c).
#[export] Instance Py_bind : MBind Py := fun A B f m c =>
  match m c with
  | (Return a, c') => f a c'
  | (Raise e, c') => (Raise e, c')
  end.

Definition raise {A} (e : exn) : Py A := fun c => (Raise e, c).

Definition lift {A} (o : outcome A) : Py A := fun c => (o, c).

(** The clock after one more reading. *)
Definition advance (c : sysclock) : sysclock :=
  SysClock (readings c) (S (reads c)) (system_zone c).

Definition tick : Py Z := fun c => (Return (readings c (reads c)), advance c).

Definition host_zone : Py timezone := fun c => (Return (system_zone c), c).

Local Open Scope Z_scope.

(** ** The proleptic Gregorian calendar of the [datetime] module *)

Module Calendar.

Definition MINYEAR : Z := 1.
Definition MAXYEAR : Z := 9999.
Definition MAXORDINAL : Z := 3652059.

Definition is_leap (year : Z) : bool :=
  (year mod 4 =? 0) && (negb (year mod 100 =? 0) || (year mod 400 =? 0)).

Definition DAYS_IN_MONTH (month : Z) : Z :=
  match month with
  | 1 => 31 | 2 => 28 | 3 => 31 | 4 => 30 | 5 => 31 | 6 => 30
  | 7 => 31 | 8 => 31 | 9 => 30 | 10 => 31 | 11 => 30 | 12 => 31
  | _ => 0
  end.

Definition DAYS_BEFORE_MONTH (month : Z) : Z :=
  match month with
  | 1 => 0 | 2 => 31 | 3 => 59 | 4 => 90 | 5 => 120 | 6 => 151
  | 7 => 181 | 8 => 212 | 9 => 243 | 10 => 273 | 11 => 304 | 12 => 334
  | _ => 0
  end.

Definition days_before_year (year : Z) : Z :=
  let y := year - 1 in y * 365 + y / 4 - y / 100 + y / 400.

Definition days_in_month (year month : Z) : Z :=
  if (month =? 2) && is_leap year then 29 else DAYS_IN_MONTH month.

Definition days_before_month (year month : Z) : Z :=
  DAYS_BEFORE_MONTH month + (if (2 <? month) && is_leap year then 1 else 0).

(** Ordinal of a date; 0001-01-01 is day 1. *)
Definition ymd2ord (year month day : Z) : Z :=
  days_before_year year + days_before_month year month + day.

Definition DI400Y : Z := 146097.
Definition DI100Y : Z := 36524.
Definition DI4Y : Z := 1461.

Definition ord2ymd (n : Z) : Z * Z * Z :=
  let n := n - 1 in
  let n400 := n / DI400Y in
  let n := n mod DI400Y in
  let year := n400 * 400 + 1 in
  let n100 := n / DI100Y in
  let n := n mod DI100Y in
  let n4 := n / DI4Y in
  let n := n mod DI4Y in
  let n1 := n / 365 in
  let n := n mod 365 in
  let year := year + n100 * 100 + n4 * 4 + n1 in
  if (n1 =? 4) || (n100 =? 4) then (year - 1, 12, 31)
  else
    let leapyear := (n1 =? 3) && (negb (n4 =? 24) || (n100 =? 3)) in
    let month := Z.shiftr (n + 50) 5 in
    let preceding := DAYS_BEFORE_MONTH month + (if (2 <? month) && leapyear then 1 else 0) in
    if n <? preceding then
      let month := month - 1 in
      let preceding :=
        preceding - (DAYS_IN_MONTH month + (if (month =? 2) && leapyear then 1 else 0)) in
      (year, month, n - preceding + 1)
    else (year, month, n - preceding + 1).

End Calendar.

Import Calendar.

(** ** [timedelta] and [datetime] *)

Definition US_PER_SECOND : Z := 1000000.
Definition US_PER_DAY : Z := 86400 * US_PER_SECOND.

(** A normalised duration: [0 <= td_seconds < 86400] and
    [0 <= td_microseconds < 1000000]. *)
Record timedelta := TimeDelta {
  td_days : Z;
  td_seconds : Z;
  td_microseconds : Z
}.

Definition td_micros (d : timedelta) : Z :=
  (td_days d * 86400 + td_seconds d) * US_PER_SECOND + td_microseconds d.

Definition td_of_micros (us : Z) : outcome timedelta :=
  let days := us / US_PER_DAY in
  let rest := us mod US_PER_DAY in
  if 999999999 <? Z.abs days then Raise OverflowError
  else Return (TimeDelta days (rest / US_PER_SECOND) (rest mod US_PER_SECOND)).

(** [timedelta(days=.., hours=.., minutes=.., seconds=.., microseconds=..)] *)
Definition timedelta_new (days hours minutes seconds microseconds : Z) : outcome timedelta :=
  td_of_micros
    ((((days * 24 + hours) * 60 + minutes) * 60 + seconds) * US_PER_SECOND + microseconds).

Definition td_le (a b : timedelta) : bool := td_micros a <=? td_micros b.

(** The date and time fields of a [datetime]. *)
Record fields := Fields {
  year : Z; month : Z; day : Z;
  hour : Z; minute : Z; second : Z; microsecond : Z
}.

(** A naive [datetime] is its [fields]; an aware one also carries a [tzinfo]. *)
Record datetime := DateTime { wall : fields; zone : tzinfo }.

Definition toordinal (d : fields) : Z := ymd2ord (year d) (month d) (day d).

(** Monday is 0, Sunday is 6. *)
Definition weekday (d : fields) : Z := (toordinal d + 6) mod 7.

(** Microseconds from the start of day 0 of the calendar to [d]. *)
Definition wall_micros (d : fields) : Z :=
  ((toordinal d * 86400 + hour d * 3600 + minute d * 60 + second d) * US_PER_SECOND
   + microsecond d).

Definition of_days_seconds (days seconds microseconds : Z) : fields :=
  let '(y, m, d) := ord2ymd days in
  Fields y m d (seconds / 3600) (seconds mod 3600 / 60) (seconds mod 3600 mod 60) microseconds.

Definition fields_ok (d : fields) : bool :=
  (MINYEAR <=? year d) && (year d <=? MAXYEAR)
  && (1 <=? month d) && (month d <=? 12)
  && (1 <=? day d) && (day d <=? days_in_month (year d) (month d))
  && (0 <=? hour d) && (hour d <=? 23)
  && (0 <=? minute d) && (minute d <=? 59)
  && (0 <=? second d) && (second d <=? 59)
  && (0 <=? microsecond d) && (microsecond d <=? 999999).

(** [d.replace(...)] with the new field values already put in place: the
    constructor checks every field. The numbers are taken to fit a C int;
    for a larger one CPython raises [OverflowError] before it checks. *)
Definition replace (d : fields) : outcome fields :=
  if fields_ok d then Return d else Raise ValueError.

(** [d + td] *)
Definition add_timedelta (d : fields) (td : timedelta) : outcome fields :=
  delta ← timedelta_new (toordinal d) (hour d) (minute d) (second d) (microsecond d);
  delta ← td_of_micros (td_micros delta + td_micros td);
  if (0 <? td_days delta) && (td_days delta <=? MAXORDINAL)
  then Return (of_days_seconds (td_days delta) (td_seconds delta) (td_microseconds delta))
  else Raise OverflowError.

(** Day 1 of the calendar to 1970-01-01. *)
Definition EPOCH_ORDINAL : Z := 719163.

(** The ordinal of the calendar day on which the moment [t] (POSIX
    microseconds) falls at [offset] seconds from UTC. *)
Definition day_number (t offset : Z) : Z :=
  (t + (EPOCH_ORDINAL * 86400 + offset) * US_PER_SECOND) / US_PER_DAY.

(** Fields of the moment [t] at [offset] seconds from UTC. The clock is taken
    to show moments that [datetime] can hold. *)
Definition fields_at (t offset : Z) : fields :=
  let rest := (t + (EPOCH_ORDINAL * 86400 + offset) * US_PER_SECOND) mod US_PER_DAY in
  of_days_seconds (day_number t offset) (rest / US_PER_SECOND) (rest mod US_PER_SECOND).

(** [datetime.now(tz=tz)] *)
Definition datetime_now (tz : timezone) : Py datetime :=
  t ← tick;
  mret (DateTime (fields_at t (utcoffset (tz t))) (tz t)).

(** [datetime.now()]: naive, in the zone of the host. *)
Definition datetime_now_naive : Py fields :=
  local ← host_zone;
  d ← datetime_now local;
  mret (wall d).

(** [a - b] for aware operands: the distance between the two moments. *)
Definition datetime_sub (a b : datetime) : outcome timedelta :=
  td_of_micros ((wall_micros (wall a) - utcoffset (zone a) * US_PER_SECOND)
                - (wall_micros (wall b) - utcoffset (zone b) * US_PER_SECOND)).

(** ** [dateutil.relativedelta] *)

Record relativedelta := RelativeDelta {
  rd_years : Z; rd_months : Z; rd_days : Z; rd_leapdays : Z;
  rd_hours : Z; rd_minutes : Z; rd_seconds : Z; rd_microseconds : Z;
  rd_year : option Z; rd_month : option Z; rd_day : option Z;
  rd_weekday : option Z;
  rd_hour : option Z; rd_minute : option Z; rd_second : option Z;
  rd_microsecond : option Z
}.

Definition rd_keywords : list string :=
  ["years"; "months"; "days"; "leapdays"; "weeks"; "hours"; "minutes"; "seconds";
   "microseconds"; "year"; "month"; "day"; "weekday"; "hour"; "minute"; "second";
   "microsecond"].

(** One carry step of [_fix]: when [abs(lo) > limit - 1], keep the remainder
    in [lo] and move the quotient, with the sign of [lo], to [hi]. *)
Definition carry (limit lo hi : Z) : Z * Z :=
  if limit - 1 <? Z.abs lo then
    let s := Z.sgn lo in
    ((lo * s) mod limit * s, hi + (lo * s) / limit * s)
  else (lo, hi).

Definition rd_fix (r : relativedelta) : relativedelta :=
  let '(us, s) := carry 1000000 (rd_microseconds r) (rd_seconds r) in
  let '(s, mi) := carry 60 s (rd_minutes r) in
  let '(mi, h) := carry 60 mi (rd_hours r) in
  let '(h, d) := carry 24 h (rd_days r) in
  let '(mo, y) := carry 12 (rd_months r) (rd_years r) in
  RelativeDelta y mo d (rd_leapdays r) h mi s us
    (rd_year r) (rd_month r) (rd_day r) (rd_weekday r)
    (rd_hour r) (rd_minute r) (rd_second r) (rd_microsecond r).

(** The constructor of [relativedelta], called with the keyword arguments
    [kw]. The numbers of [kw] are integers here (see
    [py_float] below), so the constructor's test for fractional years and
    months passes. [weekday] indexes the seven-element tuple [weekdays]. *)
Definition relativedelta_new (kw : gmap string Z) : outcome relativedelta :=
  if negb (forallb (fun k => bool_decide (k ∈ rd_keywords)) (map fst (map_to_list kw)))
  then Raise TypeError
  else
    let rel k := default 0 (kw !! k) in
    wd ← match kw !! "weekday" with
         | None => Return None
         | Some w =>
             if (0 <=? w) && (w <? 7) then Return (Some w)
             else if (-7 <=? w) && (w <? 0) then Return (Some (w + 7))
             else Raise IndexError
         end;
    Return (rd_fix
      (RelativeDelta (rel "years") (rel "months") (rel "days" + rel "weeks" * 7)
         (rel "leapdays") (rel "hours") (rel "minutes") (rel "seconds")
         (rel "microseconds")
         (kw !! "year") (kw !! "month") (kw !! "day") wd
         (kw !! "hour") (kw !! "minute") (kw !! "second") (kw !! "microsecond"))).

(** [a or b] where [a] is [None] or a number. *)
Definition or_else (a : option Z) (b : Z) : Z :=
  match a with
  | Some v => if v =? 0 then b else v
  | None => b
  end.

(** [calendar.monthrange(year, month)[1]] *)
Definition monthrange (year month : Z) : outcome Z :=
  if (1 <=? month) && (month <=? 12) then Return (days_in_month year month)
  else Raise ValueError.

(** [other + r], that is [r.__radd__(other)] for a [datetime]. *)
Definition relativedelta_radd (r : relativedelta) (other : fields) : outcome fields :=
  let y := or_else (rd_year r) (year other) + rd_years r in
  let m := or_else (rd_month r) (month other) in
  let '(y, m) :=
    if rd_months r =? 0 then (y, m)
    else
      let m := m + rd_months r in
      if 12 <? m then (y + 1, m - 12)
      else if m <? 1 then (y - 1, m + 12)
      else (y, m) in
  ndays ← monthrange y m;
  let d := Z.min ndays (or_else (rd_day r) (day other)) in
  let days :=
    if negb (rd_leapdays r =? 0) && (2 <? m) && is_leap y
    then rd_days r + rd_leapdays r else rd_days r in
  repl ← replace (Fields y m d
                    (default (hour other) (rd_hour r))
                    (default (minute other) (rd_minute r))
                    (default (second other) (rd_second r))
                    (default (microsecond other) (rd_microsecond r)));
  td ← timedelta_new days (rd_hours r) (rd_minutes r) (rd_seconds r) (rd_microseconds r);
  ret ← add_timedelta repl td;
  match rd_weekday r with
  | None => Return ret
  | Some w =>
      jump ← timedelta_new ((7 - weekday ret + w) mod 7) 0 0 0 0;
      add_timedelta ret jump
  end.

Definition datetime_add_relativedelta (d : datetime) (r : relativedelta) : outcome datetime :=
  f ← relativedelta_radd r (wall d);
  Return (DateTime f (zone d)).

(** ** Built-ins *)

Fixpoint digits_value (acc : Z) (s : string) : option Z :=
  match s with
  | EmptyString => Some acc
  | String c s' =>
      if digit c then digits_value (acc * 10 + Z.of_nat (code c - 48)) s' else None
  end.

(** [int(v)] on what a group of the patterns can hold: an optional sign and
    decimal digits; anything else is a [ValueError]. *)
Definition py_int (v : string) : outcome Z :=
  let '(sign, body) :=
    match v with
    | String c b =>
        if Ascii.eqb c "-" then (-1, b)
        else if Ascii.eqb c "+" then (1, b)
        else (1, v)
    | EmptyString => (1, v)
    end in
  match body with
  | EmptyString => Raise ValueError
  | _ =>
      match digits_value 0 body with
      | Some n => Return (sign * n)
      | None => Raise ValueError
      end
  end.

(** [float(v)]: the number [v] denotes. A double holds it exactly when it has
    at most 15 digits; longer numbers are rounded by Python and are beyond
    what this embedding describes. *)
Definition py_float : string -> outcome Z := py_int.

(** [str(n)] for an integer. *)
Definition py_str (n : Z) : string := NilZero.string_of_int (Z.to_int n).

(** [sep.join(parts)] *)
Fixpoint join (sep : string) (parts : list string) : string :=
  match parts with
  | [] => ""
  | [p] => p
  | p :: rest => p ++ sep ++ join sep rest
  end.

(** [table[key]] for a dict written as a literal. *)
Fixpoint subscript {A} (table : list (string * A)) (key : string) : outcome A :=
  match table with
  | [] => Raise KeyError
  | (k, v) :: rest => if String.eqb k key then Return v else subscript rest key
  end.

(** [{k: conv(v) for k, v in items if v}] *)
Fixpoint dict_of (conv : string -> outcome Z) (items : list (string * option string))
    : outcome (gmap string Z) :=
  match items with
  | [] => Return ∅
  | (k, v) :: rest =>
      match v with
      | Some (String _ _ as v) =>
          x ← conv v;
          d ← dict_of conv rest;
          Return (<[k := x]> d)
      | _ => dict_of conv rest
      end
  end.

(** ** [DateArgument.match] *)

Module DateArgument.

Section Matcher.
(** The four module-level patterns, in the roles the method gives them. *)
Variables timedelta_re day_re date_re time_re : pattern.

(** Lines 80 to 91: the day names, then the ISO date. The date branch
    reads the groups of [found_delta], as the source does. *)
Definition day_or_date (val : string) (found_delta : match_obj)
    : Py (nat * gmap string Z) :=
  match re_match day_re val 0 with
  | Some found_day =>
      today ← datetime_now_naive;
      today' ← datetime_now_naive;
      wd ← lift (subscript
                   [("tod", weekday today); ("tom", weekday today' + 1);
                    ("mon", 0); ("tue", 1); ("wed", 2); ("thu", 3);
                    ("fri", 4); ("sat", 5); ("sun", 6)]
                   (lower (str_take 3 val)));
      mret (m_end found_day, <["weekday" := wd]> (∅ : gmap string Z))
  | None =>
      match re_match date_re val 0 with
      | Some found_date =>
          params ← lift (dict_of py_int (groupdict timedelta_re found_delta));
          mret (m_end found_date, params)
      | None => mret (0%nat, ∅)
      end
  end.

(** Lines 93 to 99: the clock time, looked for at [end_]. *)
Definition clock_time (val : string) (end_ : nat) (params : gmap string Z)
    : Py (nat * gmap string Z) :=
  match re_match time_re val end_ with
  | Some found_time =>
      clock_fields ← lift (dict_of py_int (groupdict time_re found_time));
      mret (m_end found_time, clock_fields ∪ params)
  | None => mret (end_, params)
  end.

(** Lines 73 to 99: the end of the matched prefix and the keyword
    arguments collected for [relativedelta]. *)
Definition collect (val : string) : Py (nat * gmap string Z) :=
  match re_match timedelta_re val 0 with
  | None => raise AttributeError
  | Some found_delta =>
      if (0 <? m_end found_delta)%nat then
        params ← lift (dict_of py_float (groupdict timedelta_re found_delta));
        mret (m_end found_delta, params)
      else
        '(end_, params) ← day_or_date val found_delta;
        clock_time val end_ params
  end.

(** [instance] stands for [instance.db.get_timezone(evt.sender)] when the
    method is called with an instance. *)
Definition match_with (val : string) (instance : option timezone)
    : Py (string * option datetime) :=
  let tz := default UTC instance in
  '(end_, params) ← collect val;
  if (0 <? size params)%nat then
    now ← datetime_now tz;
    delta ← lift (relativedelta_new params);
    d ← lift (datetime_add_relativedelta now delta);
    mret (str_drop end_ val, Some d)
  else mret (str_drop end_ val, None).
End Matcher.

Definition parse_fields : string -> Py (nat * gmap string Z) :=
  collect timedelta_regex day_regex date_regex time_regex.

Definition match_ : string -> option timezone -> Py (string * option datetime) :=
  match_with timedelta_regex day_regex date_regex time_regex.

End DateArgument.

(** ** [parse_timezone] *)

Section ParseTimezone.
(** [pytz.timezone]: the zone of that name, or [None] where the library
    raises [UnknownTimeZoneError]. *)
Variable pytz_timezone : string -> option timezone.

Definition parse_timezone (val : string) : outcome (option timezone) :=
  match val with
  | EmptyString => Return None
  | _ =>
      match pytz_timezone val with
      | Some tz => Return (Some tz)
      | None => Raise (ArgumentSyntaxError (val ++ " is not a valid time zone.") false)
      end
  end.
End ParseTimezone.

(** ** [pluralize] and [format_time] *)

Definition pluralize (val : Z) (unit : string) : string :=
  if val =? 1 then py_str val ++ " " ++ unit
  else py_str val ++ " " ++ unit ++ "s".

Definition pad2 (n : Z) : string :=
  if n <? 10 then "0" ++ py_str n else py_str n.

Definition day_name (wd : Z) : string :=
  match wd with
  | 0 => "Monday" | 1 => "Tuesday" | 2 => "Wednesday" | 3 => "Thursday"
  | 4 => "Friday" | 5 => "Saturday" | _ => "Sunday"
  end.

Definition month_name (m : Z) : string :=
  match m with
  | 1 => "January" | 2 => "February" | 3 => "March" | 4 => "April"
  | 5 => "May" | 6 => "June" | 7 => "July" | 8 => "August"
  | 9 => "September" | 10 => "October" | 11 => "November" | _ => "December"
  end.

(** [time.strftime("at %H:%M:%S %Z on %A, %B %-d %Y")] *)
Definition strftime_at (time : datetime) : string :=
  let f := wall time in
  "at " ++ pad2 (hour f) ++ ":" ++ pad2 (minute f) ++ ":" ++ pad2 (second f)
  ++ " " ++ tzname (zone time)
  ++ " on " ++ day_name (weekday f) ++ ", " ++ month_name (month f)
  ++ " " ++ py_str (day f) ++ " " ++ py_str (year f).

Definition seven_days : timedelta := TimeDelta 7 0 0.

Definition set_microsecond (d : fields) (us : Z) : fields :=
  Fields (year d) (month d) (day d) (hour d) (minute d) (second d) us.

(** Lines 124 to 137: the clauses of the difference [delta], joined. *)
Definition relative (delta : timedelta) : outcome string :=
  let parts : list string := [] in
  let parts :=
    if 0 <? td_days delta then (parts ++ [pluralize (td_days delta) "day"])%list else parts in
  let '(hours, seconds) := (td_seconds delta / 60, td_seconds delta mod 60) in
  let '(hours, minutes) := (hours / 60, hours mod 60) in
  let parts := if 0 <? hours then (parts ++ [pluralize hours "hour"])%list else parts in
  let parts := if 0 <? minutes then (parts ++ [pluralize minutes "minute"])%list else parts in
  let parts := if 0 <? seconds then (parts ++ [pluralize seconds "second"])%list else parts in
  match parts with
  | [p] => Return ("in " ++ p)
  | _ =>
      match last parts with
      | Some p => Return ("in " ++ join ", " (removelast parts) ++ " and " ++ p)
      | None => Raise IndexError
      end
  end.

Definition format_time (time : datetime) : Py string :=
  now ← datetime_now UTC;
  now_fields ← lift (replace (set_microsecond (wall now) 0));
  let now := DateTime now_fields (zone now) in
  diff ← lift (datetime_sub time now);
  if td_le diff seven_days then
    delta ← lift (datetime_sub time now);
    lift (relative delta)
  else mret (strftime_at time).

(** ** Sample clocks *)

(** A clock that stands still at [t], on a host running in [tz]. *)
Definition frozen (t : Z) (tz : timezone) : sysclock := SysClock (fun _ => t) 0 tz.

(** 2026-11-03T12:34:56.789012Z, a Tuesday *)
Definition tuesday_noon : Z := 1793709296789012.

(** ** Reference definitions for the statements below *)

(** The POSIX time of an aware [datetime], in microseconds. *)
Definition posix_micros (d : datetime) : Z :=
  wall_micros (wall d) - (EPOCH_ORDINAL * 86400 + utcoffset (zone d)) * US_PER_SECOND.

(** A unit contributes a clause only when its value is not zero. *)
Definition clause (val : Z) (unit : string) : list string :=
  if val =? 0 then [] else [pluralize val unit].

(** "A", "A and Z", "A, B and Z", ... *)
Fixpoint comma_and (clauses : list string) : string :=
  match clauses with
  | [] => ""
  | [a] => a
  | [a; z] => a ++ " and " ++ z
  | a :: rest => a ++ ", " ++ comma_and rest
  end.

(** The relative rendering of a distance of [days] days, [hours] hours,
    [minutes] minutes and [seconds] seconds, as the specification words it. *)
Definition spec_format (days hours minutes seconds : Z) : string :=
  "in " ++ comma_and (clause days "day" ++ clause hours "hour"
                      ++ clause minutes "minute" ++ clause seconds "second")%list.

(** The host's wall clock at the reading [i] steps after the next one. *)
Definition host_fields (c : sysclock) (i : nat) : fields :=
  let t := readings c (reads c + i) in fields_at t (utcoffset (system_zone c t)).

(** The table of line 83, as a call made with the clock [c] builds it. *)
Definition day_table (c : sysclock) : list (string * Z) :=
  [("tod", weekday (host_fields c 0)); ("tom", weekday (host_fields c 1) + 1);
   ("mon", 0); ("tue", 1); ("wed", 2); ("thu", 3); ("fri", 4); ("sat", 5); ("sun", 6)].

Definition day_keys : list string :=
  ["tod"; "tom"; "mon"; "tue"; "wed"; "thu"; "fri"; "sat"; "sun"].

Abbreviation day_or_date' :=
  (DateArgument.day_or_date timedelta_regex day_regex date_regex).
Abbreviation clock_time' := (DateArgument.clock_time time_regex).

(** ** What a pattern accepts *)

(** The texts a regular expression matches, as a predicate. *)
Fixpoint accepts (ic : bool) (r : regex) (w : string) : Prop :=
  match r with
  | Eps => w = ""
  | Lit c => ∃ x, w = String x "" ∧ lit_eq ic c x = true
  | Class p => ∃ x, w = String x "" ∧ p x = true
  | Cat r1 r2 => ∃ w1 w2, w = w1 ++ w2 ∧ accepts ic r1 w1 ∧ accepts ic r2 w2
  | Or r1 r2 => accepts ic r1 w ∨ accepts ic r2 w
  | Maybe r1 => w = "" ∨ accepts ic r1 w
  | Many1 p => w ≠ "" ∧ Forall (fun x => p x = true) (list_ascii_of_string w)
  | Group _ r1 => accepts ic r1 w
  end.

(** Every group of [r] can only capture texts that satisfy [good]. *)
Fixpoint groups_capture (ic : bool) (good : string -> Prop) (r : regex) : Prop :=
  match r with
  | Eps | Lit _ | Class _ | Many1 _ => True
  | Cat r1 r2 | Or r1 r2 => groups_capture ic good r1 ∧ groups_capture ic good r2
  | Maybe r1 => groups_capture ic good r1
  | Group _ r1 => (∀ w, accepts ic r1 w → good w) ∧ groups_capture ic good r1
  end.

(** A pattern that matches at every position: a sequence of optional parts. *)
Fixpoint never_fails (r : regex) : bool :=
  match r with
  | Eps | Maybe _ => true
  | Cat r1 r2 => never_fails r1 && never_fails r2
  | Or r1 _ => never_fails r1
  | Group _ r1 => never_fails r1
  | Lit _ | Class _ | Many1 _ => false
  end.

(** A pattern that cannot match the empty text. *)
Fixpoint consumes (r : regex) : bool :=
  match r with
  | Lit _ | Class _ | Many1 _ => true
  | Cat r1 r2 => consumes r1 || consumes r2
  | Or r1 r2 => consumes r1 && consumes r2
  | Group _ r1 => consumes r1
  | Eps | Maybe _ => false
  end.

(** What [int] and [float] accept without complaint. *)
Definition numeral (v : string) : Prop := v ≠ "" ∧ ∃ n, py_int v = Return n.

(** ** Auxiliary definitions for the proofs and examples *)

(** [P] holds at [i], [i + 1], ..., [fuel] numbers in all. *)
Fixpoint all_from (fuel : nat) (i : Z) (P : Z -> bool) : bool :=
  match fuel with
  | O => true
  | S fuel' => if P i then all_from fuel' (i + 1) P else false
  end.

(** Day [r] of a 400-year cycle, counted from 0: the date it falls on is a
    proper date of the years 1 to 400 and has the ordinal [r + 1]. *)
Definition cycle_day_ok (r : Z) : bool :=
  let '(y, m, d) := ord2ymd (r + 1) in
  (ymd2ord y m d =? r + 1)
  && (1 <=? y) && (y <=? 400) && (1 <=? m) && (m <=? 12)
  && (1 <=? d) && (d <=? days_in_month y m)
  && ((145730 <? r) || (y <=? 399)).

Definition delta_keys : list string :=
  ["years"; "months"; "weeks"; "days"; "hours"; "minutes"; "seconds"].

Definition clock_keys : list string := ["hour"; "minute"; "second"].

(** A database that knows one zone. *)
Definition one_zone_db (name : string) : option timezone :=
  if String.eqb name "Europe/Helsinki" then Some (fun _ => TzInfo "EET" 7200) else None.

(** A pattern that matches nothing. *)
Definition never : pattern := Pattern (Class (fun _ => false)) false.

(** A clock that passes midnight between its second and third reading:
    2026-11-02T23:59:59.999999Z twice, then 2026-11-03T00:00:00.000001Z. *)
Definition late_monday : Z := 1793663999999999.
Definition early_tuesday : Z := 1793664000000001.
Definition midnight_clock : sysclock :=
  SysClock (fun i => if (i <? 2)%nat then late_monday else early_tuesday) 0 UTC.

(** Two decimal digits: what a group of the clock-time pattern holds. *)
Definition two_digits (v : string) : Prop :=
  v ≠ "" ∧ ∃ n, py_int v = Return n ∧ 0 <= n <= 99.

(** The values of the table of line 83 lie between 0 and 7. *)
Definition day_index (wd : Z) : Prop := 0 <= wd <= 7.

(** Every match of [r] sets a group. *)
Fixpoint sets (r : regex) : bool :=
  match r with
  | Group _ _ => true
  | Cat r1 r2 => sets r1 || sets r2
  | Or r1 r2 => sets r1 && sets r2
  | Eps | Lit _ | Class _ | Maybe _ | Many1 _ => false
  end.

(** A match of [r] consumes text only if it sets a group. *)
Fixpoint quiet (r : regex) : bool :=
  match r with
  | Eps | Group _ _ => true
  | Maybe r1 => sets r1 || quiet r1
  | Cat r1 r2 => sets r1 || sets r2 || (quiet r1 && quiet r2)
  | Or r1 r2 => quiet r1 && quiet r2
  | Lit _ | Class _ | Many1 _ => false
  end.

(** The fields that move the date by whole days or set parts of it. *)
Definition simple_keys : list string :=
  ["weeks"; "days"; "weekday"; "hour"; "minute"; "second"].

(** A clock whose readings are Sunday 2026-11-08T12:34:56.789012Z. *)
Definition sunday_noon : Z := 1794141296789012.

(** The numbers of a delta have at most 15 digits: [float] holds them, and
    the sums that [relativedelta] forms of them, exactly. *)
Definition exact_floats (params : gmap string Z) : Prop :=
  Forall (λ k, Z.abs (default 0 (params !! k)) < 10 ^ 15) delta_keys.

(** Months counted from the start of the calendar's year 0. *)
Definition month_index (f : fields) : Z := year f * 12 + (month f - 1).

(** The fields of a delta that stand for a fixed length of time. *)
Definition duration_keys : list string := ["weeks"; "days"; "hours"; "minutes"; "seconds"].

(** The length in seconds of the delta that the fields [params] describe. *)
Definition duration_seconds (params : gmap string Z) : Z :=
  let rel k := default 0 (params !! k) in
  ((((rel "days" + rel "weeks" * 7) * 24 + rel "hours") * 60 + rel "minutes") * 60
   + rel "seconds").

(** * Properties *)

(** ** Strings *)

Lemma str_take_app w s : str_take (String.length w) (w ++ s) = w.
Proof. induction w as [|c w IH]; simpl; [by destruct s | by rewrite IH]. Qed.

Lemma str_drop_app w s : str_drop (String.length w) (w ++ s) = s.
Proof. induction w as [|c w IH]; simpl; done. Qed.

Lemma str_take_drop n s : str_take n s ++ str_drop n s = s.
Proof.
  revert s; induction n as [|n IH]; intros [|c s]; simpl; try done.
  by rewrite IH.
Qed.

Lemma str_app_assoc (a b c : string) : (a ++ b) ++ c = a ++ (b ++ c).
Proof. induction a as [|x a IH]; simpl; [done | by rewrite IH]. Qed.

Lemma str_app_length (a b : string) :
  String.length (a ++ b) = (String.length a + String.length b)%nat.
Proof. induction a as [|x a IH]; simpl; [done | by rewrite IH]. Qed.

Lemma str_app_nil_r (a : string) : a ++ "" = a.
Proof. induction a as [|x a IH]; simpl; [done | by rewrite IH]. Qed.

(** ** The matcher is sound for [accepts] *)

Section Soundness.
Variable ic : bool.
Variable good : string -> Prop.
Hypothesis good_nonempty : ∀ w, good w → w ≠ "".

Definition captures_good (g : gmap string string) : Prop :=
  ∀ name v, g !! name = Some v → good v.

Lemma captures_good_empty : captures_good ∅.
Proof. intros name v H. by rewrite lookup_empty in H. Qed.

Lemma captures_good_insert name w g :
  good w → captures_good g → captures_good (<[name := w]> g).
Proof.
  intros Hw Hg name' v. rewrite lookup_insert.
  case_decide; [intros [= <-]; done | apply Hg].
Qed.

Lemma many_sound p : ∀ s pos g k m,
  many p s pos g k = Some m →
  ∃ w s', s = w ++ s' ∧ w ≠ ""
          ∧ Forall (fun x => p x = true) (list_ascii_of_string w)
          ∧ k s' (pos + String.length w)%nat g = Some m.
Proof.
  induction s as [|x s IH]; intros pos g k m H; simpl in H; [done|].
  destruct (p x) eqn:Hp; [|done].
  destruct (many p s (S pos) g k) as [m'|] eqn:Hm.
  - injection H as ->. apply IH in Hm as (w & s' & -> & _ & Hall & Hk).
    exists (String x w), s'. repeat split; try done.
    + simpl. by constructor.
    + simpl. by replace (pos + S (String.length w))%nat
        with (S pos + String.length w)%nat by lia.
  - exists (String x ""), s. repeat split; try done.
    + simpl. by repeat constructor.
    + simpl. by replace (pos + 1)%nat with (S pos) by lia.
Qed.

(** A successful run consumed some accepted text [w] and went on with the
    continuation right behind it; the captures stayed good and changed
    only if text was consumed. *)
Lemma exec_sound r : ∀ s pos g k m,
  groups_capture ic good r →
  captures_good g →
  exec ic r s pos g k = Some m →
  ∃ w s' g', s = w ++ s' ∧ accepts ic r w ∧ captures_good g'
             ∧ (g' = g ∨ w ≠ "")
             ∧ k s' (pos + String.length w)%nat g' = Some m.
Proof.
  induction r as [|c|p|r1 IH1 r2 IH2|r1 IH1 r2 IH2|r1 IH1|p|name r1 IH1];
    intros s pos g k m Hr Hg H; simpl in H.
  - exists "", s, g. simpl. rewrite Nat.add_0_r. by repeat split; auto.
  - destruct s as [|x s]; [done|]. destruct (lit_eq ic c x) eqn:Hc; [|done].
    exists (String x ""), s, g. simpl.
    replace (pos + 1)%nat with (S pos) by lia. repeat split; eauto.
  - destruct s as [|x s]; [done|]. destruct (p x) eqn:Hc; [|done].
    exists (String x ""), s, g. simpl.
    replace (pos + 1)%nat with (S pos) by lia. repeat split; eauto.
  - destruct Hr as [Hr1 Hr2].
    apply IH1 in H as (w1 & s1 & g1 & -> & Ha1 & Hg1 & Hc1 & H); [|done..].
    apply IH2 in H as (w2 & s2 & g2 & -> & Ha2 & Hg2 & Hc2 & H); [|done..].
    exists (w1 ++ w2), s2, g2. rewrite str_app_assoc, str_app_length.
    rewrite Nat.add_assoc. repeat split; try done.
    + simpl. eauto.
    + destruct Hc2 as [-> | Hne].
      * destruct Hc1 as [-> | Hne]; [by left|].
        right. destruct w1; [done | by simpl].
      * right. destruct w1; [done | by simpl].
  - destruct Hr as [Hr1 Hr2].
    destruct (exec ic r1 s pos g k) as [m'|] eqn:H1.
    + injection H as ->.
      apply IH1 in H1 as (w & s' & g' & ? & ? & ? & ? & ?); [|done..].
      exists w, s', g'. simpl. by repeat split; auto.
    + apply IH2 in H as (w & s' & g' & ? & ? & ? & ? & ?); [|done..].
      exists w, s', g'. simpl. by repeat split; auto.
  - destruct (exec ic r1 s pos g k) as [m'|] eqn:H1.
    + injection H as ->.
      apply IH1 in H1 as (w & s' & g' & ? & ? & ? & ? & ?); [|done..].
      exists w, s', g'. simpl. by repeat split; auto.
    + exists "", s, g. simpl. rewrite Nat.add_0_r. by repeat split; auto.
  - apply many_sound in H as (w & s' & -> & Hne & Hall & H).
    exists w, s', g. simpl. by repeat split; auto.
  - destruct Hr as [Hw Hr1].
    apply IH1 in H as (w & s' & g' & -> & Ha & Hg' & Hc & H); [|done..].
    replace (pos + String.length w - pos)%nat with (String.length w) in H by lia.
    rewrite str_take_app in H.
    exists w, s', (<[name := w]> g'). repeat split; try done.
    + by apply captures_good_insert; [apply Hw|].
    + right. by apply good_nonempty, Hw.
Qed.

(** [pattern.match(val, pos)] found [m]: the matched text sits at [pos],
    without any scanning ahead. *)
Lemma re_match_sound r val pos m :
  groups_capture ic good r →
  re_match (Pattern r ic) val pos = Some m →
  ∃ w, accepts ic r w
       ∧ str_drop pos val = w ++ str_drop (String.length w) (str_drop pos val)
       ∧ m_end m = (pos + String.length w)%nat
       ∧ captures_good (m_groups m)
       ∧ (m_groups m = ∅ ∨ w ≠ "").
Proof.
  intros Hr H. unfold re_match in H. simpl in H.
  apply exec_sound in H as (w & s' & g' & Hs & Ha & Hg & Hc & H);
    [|done|apply captures_good_empty].
  injection H as <-. exists w. simpl. rewrite Hs, str_drop_app. by repeat split.
Qed.
End Soundness.

(** A pattern made of optional parts matches wherever it is tried. *)
Lemma exec_never_fails ic r : ∀ s pos g k,
  never_fails r = true →
  (∀ s' pos' g', is_Some (k s' pos' g')) →
  is_Some (exec ic r s pos g k).
Proof.
  induction r as [|c|p|r1 IH1 r2 IH2|r1 IH1 r2 IH2|r1 IH1|p|name r1 IH1];
    intros s pos g k Hr Hk; simpl in *; try done.
  - apply andb_prop in Hr as [Hr1 Hr2]. apply IH1; [done|].
    intros s' pos' g'. by apply IH2.
  - destruct (exec ic r1 s pos g k) eqn:H1; [done|].
    assert (is_Some (exec ic r1 s pos g k)) as [? Hs] by by apply IH1.
    congruence.
  - destruct (exec ic r1 s pos g k); [done | apply Hk].
  - apply IH1; [done|]. intros s' pos' g'. apply Hk.
Qed.

(** ** The calendar *)

Lemma all_from_spec fuel : ∀ i P,
  all_from fuel i P = true → ∀ j, i <= j < i + Z.of_nat fuel → P j = true.
Proof.
  induction fuel as [|fuel IH]; intros i P H j Hj; [lia|].
  simpl in H. destruct (P i) eqn:Hi; [|done].
  destruct (decide (j = i)) as [->|Hne]; [done|].
  apply (IH (i + 1) P H). lia.
Qed.

Lemma cycle_checked : all_from (Z.to_nat DI400Y) 0 cycle_day_ok = true.
Proof. vm_compute. reflexivity. Qed.

Lemma cycle_day r : 0 <= r < DI400Y → cycle_day_ok r = true.
Proof.
  intros Hr. apply (all_from_spec _ _ _ cycle_checked).
  rewrite Z2Nat.id; [lia | done].
Qed.

Lemma is_leap_cycle y q : is_leap (y + 400 * q) = is_leap y.
Proof.
  unfold is_leap.
  replace ((y + 400 * q) mod 4) with (y mod 4)
    by (replace (y + 400 * q) with (y + (100 * q) * 4) by lia;
        by rewrite Z_mod_plus_full).
  replace ((y + 400 * q) mod 100) with (y mod 100)
    by (replace (y + 400 * q) with (y + (4 * q) * 100) by lia;
        by rewrite Z_mod_plus_full).
  replace ((y + 400 * q) mod 400) with (y mod 400)
    by (replace (y + 400 * q) with (y + q * 400) by lia;
        by rewrite Z_mod_plus_full).
  done.
Qed.

Lemma ymd2ord_cycle y m d q : ymd2ord (y + 400 * q) m d = ymd2ord y m d + DI400Y * q.
Proof.
  unfold ymd2ord, days_before_month, days_before_year, DI400Y.
  rewrite is_leap_cycle. cbv zeta.
  replace ((y + 400 * q - 1) / 4) with ((y - 1) / 4 + 100 * q)
    by (replace (y + 400 * q - 1) with (y - 1 + (100 * q) * 4) by lia;
        by rewrite Z_div_plus_full).
  replace ((y + 400 * q - 1) / 100) with ((y - 1) / 100 + 4 * q)
    by (replace (y + 400 * q - 1) with (y - 1 + (4 * q) * 100) by lia;
        by rewrite Z_div_plus_full).
  replace ((y + 400 * q - 1) / 400) with ((y - 1) / 400 + q)
    by (replace (y + 400 * q - 1) with (y - 1 + q * 400) by lia;
        by rewrite Z_div_plus_full).
  lia.
Qed.

Lemma days_in_month_cycle y m q : days_in_month (y + 400 * q) m = days_in_month y m.
Proof. unfold days_in_month. by rewrite is_leap_cycle. Qed.

(** [ord2ymd] works cycle by cycle. *)
Lemma ord2ymd_cycle n :
  ord2ymd n =
  let '(y, m, d) := ord2ymd ((n - 1) mod DI400Y + 1) in
  (y + 400 * ((n - 1) / DI400Y), m, d).
Proof.
  unfold ord2ymd. cbv zeta.
  replace ((n - 1) mod DI400Y + 1 - 1) with ((n - 1) mod DI400Y) by lia.
  rewrite Z.mod_mod by done.
  rewrite (Z.div_small ((n - 1) mod DI400Y) DI400Y)
    by (apply Z.mod_pos_bound; done).
  set (r := (n - 1) mod DI400Y). set (q := (n - 1) / DI400Y).
  repeat match goal with
         | |- context [if ?b then _ else _] => destruct b
         end; f_equal; try f_equal; lia.
Qed.

(** The ordinal of the date of day [n] is [n]. *)
Lemma ymd2ord_ord2ymd n : let '(y, m, d) := ord2ymd n in ymd2ord y m d = n.
Proof.
  rewrite ord2ymd_cycle.
  pose proof (cycle_day ((n - 1) mod DI400Y)) as H.
  unfold cycle_day_ok in H.
  destruct (ord2ymd ((n - 1) mod DI400Y + 1)) as [[y m] d].
  rewrite ymd2ord_cycle.
  assert (0 <= (n - 1) mod DI400Y < DI400Y) as Hr by (apply Z.mod_pos_bound; done).
  specialize (H Hr). repeat (apply andb_prop in H as [H ?]).
  apply Z.eqb_eq in H. rewrite H.
  pose proof (Z.div_mod (n - 1) DI400Y). lia.
Qed.

(** Within the range of [datetime], [ord2ymd] yields a proper date. *)
Lemma ord2ymd_valid n :
  0 < n <= MAXORDINAL →
  let '(y, m, d) := ord2ymd n in
  MINYEAR <= y <= MAXYEAR ∧ 1 <= m <= 12 ∧ 1 <= d <= days_in_month y m.
Proof.
  intros Hn. rewrite ord2ymd_cycle.
  pose proof (cycle_day ((n - 1) mod DI400Y)) as H.
  unfold cycle_day_ok in H.
  destruct (ord2ymd ((n - 1) mod DI400Y + 1)) as [[y m] d].
  rewrite days_in_month_cycle.
  assert (0 <= (n - 1) mod DI400Y < DI400Y) as Hr by (apply Z.mod_pos_bound; done).
  specialize (H Hr). repeat (apply andb_prop in H as [H ?]).
  pose proof (Z.div_mod (n - 1) DI400Y).
  unfold MINYEAR, MAXYEAR, MAXORDINAL, DI400Y in *.
  assert (0 <= (n - 1) / 146097 < 25)
    by (split; [apply Z.div_pos | apply Z.div_lt_upper_bound]; lia).
  repeat match goal with
         | H : (_ <=? _) = true |- _ => apply Z.leb_le in H
         | H : (_ || _) = true |- _ => apply orb_prop in H as [H|H]
         | H : (_ <? _) = true |- _ => apply Z.ltb_lt in H
         end; lia.
Qed.

Import DateArgument.
Local Open Scope string_scope.
Local Open Scope Z_scope.

(** Linear arithmetic with division and remainder by constants. *)
Ltac divlia := Z.div_mod_to_equations; lia.

(** Membership in a list that is written out. *)
Ltac in_list :=
  simpl; repeat first [apply list_elem_of_here | apply list_elem_of_further].

Ltac not_in_list :=
  let H := fresh in
  simpl; intros H;
  repeat (apply elem_of_cons in H as [H|H]; [discriminate|]);
  by apply elem_of_nil in H.

(** ** Dates and moments *)

Lemma of_days_seconds_ordinal d s us : toordinal (of_days_seconds d s us) = d.
Proof.
  unfold toordinal, of_days_seconds.
  pose proof (ymd2ord_ord2ymd d) as H.
  by destruct (ord2ymd d) as [[y m] dd].
Qed.

Lemma of_days_seconds_time d s us :
  let f := of_days_seconds d s us in
  hour f = s / 3600 ∧ minute f = s mod 3600 / 60 ∧ second f = s mod 3600 mod 60
  ∧ microsecond f = us.
Proof. unfold of_days_seconds. by destruct (ord2ymd d) as [[y m] dd]. Qed.

Lemma wall_micros_of_days_seconds d s us :
  wall_micros (of_days_seconds d s us) = (d * 86400 + s) * US_PER_SECOND + us.
Proof.
  unfold wall_micros. rewrite of_days_seconds_ordinal.
  destruct (of_days_seconds_time d s us) as (-> & -> & -> & ->).
  unfold US_PER_SECOND. divlia.
Qed.

Lemma of_days_seconds_ok d s us :
  0 < d <= MAXORDINAL → 0 <= s < 86400 → 0 <= us < 1000000 →
  fields_ok (of_days_seconds d s us) = true.
Proof.
  intros Hd Hs Hus. unfold fields_ok.
  destruct (of_days_seconds_time d s us) as (-> & -> & -> & ->).
  unfold of_days_seconds. pose proof (ord2ymd_valid d Hd) as H.
  destruct (ord2ymd d) as [[y m] dd]. simpl.
  destruct H as (? & ? & ?).
  repeat (apply andb_true_intro; split); apply Z.leb_le; divlia.
Qed.

Lemma fields_at_micros t off :
  wall_micros (fields_at t off) = t + (EPOCH_ORDINAL * 86400 + off) * US_PER_SECOND.
Proof.
  unfold fields_at. rewrite wall_micros_of_days_seconds.
  unfold day_number, US_PER_DAY, US_PER_SECOND. divlia.
Qed.

Lemma fields_at_ok t off :
  0 < day_number t off <= MAXORDINAL → fields_ok (fields_at t off) = true.
Proof.
  intros H. unfold fields_at. apply of_days_seconds_ok; [done|..];
    unfold US_PER_DAY, US_PER_SECOND; divlia.
Qed.

Lemma truncated_now t off :
  set_microsecond (fields_at t off) 0
  = of_days_seconds (day_number t off)
      ((t + (EPOCH_ORDINAL * 86400 + off) * US_PER_SECOND) mod US_PER_DAY / US_PER_SECOND) 0.
Proof.
  unfold fields_at, set_microsecond, of_days_seconds.
  by destruct (ord2ymd (day_number t off)) as [[y m] d].
Qed.

Lemma truncated_now_ok t off :
  0 < day_number t off <= MAXORDINAL →
  replace (set_microsecond (fields_at t off) 0) = Return (set_microsecond (fields_at t off) 0).
Proof.
  intros H. unfold replace. rewrite truncated_now, of_days_seconds_ok; [done..| |];
    unfold US_PER_DAY, US_PER_SECOND; divlia.
Qed.

Lemma truncated_now_posix t :
  posix_micros (DateTime (set_microsecond (fields_at t 0) 0) (UTC t))
  = t / US_PER_SECOND * US_PER_SECOND.
Proof.
  unfold posix_micros. simpl. rewrite truncated_now, wall_micros_of_days_seconds.
  unfold day_number, EPOCH_ORDINAL, US_PER_DAY, US_PER_SECOND. divlia.
Qed.

Lemma datetime_sub_posix a b :
  datetime_sub a b = td_of_micros (posix_micros a - posix_micros b).
Proof. unfold datetime_sub, posix_micros. f_equal. lia. Qed.

(** ** Running a computation *)

Lemma run_bind {A B} (m : Py A) (f : A → Py B) c a c' :
  m c = (Return a, c') → (x ← m; f x) c = f a c'.
Proof. intros H. unfold mbind, Py_bind. by rewrite H. Qed.

Lemma run_bind_raise {A B} (m : Py A) (f : A → Py B) c e c' :
  m c = (Raise e, c') → (x ← m; f x) c = (Raise e, c').
Proof. intros H. unfold mbind, Py_bind. by rewrite H. Qed.

Lemma run_now tz c :
  datetime_now tz c
  = (Return (DateTime (fields_at (readings c (reads c)) (utcoffset (tz (readings c (reads c)))))
                      (tz (readings c (reads c)))), advance c).
Proof. done. Qed.

(** ** [format_time] *)

Lemma td_of_micros_eq D :
  Z.abs (D / US_PER_DAY) <= 999999999 →
  td_of_micros D
  = Return (TimeDelta (D / US_PER_DAY) (D mod US_PER_DAY / US_PER_SECOND)
              (D mod US_PER_DAY mod US_PER_SECOND)).
Proof.
  intros H. unfold td_of_micros.
  by replace (999999999 <? Z.abs (D / US_PER_DAY)) with false
    by (symmetry; apply Z.ltb_ge; lia).
Qed.

(** [format_time] reads the clock once and then works on the distance [D],
    in microseconds, between the target and that reading cut to the second. *)
Lemma format_time_micros time clk D :
  0 < day_number (readings clk (reads clk)) 0 <= MAXORDINAL →
  posix_micros time = readings clk (reads clk) / US_PER_SECOND * US_PER_SECOND + D →
  Z.abs (D / US_PER_DAY) <= 999999999 →
  format_time time clk
  = (if D <=? 7 * US_PER_DAY
     then relative (TimeDelta (D / US_PER_DAY) (D mod US_PER_DAY / US_PER_SECOND)
                      (D mod US_PER_DAY mod US_PER_SECOND))
     else Return (strftime_at time), advance clk).
Proof.
  intros Hc HT Hb. unfold format_time.
  rewrite (run_bind _ _ _ _ _ (run_now UTC clk)). simpl wall. simpl zone.
  unfold lift at 1. rewrite truncated_now_ok by done.
  unfold mbind at 1, Py_bind at 1.
  assert (datetime_sub time
            (DateTime (set_microsecond (fields_at (readings clk (reads clk)) 0) 0)
                      (UTC (readings clk (reads clk))))
          = Return (TimeDelta (D / US_PER_DAY) (D mod US_PER_DAY / US_PER_SECOND)
                      (D mod US_PER_DAY mod US_PER_SECOND))) as Hsub.
  { rewrite datetime_sub_posix, truncated_now_posix, HT.
    replace (_ + D - _) with D by lia.
    by apply td_of_micros_eq. }
  change (utcoffset (UTC (readings clk (reads clk)))) with 0.
  unfold mbind, Py_bind, lift, mret, Py_ret. rewrite Hsub.
  unfold td_le, td_micros, seven_days. cbn [td_days td_seconds td_microseconds].
  replace ((D / US_PER_DAY * 86400 + D mod US_PER_DAY / US_PER_SECOND) * US_PER_SECOND
           + D mod US_PER_DAY mod US_PER_SECOND) with D
    by (unfold US_PER_DAY, US_PER_SECOND; divlia).
  replace ((7 * 86400 + 0) * US_PER_SECOND + 0) with (7 * US_PER_DAY) by done.
  by destruct (D <=? 7 * US_PER_DAY).
Qed.

Lemma format_time_seconds time clk T :
  0 < day_number (readings clk (reads clk)) 0 <= MAXORDINAL →
  posix_micros time
    = readings clk (reads clk) / US_PER_SECOND * US_PER_SECOND + T * US_PER_SECOND →
  Z.abs (T / 86400) <= 999999999 →
  format_time time clk
  = (if T <=? 7 * 86400 then relative (TimeDelta (T / 86400) (T mod 86400) 0)
     else Return (strftime_at time), advance clk).
Proof.
  intros Hc HT Hb.
  assert (T * US_PER_SECOND / US_PER_DAY = T / 86400) as Hd
    by (unfold US_PER_DAY, US_PER_SECOND; divlia).
  rewrite (format_time_micros time clk (T * US_PER_SECOND)); [|done|done|by rewrite Hd].
  rewrite Hd.
  replace (T * US_PER_SECOND mod US_PER_DAY / US_PER_SECOND) with (T mod 86400)
    by (unfold US_PER_DAY, US_PER_SECOND; divlia).
  replace (T * US_PER_SECOND mod US_PER_DAY mod US_PER_SECOND) with 0
    by (unfold US_PER_DAY, US_PER_SECOND; divlia).
  destruct (T <=? 7 * 86400) eqn:HT7.
  - by replace (_ <=? _) with true
      by (symmetry; apply Z.leb_le; apply Z.leb_le in HT7;
          unfold US_PER_DAY, US_PER_SECOND; lia).
  - by replace (_ <=? _) with false
      by (symmetry; apply Z.leb_gt; apply Z.leb_gt in HT7;
          unfold US_PER_DAY, US_PER_SECOND; lia).
Qed.

Lemma clause_pos v unit : 0 <= v →
  (if 0 <? v then [pluralize v unit] else []) = clause v unit.
Proof.
  intros Hv. unfold clause.
  destruct (0 <? v) eqn:H1, (v =? 0) eqn:H2; try done; lia.
Qed.

(** The code's two divisions by 60 give the hours, minutes and seconds of the
    seconds of the day, and its clauses are joined as the specification says. *)
Lemma relative_spec d s us :
  0 <= d → 0 <= s → 0 < d ∨ 0 < s →
  relative (TimeDelta d s us)
  = Return (spec_format d (s / 3600) (s mod 3600 / 60) (s mod 3600 mod 60)).
Proof.
  intros Hd Hs Hpos. unfold relative, spec_format.
  cbn [td_days td_seconds td_microseconds]. cbv zeta.
  replace (s / 60 / 60) with (s / 3600) by divlia.
  replace ((s / 60) mod 60) with (s mod 3600 / 60) by divlia.
  replace (s mod 60) with (s mod 3600 mod 60) by divlia.
  assert (0 <= s / 3600) by divlia.
  assert (0 <= s mod 3600 / 60) by divlia.
  assert (0 <= s mod 3600 mod 60) by divlia.
  assert (0 < d ∨ 0 < s / 3600 ∨ 0 < s mod 3600 / 60 ∨ 0 < s mod 3600 mod 60)
    as Hsome by divlia.
  unfold clause.
  generalize dependent (s / 3600). generalize dependent (s mod 3600 / 60).
  generalize dependent (s mod 3600 mod 60).
  intros sec Hsec mi Hmi h Hh Hsome.
  destruct (0 <? d) eqn:E1, (0 <? h) eqn:E2, (0 <? mi) eqn:E3, (0 <? sec) eqn:E4;
    destruct (d =? 0) eqn:F1, (h =? 0) eqn:F2, (mi =? 0) eqn:F3, (sec =? 0) eqn:F4;
    try lia; simpl; try done; repeat (rewrite str_app_assoc; simpl); done.
Qed.

(** With no unit above zero there is no clause, and taking the last one fails. *)
Lemma relative_empty d us : d <= 0 → relative (TimeDelta d 0 us) = Raise IndexError.
Proof.
  intros Hd. unfold relative. cbn [td_days td_seconds]. cbv zeta.
  replace (0 <? d) with false by (symmetry; apply Z.ltb_ge; lia). done.
Qed.

(** ** Numerals *)

Lemma digits_value_some s :
  Forall (λ x, digit x = true) (list_ascii_of_string s) →
  ∀ acc, ∃ n, digits_value acc s = Some n.
Proof.
  induction s as [|c s IH]; intros H acc; simpl; [by eexists|].
  simpl in H. apply Forall_cons in H as [Hc Hs]. rewrite Hc. by apply IH.
Qed.

Lemma digit_not_sign x :
  digit x = true → Ascii.eqb x "-" = false ∧ Ascii.eqb x "+" = false.
Proof.
  intros H. split.
  - destruct (Ascii.eqb_spec x "-") as [->|]; [by vm_compute in H | done].
  - destruct (Ascii.eqb_spec x "+") as [->|]; [by vm_compute in H | done].
Qed.

Lemma digits_numeral s :
  s ≠ "" → Forall (λ x, digit x = true) (list_ascii_of_string s) → numeral s.
Proof.
  intros Hne Hall. split; [done|].
  destruct s as [|c s]; [done|]. unfold py_int.
  pose proof Hall as Hall'. simpl in Hall'. apply Forall_cons in Hall' as [Hc _].
  destruct (digit_not_sign c Hc) as [-> ->].
  destruct (digits_value_some _ Hall 0) as [n ->]. by eexists.
Qed.

(** [[-+]?\d+] captures a numeral. *)
Lemma signed_digits_numeral ic w :
  accepts ic (Cat (Maybe (Class (one_of "-+"))) (Many1 digit)) w → numeral w.
Proof.
  intros (w1 & w2 & -> & Hsign & Hne & Hall). simpl in Hsign.
  destruct Hsign as [-> | (x & Hw & Hx)]; [by apply digits_numeral|]. subst w1.
  split; [done|]. destruct w2 as [|c w2]; [done|].
  destruct (digits_value_some _ Hall 0) as [n Hn].
  assert (x = "-"%char ∨ x = "+"%char) as [-> | ->].
  { unfold one_of in Hx. simpl in Hx.
    apply orb_prop in Hx as [Hx|Hx]; [left; by apply Ascii.eqb_eq|].
    apply orb_prop in Hx as [Hx|Hx]; [right; by apply Ascii.eqb_eq | done]. }
  - change (py_int _) with
      (match digits_value 0 (String c w2) with
       | Some n => Return (-1 * n) | None => Raise ValueError end).
    rewrite Hn. by eexists.
  - change (py_int _) with
      (match digits_value 0 (String c w2) with
       | Some n => Return (1 * n) | None => Raise ValueError end).
    rewrite Hn. by eexists.
Qed.

(** [\d{2}] captures a numeral. *)
Lemma two_digits_numeral ic w : accepts ic (times 2 (Class digit)) w → numeral w.
Proof.
  intros (w1 & w2 & -> & (x1 & -> & H1) & (x2 & -> & H2)).
  apply digits_numeral; [done|]. simpl. by repeat constructor.
Qed.

Lemma numeral_nonempty w : numeral w → w ≠ "".
Proof. by intros [? _]. Qed.

Lemma timedelta_groups : groups_capture true numeral (pat_regex timedelta_regex).
Proof.
  cbv [pat_regex timedelta_regex delta_field cat str groups_capture].
  repeat match goal with
         | |- _ ∧ _ => split
         | |- True => exact I
         | |- ∀ w, _ → numeral w => apply signed_digits_numeral
         end.
Qed.

Lemma time_groups : groups_capture true numeral (pat_regex time_regex).
Proof.
  cbv [pat_regex time_regex cat str groups_capture].
  repeat match goal with
         | |- _ ∧ _ => split
         | |- True => exact I
         | |- ∀ w, _ → numeral w => apply two_digits_numeral
         end.
  all: by simpl.
Qed.

(** ** Dict comprehensions over groups *)

Lemma dict_of_keys conv items d k :
  dict_of conv items = Return d → is_Some (d !! k) → k ∈ map fst items.
Proof.
  revert d. induction items as [|[k' v] items IH]; intros d H Hk; simpl in *.
  - injection H as <-. rewrite lookup_empty in Hk. by destruct Hk.
  - destruct v as [[|c v]|]; try (right; by eapply IH).
    destruct (conv (String c v)) as [x|]; [|done]. simpl in H.
    destruct (dict_of conv items) as [d'|]; [|done]. simpl in H.
    injection H as <-. rewrite lookup_insert in Hk. case_decide as Hd.
    + subst. left.
    + right. by eapply IH.
Qed.

Lemma dict_of_total conv items :
  (∀ k v, (k, Some v) ∈ items → v ≠ "" → ∃ n, conv v = Return n) →
  ∃ d, dict_of conv items = Return d.
Proof.
  induction items as [|[k v] items IH]; intros H; simpl; [by eexists|].
  destruct IH as [d Hd].
  { intros k' v' Hin. apply (H k' v'). by right. }
  destruct v as [[|c v]|]; try by eexists.
  destruct (H k (String c v)) as [n ->]; [left | done |].
  rewrite Hd. simpl. by eexists.
Qed.

Lemma dict_of_absent conv items :
  (∀ k v, (k, v) ∈ items → v = None) → dict_of conv items = Return ∅.
Proof.
  induction items as [|[k v] items IH]; intros H; simpl; [done|].
  rewrite (H k v) by constructor. apply IH. intros k' v' Hin. eapply H. by right.
Qed.

Lemma groupdict_some p m k v :
  (k, Some v) ∈ groupdict p m → m_groups m !! k = Some v.
Proof.
  unfold groupdict. intros H. apply list_elem_of_fmap in H as (name & [= -> ->] & _).
  done.
Qed.

(** The groups of a match whose captures are numerals convert without error. *)
Lemma dict_of_groups p m :
  captures_good numeral (m_groups m) →
  ∃ d, dict_of py_int (groupdict p m) = Return d.
Proof.
  intros Hg. apply dict_of_total. intros k v Hin _.
  apply groupdict_some in Hin. by destruct (Hg k v Hin) as [_ ?].
Qed.

(** ** The patterns of the module *)

Lemma lower_app a b : lower (a ++ b) = lower a ++ lower b.
Proof. induction a as [|c a IH]; simpl; [done | by rewrite IH]. Qed.

Lemma lower_take n s : lower (str_take n s) = str_take n (lower s).
Proof.
  revert s. induction n as [|n IH]; intros [|c s]; simpl; try done. by rewrite IH.
Qed.

(** Under [IGNORECASE] a literal text matches exactly the texts that lower
    to the same characters. *)
Lemma accepts_str s : ∀ w, accepts true (str s) w → lower w = lower s.
Proof.
  induction s as [|c s IH]; intros w H; [by simpl in H; subst|].
  assert (∀ x, lit_eq true c x = true → chr_lower x = chr_lower c) as Hlit.
  { intros x Hx. by apply Ascii.eqb_eq in Hx. }
  destruct s as [|c' s].
  - destruct H as (x & -> & Hx). simpl. by rewrite (Hlit x Hx).
  - destruct H as (w1 & w2 & -> & (x & -> & Hx) & H2).
    apply IH in H2. simpl in *. by rewrite (Hlit x Hx), H2.
Qed.

(** The pattern of relative deltas matches every text. *)
Lemma timedelta_always_matches val : is_Some (re_match timedelta_regex val 0).
Proof.
  unfold re_match. apply exec_never_fails; [done | by eauto].
Qed.

(** What a match of the pattern of relative deltas looks like: the captured
    groups are numerals, and there are none unless text was consumed. *)
Lemma timedelta_match val m :
  re_match timedelta_regex val 0 = Some m →
  captures_good numeral (m_groups m) ∧ (m_end m = 0%nat → m_groups m = ∅).
Proof.
  intros H.
  apply (re_match_sound true numeral numeral_nonempty) in H
    as (w & _ & _ & Hend & Hg & Hc); [|apply timedelta_groups].
  split; [done|]. intros H0. destruct Hc as [|Hne]; [done|].
  destruct w; [done|]. simpl in Hend. lia.
Qed.

Lemma timedelta_nothing val m :
  re_match timedelta_regex val 0 = Some m → m_end m = 0%nat →
  ∀ conv, dict_of conv (groupdict timedelta_regex m) = Return ∅.
Proof.
  intros H H0 conv. apply timedelta_match in H as [_ He]. specialize (He H0).
  apply dict_of_absent. intros k v Hin. unfold groupdict in Hin.
  apply list_elem_of_fmap in Hin as (name & [= -> ->] & _).
  rewrite He. apply lookup_empty.
Qed.

Lemma time_match val pos m :
  re_match time_regex val pos = Some m → captures_good numeral (m_groups m).
Proof.
  intros H.
  by apply (re_match_sound true numeral numeral_nonempty) in H
    as (w & _ & _ & _ & Hg & _); [|apply time_groups].
Qed.

(** Where the pattern of day names matches, the first three characters,
    lowered, are one of the nine keys of the table. *)
Lemma day_match_key val m :
  re_match day_regex val 0 = Some m → lower (str_take 3 val) ∈ day_keys.
Proof.
  intros H.
  apply (re_match_sound true numeral numeral_nonempty) in H
    as (w & Ha & Hval & _); [|by cbv [pat_regex day_regex alt cat str groups_capture]].
  simpl str_drop in Hval. rewrite Hval.
  generalize (str_drop (String.length w) val). intros rest. clear Hval.
  cbv [pat_regex day_regex alt cat] in Ha. cbn [accepts] in Ha.
  rewrite lower_take, lower_app.
  repeat match goal with
         | H : _ ∨ _ |- _ => destruct H as [?|?]
         end;
    repeat match goal with
           | H : ∃ _, _ |- _ => destruct H as (? & ?)
           | H : _ ∧ _ |- _ => destruct H as [? ?]
           end;
    subst; rewrite ?lower_app;
    repeat match goal with
           | H : accepts true (str _) _ |- _ => apply accepts_str in H; rewrite H
           end;
    vm_compute lower; simpl; unfold day_keys; in_list.
Qed.

Lemma subscript_day_key a b key :
  key ∈ day_keys →
  ∃ wd, subscript
          [("tod", a); ("tom", b); ("mon", 0); ("tue", 1); ("wed", 2); ("thu", 3);
           ("fri", 4); ("sat", 5); ("sun", 6)] key = Return wd.
Proof.
  unfold day_keys. intros H.
  repeat (apply elem_of_cons in H as [->|H]; [by eexists|]).
  by apply elem_of_nil in H.
Qed.

(** ** Collecting the fields *)

Lemma run_now_naive c :
  datetime_now_naive c
  = (Return (fields_at (readings c (reads c))
               (utcoffset (system_zone c (readings c (reads c))))), advance c).
Proof. done. Qed.

(** Steps 2 and 3 never raise. A day name costs two readings of the clock
    and sets [weekday]; an ISO date sets nothing. *)
Lemma day_or_date_cases val m clk :
  re_match timedelta_regex val 0 = Some m → m_end m = 0%nat →
  (∃ found_day wd,
      re_match day_regex val 0 = Some found_day
      ∧ subscript (day_table clk) (lower (str_take 3 val)) = Return wd
      ∧ day_or_date' val m clk
        = (Return (m_end found_day, {["weekday" := wd]}), advance (advance clk)))
  ∨ (re_match day_regex val 0 = None
     ∧ day_or_date' val m clk
       = (Return (from_option m_end 0%nat (re_match date_regex val 0), ∅), clk)).
Proof.
  intros Hm H0. unfold day_or_date.
  destruct (re_match day_regex val 0) as [found_day|] eqn:Hday.
  - left.
    destruct (subscript_day_key (weekday (host_fields clk 0))
                (weekday (host_fields clk 1) + 1) _ (day_match_key _ _ Hday))
      as [wd Hwd].
    exists found_day, wd. split; [done|]. split; [done|].
    rewrite (run_bind _ _ _ _ _ (run_now_naive clk)).
    rewrite (run_bind _ _ _ _ _ (run_now_naive (advance clk))).
    unfold day_table, host_fields in Hwd. simpl in Hwd.
    rewrite Nat.add_0_r, Nat.add_1_r in Hwd.
    unfold mbind, Py_bind, lift. simpl. by rewrite Hwd.
  - right. split; [done|].
    destruct (re_match date_regex val 0) as [found_date|]; [|done].
    unfold mbind, Py_bind, lift. by rewrite (timedelta_nothing _ _ Hm H0).
Qed.

(** Step 4 never raises. *)
Lemma clock_time_cases val end_ params clk :
  (∃ found_time clock_fields,
      re_match time_regex val end_ = Some found_time
      ∧ dict_of py_int (groupdict time_regex found_time) = Return clock_fields
      ∧ clock_time' val end_ params clk
        = (Return (m_end found_time, clock_fields ∪ params), clk))
  ∨ (re_match time_regex val end_ = None
     ∧ clock_time' val end_ params clk = (Return (end_, params), clk)).
Proof.
  unfold clock_time.
  destruct (re_match time_regex val end_) as [found_time|] eqn:Htime; [left | by right].
  destruct (dict_of_groups time_regex found_time (time_match _ _ _ Htime)) as [cf Hcf].
  exists found_time, cf. split; [done|]. split; [done|].
  unfold mbind, Py_bind, lift. by rewrite Hcf.
Qed.

(** The delta step alone decides the outcome once it has consumed text. *)
Lemma parse_fields_delta val m clk :
  re_match timedelta_regex val 0 = Some m → (0 < m_end m)%nat →
  ∃ params, dict_of py_float (groupdict timedelta_regex m) = Return params
            ∧ parse_fields val clk = (Return (m_end m, params), clk).
Proof.
  intros Hm Hpos. unfold parse_fields, collect. rewrite Hm.
  replace (0 <? m_end m)%nat with true by (symmetry; by apply Nat.ltb_lt).
  destruct (dict_of_groups timedelta_regex m (proj1 (timedelta_match _ _ Hm)))
    as [params Hp].
  exists params. split; [done|].
  unfold mbind, Py_bind, lift. unfold py_float. by rewrite Hp.
Qed.

(** Without a delta, steps 2 and 3 are followed by step 4. *)
Lemma parse_fields_no_delta val m clk :
  re_match timedelta_regex val 0 = Some m → m_end m = 0%nat →
  parse_fields val clk
  = (x ← day_or_date' val m; clock_time' val x.1 x.2) clk.
Proof.
  intros Hm H0. unfold parse_fields, collect. rewrite Hm, H0. simpl.
  unfold mbind, Py_bind. by destruct (day_or_date' val m clk) as [[[? ?]|] ?].
Qed.

Lemma parse_fields_returns val clk :
  ∃ end_ params clk', parse_fields val clk = (Return (end_, params), clk').
Proof.
  destruct (timedelta_always_matches val) as [m Hm].
  destruct (decide (m_end m = 0%nat)) as [H0|Hpos].
  - rewrite (parse_fields_no_delta _ _ _ Hm H0).
    destruct (day_or_date_cases val m clk Hm H0)
      as [(fd & wd & _ & _ & Hd) | (_ & Hd)];
      rewrite (run_bind _ _ _ _ _ Hd); simpl;
      match goal with
      | |- context [clock_time' val ?e ?p ?c] =>
          destruct (clock_time_cases val e p c)
            as [(ft & cf & _ & _ & ->) | (_ & ->)]
      end; eauto.
  - destruct (parse_fields_delta val m clk Hm) as (params & _ & ->); [lia|]. eauto.
Qed.

Lemma groupdict_keys p m : map fst (groupdict p m) = group_names (pat_regex p).
Proof. unfold groupdict. rewrite map_map. simpl. apply map_id. Qed.

Lemma delta_dict_keys conv m d k :
  dict_of conv (groupdict timedelta_regex m) = Return d →
  is_Some (d !! k) → k ∈ delta_keys.
Proof.
  intros Hd Hk. apply (dict_of_keys _ _ _ _ Hd) in Hk.
  by rewrite groupdict_keys in Hk.
Qed.

Lemma clock_dict_keys conv m d k :
  dict_of conv (groupdict time_regex m) = Return d →
  is_Some (d !! k) → k ∈ clock_keys.
Proof.
  intros Hd Hk. apply (dict_of_keys _ _ _ _ Hd) in Hk.
  by rewrite groupdict_keys in Hk.
Qed.

Lemma not_delta_key k (d : gmap string Z) :
  k ∉ delta_keys → (is_Some (d !! k) → k ∈ delta_keys) → d !! k = None.
Proof.
  intros Hk H. destruct (d !! k) eqn:E; [|done]. destruct Hk. apply H. by eexists.
Qed.

(** The keys that [collect] can put into the field map. *)
Lemma parse_fields_keys val clk end_ params clk' k :
  parse_fields val clk = (Return (end_, params), clk') →
  is_Some (params !! k) → k ∈ (delta_keys ++ "weekday" :: clock_keys)%list.
Proof.
  intros H Hk. destruct (timedelta_always_matches val) as [m Hm].
  destruct (decide (m_end m = 0%nat)) as [H0|Hpos].
  - rewrite (parse_fields_no_delta _ _ _ Hm H0) in H.
    assert (∀ e0 p0 c0, clock_time' val e0 p0 c0 = (Return (end_, params), clk') →
                        is_Some (p0 !! k) ∨ k ∈ clock_keys) as Hstep.
    { intros e0 p0 c0 Hc.
      destruct (clock_time_cases val e0 p0 c0) as [(ft & cf & _ & Hcf & Hr) | (_ & Hr)];
        rewrite Hr in Hc; injection Hc as <- <- <-; [|by left].
      apply lookup_union_is_Some in Hk as [Hk|Hk]; [right | by left].
      by eapply clock_dict_keys. }
    destruct (day_or_date_cases val m clk Hm H0)
      as [(fd & wd & _ & _ & Hd) | (_ & Hd)];
      rewrite (run_bind _ _ _ _ _ Hd) in H; simpl in H;
      apply Hstep in H as [H|H].
    + apply lookup_singleton_is_Some in H as ->. unfold delta_keys, clock_keys. in_list.
    + apply elem_of_app. right. by right.
    + rewrite lookup_empty in H. by destruct H.
    + apply elem_of_app. right. by right.
  - destruct (parse_fields_delta val m clk Hm) as (p & Hp & Hr); [lia|].
    rewrite Hr in H. injection H as <- <- <-.
    apply elem_of_app. left. by eapply delta_dict_keys.
Qed.

(** * The claims *)

(** ** C1 *)

(** C1, as stated, fails: on "2d at 14:30" the relative-delta step consumes
    "2d " and the clock time behind it is neither consumed nor merged: the
    field map holds [days] alone and "at 14:30" is handed back. *)
Lemma C1_clock_time_skipped_after_delta :
  (m_end <$> re_match timedelta_regex "2d at 14:30" 0) = Some 3%nat
  ∧ parse_fields "2d at 14:30" (frozen tuesday_noon UTC)
    = (Return (3%nat, {["days" := 2]}), frozen tuesday_noon UTC)
  ∧ ({["days" := 2]} : gmap string Z) !! "hour" = None
  ∧ ({["days" := 2]} : gmap string Z) !! "minute" = None
  ∧ fst (match_ "2d at 14:30" None (frozen tuesday_noon UTC))
    = Return ("at 14:30", Some (DateTime (Fields 2026 11 5 12 34 56 789012) (UTC 0))).
Proof. repeat split; vm_compute; reflexivity. Qed.

(** C1, amended: the clock-time step is attempted only when the
    relative-delta step consumed nothing. When the delta step consumes a
    prefix, the outcome is the delta's fields and the end of the delta match,
    with no clock reading and without [hour], [minute] or [second]; when it
    consumes nothing, steps 2 and 3 run and the clock-time step follows them
    at the offset they reached, merging its fields over theirs. *)
Theorem C1_clock_time_only_without_delta (val : string) (found_delta : match_obj)
    (clk : sysclock) :
  re_match timedelta_regex val 0 = Some found_delta →
  ((0 < m_end found_delta)%nat →
     ∃ params,
       dict_of py_float (groupdict timedelta_regex found_delta) = Return params
       ∧ parse_fields val clk = (Return (m_end found_delta, params), clk)
       ∧ params !! "hour" = None ∧ params !! "minute" = None
       ∧ params !! "second" = None)
  ∧ (m_end found_delta = 0%nat →
     parse_fields val clk
     = (x ← day_or_date' val found_delta; clock_time' val x.1 x.2) clk
     ∧ ∀ end_ params c,
         (∃ found_time clock_fields,
             re_match time_regex val end_ = Some found_time
             ∧ dict_of py_int (groupdict time_regex found_time) = Return clock_fields
             ∧ clock_time' val end_ params c
               = (Return (m_end found_time, clock_fields ∪ params), c))
         ∨ (re_match time_regex val end_ = None
            ∧ clock_time' val end_ params c = (Return (end_, params), c))).
Proof.
  intros Hm. split.
  - intros Hpos. destruct (parse_fields_delta val _ clk Hm Hpos) as (params & Hp & Hr).
    exists params. split; [done|]. split; [done|].
    repeat split; apply not_delta_key;
      (unfold delta_keys; not_in_list) || (intros Hk; by eapply delta_dict_keys).
  - intros H0. split; [by apply parse_fields_no_delta|].
    intros end_ params c. apply clock_time_cases.
Qed.

Lemma C1_clock_time_only_without_delta_witness :
  re_match timedelta_regex "2d at 14:30" 0 = Some (MatchObj 3 {["days" := "2"]})
  ∧ ∃ params,
      parse_fields "2d at 14:30" (frozen tuesday_noon UTC)
      = (Return (3%nat, params), frozen tuesday_noon UTC)
      ∧ params !! "hour" = None.
Proof.
  assert (re_match timedelta_regex "2d at 14:30" 0 = Some (MatchObj 3 {["days" := "2"]}))
    as Hm by (vm_compute; reflexivity).
  split; [exact Hm|].
  destruct (C1_clock_time_only_without_delta "2d at 14:30" _ (frozen tuesday_noon UTC) Hm)
    as [Hdelta _].
  destruct Hdelta as (params & _ & Hr & Hh & _); [simpl; lia|].
  exists params. split; [exact Hr | exact Hh].
Defined.

(** ** C2 *)

(** C2: the code does not do what the claim says. On "2024-05-01 at 10:00"
    the date is consumed but its groups are never read (line 91 reads the
    groups of [found_delta]), so the result keeps today's date and the
    current second. And whatever the text, [year], [month] and [day] never
    reach the field map. *)
Theorem C2_iso_date_fields_never_set :
  parse_fields "2024-05-01 at 10:00" (frozen tuesday_noon UTC)
  = (Return (19%nat, {["hour" := 10; "minute" := 0]}), frozen tuesday_noon UTC)
  ∧ fst (match_ "2024-05-01 at 10:00" None (frozen tuesday_noon UTC))
    = Return ("", Some (DateTime (Fields 2026 11 3 10 0 56 789012) (UTC 0)))
  ∧ ∀ val clk end_ params clk',
      parse_fields val clk = (Return (end_, params), clk') →
      params !! "year" = None ∧ params !! "month" = None ∧ params !! "day" = None.
Proof.
  split; [by vm_compute|]. split; [by vm_compute|].
  intros val clk end_ params clk' H.
  repeat split;
    match goal with
    | |- params !! ?k = None =>
        destruct (params !! k) eqn:E; [exfalso | done];
        assert (k ∈ (delta_keys ++ "weekday" :: clock_keys)%list) as Hk
          by (eapply parse_fields_keys; [exact H | by eexists]);
        revert Hk; unfold delta_keys, clock_keys; not_in_list
    end.
Qed.

Lemma C2_iso_date_fields_never_set_witness :
  ∃ end_ params clk',
    parse_fields "2024-05-01" (frozen tuesday_noon UTC) = (Return (end_, params), clk')
    ∧ params !! "year" = None.
Proof.
  exists 10%nat, ∅, (frozen tuesday_noon UTC).
  assert (parse_fields "2024-05-01" (frozen tuesday_noon UTC)
          = (Return (10%nat, ∅), frozen tuesday_noon UTC)) as H by (by vm_compute).
  split; [exact H|].
  exact (proj1 (proj2 (proj2 C2_iso_date_fields_never_set) _ _ _ _ _ H)).
Defined.

(** ** C5 *)

(** C5: the code does not do what the claim says. An ISO date is consumed
    although it adds nothing to the field map (the defect of C2), so the
    result has no timestamp and yet the remaining text has lost the date.
    Text that no step matches does come back whole. *)
Theorem C5_no_timestamp_but_text_consumed (clk : sysclock) :
  match_ "2024-05-01 buy milk" None clk = (Return (" buy milk", None), clk)
  ∧ match_ "2024-05-01" None clk = (Return ("", None), clk)
  ∧ match_ "buy milk" None clk = (Return ("buy milk", None), clk).
Proof. repeat split; vm_compute; reflexivity. Qed.

(** ** C9 *)

(** C9: [parse_timezone] returns [None] for the empty text, raises the
    argument error with the offending value at the head of its message for a
    name the database does not know, and returns the zone of a known name. *)
Theorem C9_parse_timezone (pytz_timezone : string → option timezone) (val : string) :
  parse_timezone pytz_timezone "" = Return None
  ∧ (val ≠ "" → pytz_timezone val = None →
     parse_timezone pytz_timezone val
     = Raise (ArgumentSyntaxError (val ++ " is not a valid time zone.") false))
  ∧ (∀ tz, val ≠ "" → pytz_timezone val = Some tz →
     parse_timezone pytz_timezone val = Return (Some tz)).
Proof.
  split; [done|]. unfold parse_timezone.
  split; [intros Hne Hdb | intros tz Hne Hdb]; destruct val; try done; by rewrite Hdb.
Qed.

Lemma C9_parse_timezone_witness :
  parse_timezone one_zone_db "Not/AZone"
  = Raise (ArgumentSyntaxError "Not/AZone is not a valid time zone." false)
  ∧ ∃ tz, parse_timezone one_zone_db "Europe/Helsinki" = Return (Some tz).
Proof.
  destruct (C9_parse_timezone one_zone_db "Not/AZone") as (_ & Hbad & _).
  destruct (C9_parse_timezone one_zone_db "Europe/Helsinki") as (_ & _ & Hgood).
  split.
  - apply Hbad; [discriminate | reflexivity].
  - eexists. apply Hgood; [discriminate | reflexivity].
Defined.

(** ** C4 *)

(** C4: the code does not do what the claim says. When the target is the
    current moment (to the second) no unit is above zero, the list of clauses
    is empty, and line 137 fails on its last element: [format_time] raises
    [IndexError] instead of returning "in ". *)
Theorem C4_format_time_zero_raises (time : datetime) (clk : sysclock) :
  0 < day_number (readings clk (reads clk)) 0 <= MAXORDINAL →
  posix_micros time = readings clk (reads clk) / US_PER_SECOND * US_PER_SECOND →
  format_time time clk = (Raise IndexError, advance clk).
Proof.
  intros Hc Ht.
  rewrite (format_time_seconds time clk 0); [|done|lia|done].
  simpl. by rewrite relative_empty.
Qed.

Lemma C4_format_time_zero_raises_witness :
  format_time (DateTime (Fields 2026 11 3 12 34 56 0) (UTC 0)) (frozen tuesday_noon UTC)
  = (Raise IndexError, advance (frozen tuesday_noon UTC)).
Proof.
  apply C4_format_time_zero_raises; [by vm_compute | by vm_compute].
Defined.

(** ** C7 *)

(** C7: for a target [T] whole seconds after now, [0 < T <= 7 days],
    [format_time] returns "in " followed by the clauses of the whole days of
    [T] and of the hours, minutes and seconds of the remaining seconds of the
    day, each present when not zero and pluralized, joined by commas with
    "and" before the last; for [T = 90] this is "in 1 minute and 30 seconds". *)
Theorem C7_format_time_relative (time : datetime) (clk : sysclock) (T : Z) :
  0 < day_number (readings clk (reads clk)) 0 <= MAXORDINAL →
  posix_micros time
    = readings clk (reads clk) / US_PER_SECOND * US_PER_SECOND + T * US_PER_SECOND →
  0 < T <= 7 * 86400 →
  format_time time clk
  = (Return (spec_format (T / 86400) (T mod 86400 / 3600)
               (T mod 86400 mod 3600 / 60) (T mod 86400 mod 3600 mod 60)),
     advance clk)
  ∧ (T = 90 → format_time time clk = (Return "in 1 minute and 30 seconds", advance clk))
  ∧ pluralize 1 "day" = "1 day" ∧ pluralize 2 "day" = "2 days".
Proof.
  intros Hc Ht HT.
  assert (format_time time clk
          = (Return (spec_format (T / 86400) (T mod 86400 / 3600)
                       (T mod 86400 mod 3600 / 60) (T mod 86400 mod 3600 mod 60)),
             advance clk)) as Hfmt.
  { rewrite (format_time_seconds time clk T); [|done|done|divlia].
    replace (T <=? 7 * 86400) with true by (symmetry; apply Z.leb_le; lia).
    rewrite relative_spec; [done|divlia..]. }
  split; [done|]. split; [|by vm_compute].
  intros ->. by rewrite Hfmt.
Qed.

Lemma C7_format_time_relative_witness :
  format_time (DateTime (Fields 2026 11 5 15 35 56 0) (UTC 0)) (frozen tuesday_noon UTC)
  = (Return "in 2 days, 3 hours and 1 minute", advance (frozen tuesday_noon UTC))
  ∧ format_time (DateTime (Fields 2026 11 3 12 36 26 0) (UTC 0)) (frozen tuesday_noon UTC)
    = (Return "in 1 minute and 30 seconds", advance (frozen tuesday_noon UTC)).
Proof.
  split.
  - exact (proj1 (C7_format_time_relative
                    (DateTime (Fields 2026 11 5 15 35 56 0) (UTC 0))
                    (frozen tuesday_noon UTC) 183660
                    ltac:(by vm_compute) ltac:(by vm_compute) ltac:(lia))).
  - exact (proj1 (proj2 (C7_format_time_relative
                    (DateTime (Fields 2026 11 3 12 36 26 0) (UTC 0))
                    (frozen tuesday_noon UTC) 90
                    ltac:(by vm_compute) ltac:(by vm_compute) ltac:(lia))) eq_refl).
Defined.

(** ** C8 *)

Lemma str_drop_drop a b s : str_drop a (str_drop b s) = str_drop (b + a) s.
Proof.
  revert s. induction b as [|b IH]; intros s; simpl; [done|].
  destruct s as [|c s]; [by destruct a | apply IH].
Qed.

(** A match found at [pos] starts at [pos]: the accepted text [w] is what
    the text holds from there on, and the match ends right behind it. *)
Lemma re_match_anchored p good val pos m :
  (∀ w, good w → w ≠ "") →
  groups_capture (pat_ignorecase p) good (pat_regex p) →
  re_match p val pos = Some m →
  ∃ w, accepts (pat_ignorecase p) (pat_regex p) w
       ∧ str_drop pos val = w ++ str_drop (m_end m) val
       ∧ m_end m = (pos + String.length w)%nat.
Proof.
  destruct p as [r ic]. intros Hgood Hr H.
  apply (re_match_sound ic good Hgood) in H as (w & Ha & Hval & Hend & _); [|done].
  exists w. rewrite Hend, <- str_drop_drop. by repeat split.
Qed.

Lemma date_groups : groups_capture false (λ w, w ≠ "") (pat_regex date_regex).
Proof.
  cbv [pat_regex date_regex cat str groups_capture times].
  repeat split; try done; intros w (w1 & w2 & -> & (x & -> & _) & _); done.
Qed.

Lemma module_pattern_anchored p val pos m :
  p ∈ [timedelta_regex; day_regex; date_regex; time_regex] →
  re_match p val pos = Some m →
  ∃ w, accepts (pat_ignorecase p) (pat_regex p) w
       ∧ str_drop pos val = w ++ str_drop (m_end m) val
       ∧ m_end m = (pos + String.length w)%nat.
Proof.
  intros Hp.
  repeat (apply elem_of_cons in Hp as [->|Hp]); [..|by apply elem_of_nil in Hp].
  - apply (re_match_anchored _ numeral); [apply numeral_nonempty | apply timedelta_groups].
  - apply (re_match_anchored _ numeral); [apply numeral_nonempty|].
    by cbv [pat_regex day_regex alt cat str groups_capture].
  - apply (re_match_anchored _ (λ w, w ≠ "")); [done | apply date_groups].
  - apply (re_match_anchored _ numeral); [apply numeral_nonempty | apply time_groups].
Qed.

(** A pattern that [consumes] accepts no empty text. *)
Lemma accepts_consumes ic r w : consumes r = true → accepts ic r w → w ≠ "".
Proof.
  revert w. induction r as [|c|p|r1 IH1 r2 IH2|r1 IH1 r2 IH2|r1 IH1|p|name r1 IH1];
    intros w Hc Ha; simpl in Hc, Ha; try done.
  - by destruct Ha as (x & -> & _).
  - by destruct Ha as (x & -> & _).
  - destruct Ha as (w1 & w2 & -> & Ha1 & Ha2).
    apply orb_prop in Hc as [Hc|Hc].
    + specialize (IH1 _ Hc Ha1). by destruct w1.
    + specialize (IH2 _ Hc Ha2). destruct w1; [done|]. by simpl.
  - apply andb_prop in Hc as [Hc1 Hc2]. destruct Ha as [Ha|Ha]; eauto.
  - by destruct Ha.
  - eauto.
Qed.

(** A day name and an ISO date take up text. *)
Lemma day_and_date_consume p :
  p ∈ [day_regex; date_regex] → consumes (pat_regex p) = true.
Proof.
  intros Hp. repeat (apply elem_of_cons in Hp as [->|Hp]); [..|by apply elem_of_nil in Hp];
    by vm_compute.
Qed.

(** Once the delta pattern has consumed text, its end and its fields are
    the outcome, whatever the other three patterns are. *)
Lemma collect_delta day_re date_re time_re val m clk params :
  re_match timedelta_regex val 0 = Some m → (0 < m_end m)%nat →
  dict_of py_float (groupdict timedelta_regex m) = Return params →
  collect timedelta_regex day_re date_re time_re val clk = (Return (m_end m, params), clk).
Proof.
  intros Hm Hpos Hp. unfold collect. rewrite Hm.
  replace (0 <? m_end m)%nat with true by (symmetry; by apply Nat.ltb_lt).
  unfold mbind, Py_bind, lift. by rewrite Hp.
Qed.

(** Steps 2 and 3 with any patterns in the place of [day_regex] and
    [date_regex]: the day pattern is tried first and, where it matches, the
    table of day names is built from two readings of the clock and asked for
    the first three characters of the text; the date pattern is tried only
    where the day pattern does not match. *)
Lemma day_or_date_tried day_re date_re val m clk :
  re_match timedelta_regex val 0 = Some m → m_end m = 0%nat →
  DateArgument.day_or_date timedelta_regex day_re date_re val m clk
  = match re_match day_re val 0 with
    | Some found_day =>
        match subscript (day_table clk) (lower (str_take 3 val)) with
        | Return wd =>
            (Return (m_end found_day, {["weekday" := wd]}), advance (advance clk))
        | Raise e => (Raise e, advance (advance clk))
        end
    | None => (Return (from_option m_end 0%nat (re_match date_re val 0), ∅), clk)
    end.
Proof.
  intros Hm H0. unfold day_or_date.
  destruct (re_match day_re val 0) as [found_day|].
  - rewrite (run_bind _ _ _ _ _ (run_now_naive clk)).
    rewrite (run_bind _ _ _ _ _ (run_now_naive (advance clk))).
    unfold day_table, host_fields. rewrite Nat.add_0_r, Nat.add_1_r.
    cbn [readings reads advance system_zone].
    unfold mbind, Py_bind, lift, mret, Py_ret.
    by destruct (subscript _ (lower (str_take 3 val))).
  - destruct (re_match date_re val 0) as [found_date|]; [|done].
    unfold mbind, Py_bind, lift. by rewrite (timedelta_nothing _ _ Hm H0).
Qed.

Lemma collect_no_delta day_re date_re time_re val m clk :
  re_match timedelta_regex val 0 = Some m → m_end m = 0%nat →
  collect timedelta_regex day_re date_re time_re val clk
  = match DateArgument.day_or_date timedelta_regex day_re date_re val m clk with
    | (Return x, c) => DateArgument.clock_time time_re val x.1 x.2 c
    | (Raise e, c) => (Raise e, c)
    end.
Proof.
  intros Hm H0. unfold collect. rewrite Hm, H0. simpl.
  unfold mbind, Py_bind.
  by destruct (day_or_date timedelta_regex day_re date_re val m clk) as [[[? ?]|] ?].
Qed.

(** C8: the three sub-grammars are tried at offset 0, in the order delta,
    day name, ISO date, and the first that fires decides alone. Once the
    delta pattern has consumed text, the outcome is the end and the fields of
    its match, whatever the later patterns are. When it consumed nothing,
    the day pattern is tried: where it matches, the table of day names is
    asked (after two readings of the clock) and the clock-time step runs at
    the end of that match on the weekday alone, whatever the date pattern is;
    only where it does not match is the date pattern tried, and the
    clock-time step runs at the end of its match, or at offset 0 when there is
    none. The clock-time step itself looks at the offset it is given and
    nowhere else. A match of any of the module's patterns at an offset is
    the text that starts at that offset, with nothing skipped, and a match of
    the day or the date pattern is never empty. *)
Theorem C8_first_sub_grammar_wins (val : string) (found_delta : match_obj)
    (clk : sysclock) :
  re_match timedelta_regex val 0 = Some found_delta →
  ((0 < m_end found_delta)%nat →
     ∃ params,
       dict_of py_float (groupdict timedelta_regex found_delta) = Return params
       ∧ ∀ day_re date_re time_re,
           collect timedelta_regex day_re date_re time_re val clk
           = (Return (m_end found_delta, params), clk))
  ∧ (m_end found_delta = 0%nat →
     ∀ day_re date_re,
       (∀ found_day, re_match day_re val 0 = Some found_day →
          collect timedelta_regex day_re date_re time_regex val clk
          = match subscript (day_table clk) (lower (str_take 3 val)) with
            | Return wd =>
                clock_time' val (m_end found_day) {["weekday" := wd]}
                  (advance (advance clk))
            | Raise e => (Raise e, advance (advance clk))
            end)
       ∧ (re_match day_re val 0 = None →
          (∀ found_date, re_match date_re val 0 = Some found_date →
             collect timedelta_regex day_re date_re time_regex val clk
             = clock_time' val (m_end found_date) ∅ clk)
          ∧ (re_match date_re val 0 = None →
             collect timedelta_regex day_re date_re time_regex val clk
             = clock_time' val 0 ∅ clk)))
  ∧ (∀ end_ params c,
       (∃ found_time clock_fields,
           re_match time_regex val end_ = Some found_time
           ∧ dict_of py_int (groupdict time_regex found_time) = Return clock_fields
           ∧ clock_time' val end_ params c
             = (Return (m_end found_time, clock_fields ∪ params), c))
       ∨ (re_match time_regex val end_ = None
          ∧ clock_time' val end_ params c = (Return (end_, params), c)))
  ∧ (∀ p pos m,
       p ∈ [timedelta_regex; day_regex; date_regex; time_regex] →
       re_match p val pos = Some m →
       ∃ w, accepts (pat_ignorecase p) (pat_regex p) w
            ∧ str_drop pos val = w ++ str_drop (m_end m) val
            ∧ m_end m = (pos + String.length w)%nat
            ∧ (p ∈ [day_regex; date_regex] → w ≠ "")).
Proof.
  intros Hm. split; [|split; [|split]].
  - intros Hpos.
    destruct (dict_of_groups timedelta_regex found_delta (proj1 (timedelta_match _ _ Hm)))
      as [params Hp].
    exists params. split; [exact Hp|]. intros day_re date_re time_re.
    by apply collect_delta.
  - intros H0 day_re date_re.
    pose proof (collect_no_delta day_re date_re time_regex val _ clk Hm H0) as Hc.
    rewrite (day_or_date_tried day_re date_re val _ clk Hm H0) in Hc.
    split; [|split].
    + intros found_day Hday. rewrite Hc, Hday.
      by destruct (subscript _ (lower (str_take 3 val))).
    + intros found_date Hdate. by rewrite Hc, H, Hdate.
    + intros Hdate. by rewrite Hc, H, Hdate.
  - intros end_ params c. apply clock_time_cases.
  - intros p pos m Hp Hmatch.
    destruct (module_pattern_anchored p val pos m Hp Hmatch) as (w & Ha & Hval & Hend).
    exists w. repeat split; try done.
    intros Hp'. eapply accepts_consumes; [by apply day_and_date_consume | exact Ha].
Qed.

Lemma C8_first_sub_grammar_wins_witness :
  (∀ day_re date_re time_re,
     collect timedelta_regex day_re date_re time_re "2d tomorrow" (frozen tuesday_noon UTC)
     = (Return (3%nat, {["days" := 2]}), frozen tuesday_noon UTC))
  ∧ (∀ date_re,
       collect timedelta_regex day_regex date_re time_regex "friday 2024-05-01"
         (frozen tuesday_noon UTC)
       = (Return (6%nat, {["weekday" := 4]}), advance (advance (frozen tuesday_noon UTC))))
  ∧ parse_fields "2024-05-01 buy milk" (frozen tuesday_noon UTC)
    = (Return (10%nat, ∅), frozen tuesday_noon UTC)
  ∧ collect timedelta_regex never never time_regex "2024-05-01 buy milk"
      (frozen tuesday_noon UTC)
    = (Return (0%nat, ∅), frozen tuesday_noon UTC).
Proof.
  assert (re_match timedelta_regex "2d tomorrow" 0 = Some (MatchObj 3 {["days" := "2"]}))
    as H1 by (by vm_compute).
  assert (re_match timedelta_regex "friday 2024-05-01" 0 = Some (MatchObj 0 ∅))
    as H2 by (by vm_compute).
  assert (re_match timedelta_regex "2024-05-01 buy milk" 0 = Some (MatchObj 0 ∅))
    as H3 by (by vm_compute).
  split; [|split; [|split]].
  - destruct (proj1 (C8_first_sub_grammar_wins _ _ (frozen tuesday_noon UTC) H1))
      as (params & Hp & Hc); [simpl; lia|].
    vm_compute in Hp. injection Hp as <-. exact Hc.
  - intros date_re.
    rewrite (proj1 (proj1 (proj2 (C8_first_sub_grammar_wins _ _ (frozen tuesday_noon UTC) H2))
                      eq_refl day_regex date_re) (MatchObj 6 ∅) ltac:(by vm_compute)).
    by vm_compute.
  - unfold parse_fields.
    rewrite (proj1 (proj2 (proj1 (proj2 (C8_first_sub_grammar_wins _ _
                      (frozen tuesday_noon UTC) H3)) eq_refl day_regex date_regex)
                      ltac:(by vm_compute))
               (MatchObj 10 {["year" := "2024"; "month" := "05"; "day" := "01"]})
               ltac:(by vm_compute)).
    by vm_compute.
  - rewrite (proj2 (proj2 (proj1 (proj2 (C8_first_sub_grammar_wins _ _
                      (frozen tuesday_noon UTC) H3)) eq_refl never never)
                      ltac:(by vm_compute)) ltac:(by vm_compute)).
    by vm_compute.
Defined.

(** ** The whole of [match] *)

(** After the fields are collected: no reading and no timestamp for an empty
    field map, else one reading and the date arithmetic on it. *)
Lemma match_run val instance clk end_ params clk' :
  parse_fields val clk = (Return (end_, params), clk') →
  match_ val instance clk =
    if (0 <? size params)%nat then
      let tz := default UTC instance in
      let t := readings clk' (reads clk') in
      match (delta ← relativedelta_new params;
             datetime_add_relativedelta
               (DateTime (fields_at t (utcoffset (tz t))) (tz t)) delta) with
      | Return d => (Return (str_drop end_ val, Some d), advance clk')
      | Raise e => (Raise e, advance clk')
      end
    else (Return (str_drop end_ val, None), clk').
Proof.
  intros H. unfold match_, match_with. fold parse_fields.
  rewrite (run_bind _ _ _ _ _ H).
  destruct (0 <? size params)%nat; [|done].
  rewrite (run_bind _ _ _ _ _ (run_now _ clk')).
  unfold mbind, Py_bind, lift, mret, Py_ret. simpl.
  destruct (relativedelta_new params) as [delta|e]; simpl; [|done].
  unfold datetime_add_relativedelta, mbind, outcome_bind. simpl.
  by destruct (relativedelta_radd delta _).
Qed.

(** ** C3 *)

(** C3, as stated, fails: nothing checks the numbers a clock time is made
    of, and the date arithmetic rejects hour 99 with a [ValueError] that
    [match] lets through. *)
Lemma C3_match_raises_on_clock_time_out_of_range :
  parse_fields "99:99" (frozen tuesday_noon UTC)
  = (Return (5%nat, {["hour" := 99; "minute" := 99]}), frozen tuesday_noon UTC)
  ∧ match_ "99:99" None (frozen tuesday_noon UTC)
    = (Raise ValueError, advance (frozen tuesday_noon UTC)).
Proof. split; vm_compute; reflexivity. Qed.

(** C3, amended: collecting the fields never raises; [match] returns its
    pair, without a timestamp and without reading the clock when no field was
    collected, and otherwise raises only what the date arithmetic on the
    collected fields raises. [parse_timezone] raises nothing but its argument
    error. [format_time] returns a string whenever the target lies at least
    one second, and no more than the span of the calendar, after the reading
    of the clock cut to the second. *)
Theorem C3_only_the_date_arithmetic_raises (pytz_timezone : string → option timezone)
    (val : string) (instance : option timezone) (time : datetime) (clk : sysclock) :
  (∃ end_ params clk',
      parse_fields val clk = (Return (end_, params), clk')
      ∧ (params = ∅ →
         match_ val instance clk = (Return (str_drop end_ val, None), clk'))
      ∧ (∀ e c, match_ val instance clk = (Raise e, c) →
           ∃ now, datetime_now (default UTC instance) clk' = (Return now, c)
                  ∧ (delta ← relativedelta_new params;
                     datetime_add_relativedelta now delta) = Raise e))
  ∧ (∀ e, parse_timezone pytz_timezone val = Raise e →
          e = ArgumentSyntaxError (val ++ " is not a valid time zone.") false)
  ∧ (∀ D, 0 < day_number (readings clk (reads clk)) 0 <= MAXORDINAL →
          posix_micros time
            = readings clk (reads clk) / US_PER_SECOND * US_PER_SECOND + D →
          US_PER_SECOND <= D <= MAXORDINAL * US_PER_DAY →
          ∃ s, format_time time clk = (Return s, advance clk)).
Proof.
  split; [|split].
  - destruct (parse_fields_returns val clk) as (end_ & params & clk' & H).
    exists end_, params, clk'. split; [done|].
    rewrite (match_run _ instance _ _ _ _ H). split.
    + intros ->. by rewrite map_size_empty.
    + intros e c. destruct (0 <? size params)%nat; [|done].
      rewrite run_now. cbv zeta.
      destruct (_ ← relativedelta_new params; _) as [d|e'] eqn:E; [done|].
      intros [= -> <-]. eexists. split; [done|]. exact E.
  - intros e. unfold parse_timezone. destruct val; [done|].
    destruct (pytz_timezone _); [done|]. by intros [= <-].
  - intros D Hc Ht HD.
    assert (0 <= D / US_PER_DAY <= MAXORDINAL)
      by (unfold US_PER_DAY, US_PER_SECOND, MAXORDINAL in *; divlia).
    rewrite (format_time_micros time clk D); [|done|done|unfold MAXORDINAL in *; lia].
    destruct (D <=? 7 * US_PER_DAY); [|by eexists].
    rewrite relative_spec; [by eexists|..];
      unfold US_PER_DAY, US_PER_SECOND, MAXORDINAL in *; divlia.
Qed.

Lemma C3_only_the_date_arithmetic_raises_witness :
  (∃ now, datetime_now UTC (frozen tuesday_noon UTC)
          = (Return now, advance (frozen tuesday_noon UTC))
          ∧ (delta ← relativedelta_new {["hour" := 99; "minute" := 99]};
             datetime_add_relativedelta now delta) = Raise ValueError)
  ∧ ∃ s, format_time (DateTime (Fields 2026 11 3 12 34 57 0) (UTC 0))
           (frozen tuesday_noon UTC)
         = (Return s, advance (frozen tuesday_noon UTC)).
Proof.
  destruct (C3_only_the_date_arithmetic_raises (fun _ => None) "99:99" None
              (DateTime (Fields 2026 11 3 12 34 57 0) (UTC 0)) (frozen tuesday_noon UTC))
    as ((end_ & params & clk' & Hp & _ & Hraise) & _ & Hfmt).
  split.
  - assert (parse_fields "99:99" (frozen tuesday_noon UTC)
            = (Return (5%nat, {["hour" := 99; "minute" := 99]}), frozen tuesday_noon UTC))
      as Hp' by (by vm_compute).
    rewrite Hp' in Hp. injection Hp as <- <- <-.
    apply Hraise. by vm_compute.
  - apply (Hfmt 1000000); by vm_compute.
Defined.

(** ** C10 *)

(** C10, as stated, fails for [match]: one call on "tomorrow" reads the
    clock three times. Across midnight the weekday is resolved on Monday and
    the base timestamp taken on Tuesday, and the result (Tuesday, the day of
    the base timestamp itself) is what neither instant alone would give. *)
Lemma C10_match_reads_the_clock_three_times :
  match_ "tomorrow" None midnight_clock
  = (Return ("", Some (DateTime (Fields 2026 11 3 0 0 0 1) (UTC 0))),
     advance (advance (advance midnight_clock)))
  ∧ fst (match_ "tomorrow" None (frozen late_monday UTC))
    = Return ("", Some (DateTime (Fields 2026 11 3 23 59 59 999999) (UTC 0)))
  ∧ fst (match_ "tomorrow" None (frozen early_tuesday UTC))
    = Return ("", Some (DateTime (Fields 2026 11 4 0 0 0 1) (UTC 0)))
  ∧ readings midnight_clock 0 = readings (frozen late_monday UTC) 0
  ∧ fst (match_ "tomorrow" None midnight_clock)
    ≠ fst (match_ "tomorrow" None (frozen late_monday UTC)).
Proof. repeat split; try (vm_compute; reflexivity). by vm_compute. Qed.

Lemma day_table_agree c1 c2 :
  system_zone c1 = system_zone c2 →
  (∀ i, (i < 3)%nat → readings c1 (reads c1 + i) = readings c2 (reads c2 + i)) →
  day_table c1 = day_table c2.
Proof.
  intros Hz Hr. unfold day_table, host_fields.
  by rewrite Hz, (Hr 0%nat), (Hr 1%nat) by lia.
Qed.

(** On two clocks that agree on the table of day names, collecting the
    fields gives the same result and takes the same number of readings:
    none, or two. *)
Lemma parse_fields_two_clocks val c1 c2 :
  day_table c1 = day_table c2 →
  ∃ x, (parse_fields val c1 = (Return x, c1) ∧ parse_fields val c2 = (Return x, c2))
       ∨ (parse_fields val c1 = (Return x, advance (advance c1))
          ∧ parse_fields val c2 = (Return x, advance (advance c2))
          ∧ is_Some (x.2 !! "weekday")).
Proof.
  intros Htab. destruct (timedelta_always_matches val) as [m Hm].
  destruct (decide (m_end m = 0%nat)) as [H0|Hpos].
  - rewrite !(parse_fields_no_delta _ _ _ Hm H0).
    destruct (day_or_date_cases val m c1 Hm H0)
      as [(fd1 & wd1 & Hd1 & Hs1 & Hr1) | (Hd1 & Hr1)];
      destruct (day_or_date_cases val m c2 Hm H0)
        as [(fd2 & wd2 & Hd2 & Hs2 & Hr2) | (Hd2 & Hr2)]; try congruence.
    + rewrite Htab, Hs2 in Hs1. injection Hs1 as <-.
      rewrite Hd2 in Hd1. injection Hd1 as <-.
      rewrite (run_bind _ _ _ _ _ Hr1), (run_bind _ _ _ _ _ Hr2). simpl.
      destruct (clock_time_cases val (m_end fd2) {["weekday" := wd2]}
                  (advance (advance c1))) as [(ft & cf & Ht & Hcf & ->) | (Ht & ->)];
        destruct (clock_time_cases val (m_end fd2) {["weekday" := wd2]}
                    (advance (advance c2))) as [(ft' & cf' & Ht' & Hcf' & ->) | (Ht' & ->)];
        try congruence.
      * rewrite Ht' in Ht. injection Ht as <-. rewrite Hcf' in Hcf. injection Hcf as <-.
        eexists; right; repeat split; simpl.
        apply lookup_union_is_Some. right. by rewrite lookup_singleton_eq.
      * eexists; right; repeat split; simpl. by rewrite lookup_singleton_eq.
    + rewrite (run_bind _ _ _ _ _ Hr1), (run_bind _ _ _ _ _ Hr2). simpl.
      set (e0 := from_option m_end 0%nat (re_match date_regex val 0)).
      destruct (clock_time_cases val e0 ∅ c1) as [(ft & cf & Ht & Hcf & ->) | (Ht & ->)];
        destruct (clock_time_cases val e0 ∅ c2) as [(ft' & cf' & Ht' & Hcf' & ->) | (Ht' & ->)];
        try congruence.
      * rewrite Ht' in Ht. injection Ht as <-. rewrite Hcf' in Hcf. injection Hcf as <-.
        eexists; by left.
      * eexists; by left.
  - destruct (parse_fields_delta val m c1 Hm) as (p1 & Hp1 & ->); [lia|].
    destruct (parse_fields_delta val m c2 Hm) as (p2 & Hp2 & ->); [lia|].
    rewrite Hp2 in Hp1. injection Hp1 as <-. eexists; by left.
Qed.

Lemma format_time_reads time c : ∃ r, format_time time c = (r, advance c).
Proof.
  unfold format_time. rewrite (run_bind _ _ _ _ _ (run_now UTC c)).
  unfold mbind, Py_bind, lift, mret, Py_ret.
  repeat match goal with
         | |- context [match ?x with _ => _ end] => destruct x
         end; by eexists.
Qed.

Lemma format_time_clock time c1 c2 :
  readings c1 (reads c1) = readings c2 (reads c2) →
  fst (format_time time c1) = fst (format_time time c2).
Proof.
  intros H. unfold format_time.
  rewrite (run_bind _ _ _ _ _ (run_now UTC c1)), (run_bind _ _ _ _ _ (run_now UTC c2)).
  rewrite H. unfold mbind, Py_bind, lift, mret, Py_ret.
  repeat match goal with
         | |- context [match ?x with _ => _ end] => destruct x
         end; done.
Qed.

(** The table of day names raises nothing but [KeyError]. *)
Lemma subscript_raises {A} (table : list (string * A)) key e :
  subscript table key = Raise e → e = KeyError.
Proof.
  induction table as [|[k v] table IH]; simpl; [congruence|].
  destruct (String.eqb k key); [done | exact IH].
Qed.

(** What [match] does to the clock, from what collecting the fields did,
    with any four patterns. *)
Lemma match_with_clock td_re day_re date_re time_re val instance clk o clk' :
  collect td_re day_re date_re time_re val clk = (o, clk') →
  match o with
  | Raise e => match_with td_re day_re date_re time_re val instance clk = (Raise e, clk')
  | Return x =>
      if (0 <? size x.2)%nat
      then snd (match_with td_re day_re date_re time_re val instance clk) = advance clk'
      else match_with td_re day_re date_re time_re val instance clk
           = (Return (str_drop x.1 val, None), clk')
  end.
Proof.
  intros H. unfold match_with. destruct o as [[end_ params]|e].
  - rewrite (run_bind _ _ _ _ _ H). cbn [fst snd].
    destruct (0 <? size params)%nat; [|done].
    rewrite (run_bind _ _ _ _ _ (run_now _ clk')).
    unfold mbind, Py_bind, lift, mret, Py_ret. simpl.
    destruct (relativedelta_new params) as [delta|e]; simpl; [|done].
    unfold datetime_add_relativedelta, mbind, outcome_bind. simpl.
    by destruct (relativedelta_radd delta _).
  - by rewrite (run_bind_raise _ _ _ _ _ H).
Qed.

(** The readings of one call of [match], with any pattern in the place of
    [day_regex]: none, one or three, or two when the table of day names does
    not have the key and raises [KeyError]. *)
Lemma match_readings day_re val instance clk :
  let r := match_with timedelta_regex day_re date_regex time_regex val instance clk in
  snd r = clk ∨ snd r = advance clk ∨ snd r = advance (advance (advance clk))
  ∨ (r = (Raise KeyError, advance (advance clk))
     ∧ is_Some (re_match day_re val 0)
     ∧ subscript (day_table clk) (lower (str_take 3 val)) = Raise KeyError).
Proof.
  intros r. unfold r. clear r.
  assert (∀ x c, collect timedelta_regex day_re date_regex time_regex val clk
                 = (Return x, c) →
            snd (match_with timedelta_regex day_re date_regex time_regex val instance clk) = c
            ∨ (x.2 ≠ ∅
               ∧ snd (match_with timedelta_regex day_re date_regex time_regex val instance clk)
                 = advance c)) as Hret.
  { intros x c H. pose proof (match_with_clock _ _ _ _ _ instance _ _ _ H) as Hc.
    cbv beta iota in Hc. destruct (0 <? size x.2)%nat eqn:Hsize.
    - right. split; [|done]. intros Hx. rewrite Hx, map_size_empty in Hsize. done.
    - left. by rewrite Hc. }
  destruct (timedelta_always_matches val) as [m Hm].
  destruct (decide (m_end m = 0%nat)) as [H0|Hpos].
  - pose proof (collect_no_delta day_re date_regex time_regex val _ clk Hm H0) as Hc.
    rewrite (day_or_date_tried day_re date_regex val _ clk Hm H0) in Hc.
    destruct (re_match day_re val 0) as [found_day|] eqn:Hday.
    + destruct (subscript (day_table clk) (lower (str_take 3 val))) as [wd|e] eqn:Hsub.
      * cbn [fst snd] in Hc.
        destruct (clock_time_cases val (m_end found_day) {["weekday" := wd]}
                    (advance (advance clk))) as [(ft & cf & _ & _ & Hr) | (_ & Hr)];
          rewrite Hr in Hc; destruct (Hret _ _ Hc) as [Hs|[Hne Hs]]; cbn [fst snd] in *.
        -- pose proof (match_with_clock _ _ _ _ _ instance _ _ _ Hc) as Hc'.
           cbv beta iota in Hc'. cbn [fst snd] in Hc'.
           replace (0 <? size (cf ∪ {["weekday" := wd]}))%nat with true in Hc'
             by (symmetry; apply Nat.ltb_lt;
                 destruct (size (cf ∪ {["weekday" := wd]})) eqn:Hz; [|lia];
                 apply map_size_empty_iff in Hz;
                 assert ((cf ∪ ({["weekday" := wd]} : gmap string Z)) !! "weekday" = None)
                   as Hl by (by rewrite Hz);
                 apply lookup_union_None in Hl as [_ Hl];
                 by rewrite lookup_singleton_eq in Hl).
           auto.
        -- auto.
        -- pose proof (match_with_clock _ _ _ _ _ instance _ _ _ Hc) as Hc'.
           cbv beta iota in Hc'. cbn [fst snd] in Hc'.
           rewrite map_size_singleton in Hc'. cbn [Nat.ltb Nat.leb] in Hc'. auto.
        -- auto.
      * apply subscript_raises in Hsub as Hk. subst e.
        pose proof (match_with_clock _ _ _ _ _ instance _ _ _ Hc) as Hc'.
        cbv beta iota in Hc'. right. right. right. split; [done|]. split; [by eexists|done].
    + destruct (clock_time_cases val (from_option m_end 0%nat (re_match date_regex val 0)) ∅
                  clk) as [(ft & cf & _ & _ & Hr) | (_ & Hr)];
        cbn [fst snd] in Hc; rewrite Hr in Hc;
        destruct (Hret _ _ Hc) as [Hs|[_ Hs]]; auto.
  - destruct (dict_of_groups timedelta_regex m (proj1 (timedelta_match _ _ Hm)))
      as [params Hp].
    pose proof (collect_delta day_re date_regex time_regex val m clk params Hm
                  ltac:(lia) Hp) as Hc.
    destruct (Hret _ _ Hc) as [Hs|[_ Hs]]; auto.
Qed.

(** C10, amended: [format_time] reads the clock exactly once; on the texts
    of the embedding (code points 0..255) [match] reads it not at all, once,
    or three times (twice for the table of day names, once for the base
    timestamp). The result of either is determined by the text, the zones
    and the readings the call takes: on two clocks of hosts in the same zone
    that agree on the next three readings the results are the same. Whatever
    the pattern of day names matches, the one other course of [match] is two
    readings and then [KeyError], when the table of day names does not have
    the first three characters of the text, lowered. *)
Theorem C10_result_determined_by_the_readings (val : string)
    (instance : option timezone) (time : datetime) (c1 c2 : sysclock) :
  system_zone c1 = system_zone c2 →
  (∀ i, (i < 3)%nat → readings c1 (reads c1 + i) = readings c2 (reads c2 + i)) →
  fst (match_ val instance c1) = fst (match_ val instance c2)
  ∧ fst (format_time time c1) = fst (format_time time c2)
  ∧ snd (format_time time c1) = advance c1
  ∧ (snd (match_ val instance c1) = c1
     ∨ snd (match_ val instance c1) = advance c1
     ∨ snd (match_ val instance c1) = advance (advance (advance c1)))
  ∧ (∀ day_re,
       let r := match_with timedelta_regex day_re date_regex time_regex val instance c1 in
       snd r = c1 ∨ snd r = advance c1 ∨ snd r = advance (advance (advance c1))
       ∨ (r = (Raise KeyError, advance (advance c1))
          ∧ is_Some (re_match day_re val 0)
          ∧ subscript (day_table c1) (lower (str_take 3 val)) = Raise KeyError)).
Proof.
  intros Hz Hr.
  match goal with
  | |- ?a ∧ ?b ∧ ?c ∧ ?d ∧ ?e => cut (a ∧ b ∧ c ∧ d)
  end.
  { intros (? & ? & ? & ?). repeat split; try done.
    intros day_re. apply match_readings. }
  assert (∀ c x c', parse_fields val c = (Return x, c') →
            fst (match_ val instance c)
            = fst (match_ val instance c) ∧
            (snd (match_ val instance c) = c' ∨ snd (match_ val instance c) = advance c'))
    as Hsnd.
  { intros c [e p] c' H. split; [done|]. rewrite (match_run _ instance _ _ _ _ H).
    destruct (0 <? size p)%nat; [right | by left].
    cbv zeta. by destruct (_ ← relativedelta_new p; _). }
  destruct (parse_fields_two_clocks val c1 c2 (day_table_agree _ _ Hz Hr))
    as [[e p] [[H1 H2] | (H1 & H2 & Hwd)]].
  - split; [|split; [|split]].
    + rewrite (match_run _ instance _ _ _ _ H1), (match_run _ instance _ _ _ _ H2).
      destruct (0 <? size p)%nat; [|done]. cbv zeta.
      replace (readings c1 (reads c1)) with (readings c2 (reads c2))
        by (symmetry; rewrite <- (Nat.add_0_r (reads c1)), <- (Nat.add_0_r (reads c2));
            apply Hr; lia).
      by destruct (_ ← relativedelta_new p; _).
    + apply format_time_clock.
      rewrite <- (Nat.add_0_r (reads c1)), <- (Nat.add_0_r (reads c2)). apply Hr. lia.
    + by destruct (format_time_reads time c1) as [r ->].
    + destruct (Hsnd _ _ _ H1) as [_ [->| ->]]; auto.
  - split; [|split; [|split]].
    + rewrite (match_run _ instance _ _ _ _ H1), (match_run _ instance _ _ _ _ H2).
      destruct (0 <? size p)%nat; [|done]. cbv zeta. simpl reads. simpl readings.
      replace (readings c1 (S (S (reads c1)))) with (readings c2 (S (S (reads c2))))
        by (symmetry; replace (S (S (reads c1))) with (reads c1 + 2)%nat by lia;
            replace (S (S (reads c2))) with (reads c2 + 2)%nat by lia; apply Hr; lia).
      by destruct (_ ← relativedelta_new p; _).
    + apply format_time_clock.
      rewrite <- (Nat.add_0_r (reads c1)), <- (Nat.add_0_r (reads c2)). apply Hr. lia.
    + by destruct (format_time_reads time c1) as [r ->].
    + right. right. rewrite (match_run _ instance _ _ _ _ H1).
      replace (0 <? size p)%nat with true; [cbv zeta; by destruct (_ ← relativedelta_new p; _)|].
      symmetry. apply Nat.ltb_lt. destruct (size p) eqn:Hsize; [|lia].
      apply map_size_empty_iff in Hsize. subst p. simpl in Hwd.
      rewrite lookup_empty in Hwd. by destruct Hwd.
Qed.

Lemma C10_result_determined_by_the_readings_witness :
  fst (match_ "tomorrow" None (frozen tuesday_noon UTC))
  = fst (match_ "tomorrow" None (SysClock (fun _ => tuesday_noon) 7 UTC))
  ∧ snd (format_time (DateTime (Fields 2026 11 3 12 36 26 0) (UTC 0))
           (frozen tuesday_noon UTC))
    = advance (frozen tuesday_noon UTC).
Proof.
  destruct (C10_result_determined_by_the_readings "tomorrow" None
              (DateTime (Fields 2026 11 3 12 36 26 0) (UTC 0))
              (frozen tuesday_noon UTC) (SysClock (fun _ => tuesday_noon) 7 UTC)
              eq_refl (fun _ _ => eq_refl)) as (Hm & _ & Hf & _).
  split; [exact Hm | exact Hf].
Defined.

(** ** C6 *)

Lemma timedelta_new_fields f :
  timedelta_new (toordinal f) (hour f) (minute f) (second f) (microsecond f)
  = td_of_micros (wall_micros f).
Proof. unfold timedelta_new, wall_micros. f_equal. unfold US_PER_SECOND. lia. Qed.

(** Adding a duration moves the wall clock by its microseconds. *)
Lemma add_timedelta_eq f td :
  let X := wall_micros f + td_micros td in
  Z.abs (wall_micros f / US_PER_DAY) <= 999999999 →
  0 < X / US_PER_DAY <= MAXORDINAL →
  add_timedelta f td
  = Return (of_days_seconds (X / US_PER_DAY) (X mod US_PER_DAY / US_PER_SECOND)
              (X mod US_PER_DAY mod US_PER_SECOND)).
Proof.
  intros X Hf HX. unfold add_timedelta.
  rewrite timedelta_new_fields, td_of_micros_eq by done.
  unfold mbind, outcome_bind.
  replace (td_micros (TimeDelta _ _ _)) with (wall_micros f)
    by (unfold td_micros; cbn [td_days td_seconds td_microseconds];
        unfold US_PER_DAY, US_PER_SECOND; divlia).
  fold X. rewrite td_of_micros_eq by (unfold MAXORDINAL in HX; lia).
  cbn [td_days td_seconds td_microseconds].
  by replace ((0 <? X / US_PER_DAY) && (X / US_PER_DAY <=? MAXORDINAL)) with true
    by (symmetry; apply andb_true_intro; split; [apply Z.ltb_lt | apply Z.leb_le]; lia).
Qed.

Lemma fields_ok_inv f :
  fields_ok f = true →
  (MINYEAR <= year f <= MAXYEAR ∧ 1 <= month f <= 12
   ∧ 1 <= day f <= days_in_month (year f) (month f))
  ∧ 0 <= hour f <= 23 ∧ 0 <= minute f <= 59 ∧ 0 <= second f <= 59
  ∧ 0 <= microsecond f <= 999999.
Proof.
  unfold fields_ok. intros H.
  repeat (apply andb_prop in H as [H ?]).
  repeat match goal with
         | H : (_ <=? _) = true |- _ => apply Z.leb_le in H
         end. lia.
Qed.

(** [now + relativedelta(weekday=wd, hour=h, minute=mi)]: the clock fields
    are put in place, second and microsecond stay, and the date moves on to
    the next day with weekday [wd], today included. *)

Lemma radd_step1 now wd h mi :
  1 <= month now <= 12 → day now <= days_in_month (year now) (month now) →
  relativedelta_radd
    (RelativeDelta 0 0 0 0 0 0 0 0 None None None (Some wd) (Some h) (Some mi) None None)
    now
  = (repl ← replace (Fields (year now) (month now) (day now) h mi (second now)
                       (microsecond now));
     td ← timedelta_new 0 0 0 0 0;
     ret ← add_timedelta repl td;
     jump ← timedelta_new ((7 - weekday ret + wd) mod 7) 0 0 0 0;
     add_timedelta ret jump).
Proof.
  intros Hm Hd. unfold relativedelta_radd.
  cbn [rd_year rd_years rd_month rd_months rd_day rd_days rd_leapdays rd_hour rd_minute
       rd_second rd_microsecond rd_hours rd_minutes rd_seconds rd_microseconds
       rd_weekday or_else]. cbn [Z.eqb negb andb].
  rewrite Z.add_0_r. unfold monthrange.
  replace ((1 <=? month now) && (month now <=? 12)) with true
    by (symmetry; apply andb_true_intro; split; apply Z.leb_le; lia).
  unfold mbind at 1, outcome_bind at 1.
  rewrite Z.min_r by lia. reflexivity.
Qed.

Lemma td_zero : timedelta_new 0 0 0 0 0 = Return (TimeDelta 0 0 0).
Proof. vm_compute. reflexivity. Qed.

Lemma td_micros_zero : td_micros (TimeDelta 0 0 0) = 0.
Proof. vm_compute. reflexivity. Qed.

Lemma td_days_only jump :
  Z.abs jump <= 999999999 →
  timedelta_new jump 0 0 0 0 = Return (TimeDelta jump 0 0)
  ∧ td_micros (TimeDelta jump 0 0) = jump * US_PER_DAY.
Proof.
  intros H. split.
  - unfold timedelta_new. rewrite td_of_micros_eq.
    + f_equal. f_equal; unfold US_PER_DAY, US_PER_SECOND; divlia.
    + unfold US_PER_DAY, US_PER_SECOND; divlia.
  - unfold td_micros, US_PER_DAY. cbn [td_days td_seconds td_microseconds]. lia.
Qed.

(** Setting the clock fields of a proper date-time and adding nothing. *)
Lemma replace_clock now h mi :
  fields_ok now = true → 0 <= h <= 23 → 0 <= mi <= 59 →
  replace (Fields (year now) (month now) (day now) h mi (second now) (microsecond now))
  = Return (Fields (year now) (month now) (day now) h mi (second now) (microsecond now)).
Proof.
  intros Hok Hh Hmi. unfold replace.
  replace (fields_ok _) with true; [done|]. symmetry.
  unfold fields_ok in *. cbn [year month day hour minute second microsecond].
  repeat (apply andb_prop in Hok as [Hok ?]).
  repeat (apply andb_true_intro; split); try done; apply Z.leb_le; lia.
Qed.

Lemma wall_micros_clock now h mi :
  wall_micros (Fields (year now) (month now) (day now) h mi (second now) (microsecond now))
  = (toordinal now * 86400 + (h * 3600 + mi * 60 + second now)) * US_PER_SECOND
    + microsecond now.
Proof.
  unfold wall_micros, toordinal. cbn [year month day hour minute second microsecond]. lia.
Qed.

Lemma add_zero_clock now h mi :
  fields_ok now = true → 0 <= h <= 23 → 0 <= mi <= 59 →
  0 < toordinal now <= MAXORDINAL →
  add_timedelta
    (Fields (year now) (month now) (day now) h mi (second now) (microsecond now))
    (TimeDelta 0 0 0)
  = Return (of_days_seconds (toordinal now) (h * 3600 + mi * 60 + second now)
              (microsecond now)).
Proof.
  intros Hok Hh Hmi Hord.
  pose proof (fields_ok_inv now Hok) as (_ & _ & _ & Hs & Hus).
  set (repl := Fields _ _ _ _ _ _ _).
  pose proof (wall_micros_clock now h mi) as Hwall. fold repl in Hwall.
  assert (wall_micros repl / US_PER_DAY = toordinal now) as Hday
    by (rewrite Hwall; unfold US_PER_DAY, US_PER_SECOND; divlia).
  rewrite add_timedelta_eq; rewrite ?td_micros_zero, ?Z.add_0_r, ?Hday;
    [|unfold MAXORDINAL in *; lia..].
  f_equal. f_equal; rewrite Hwall; unfold US_PER_DAY, US_PER_SECOND; divlia.
Qed.

Lemma add_days ord s us jump :
  0 <= s < 86400 → 0 <= us < 1000000 → 0 <= jump < 7 →
  0 < ord → ord + jump <= MAXORDINAL →
  add_timedelta (of_days_seconds ord s us) (TimeDelta jump 0 0)
  = Return (of_days_seconds (ord + jump) s us).
Proof.
  intros Hs Hus Hj Hlo Hhi.
  destruct (td_days_only jump) as [_ Htd]; [lia|].
  pose proof (wall_micros_of_days_seconds ord s us) as Hwall.
  rewrite add_timedelta_eq; rewrite ?Htd, ?Hwall;
    [|unfold US_PER_DAY, US_PER_SECOND, MAXORDINAL in *; divlia..].
  f_equal. f_equal; unfold US_PER_DAY, US_PER_SECOND; divlia.
Qed.

Lemma bind_return {A B} (x : A) (f : A → outcome B) : (Return x ≫= f) = f x.
Proof. reflexivity. Qed.

Lemma weekday_of_days_seconds d s us now :
  d = toordinal now → weekday (of_days_seconds d s us) = weekday now.
Proof. intros ->. unfold weekday. by rewrite of_days_seconds_ordinal. Qed.

(** [now + relativedelta(weekday=wd, hour=h, minute=mi)]: the clock fields
    are put in place, second and microsecond stay, and the date moves on to
    the next day with weekday [wd], today included. *)
Lemma radd_weekday_clock now wd h mi :
  fields_ok now = true →
  0 <= h <= 23 → 0 <= mi <= 59 →
  0 < toordinal now →
  toordinal now + (7 - weekday now + wd) mod 7 <= MAXORDINAL →
  relativedelta_radd
    (RelativeDelta 0 0 0 0 0 0 0 0 None None None (Some wd) (Some h) (Some mi) None None)
    now
  = Return (of_days_seconds (toordinal now + (7 - weekday now + wd) mod 7)
              (h * 3600 + mi * 60 + second now) (microsecond now)).
Proof.
  intros Hok Hh Hmi Hlo Hhi.
  pose proof (fields_ok_inv now Hok) as ((Hy & Hm & Hd) & _ & _ & Hs & Hus).
  assert (0 <= (7 - weekday now + wd) mod 7 < 7) as Hjump by (apply Z.mod_pos_bound; lia).
  assert (0 < toordinal now <= MAXORDINAL) as Hord by lia.
  rewrite radd_step1 by lia.
  rewrite (replace_clock now h mi Hok Hh Hmi), bind_return.
  rewrite td_zero, bind_return.
  rewrite (add_zero_clock now h mi Hok Hh Hmi Hord), bind_return.
  rewrite (weekday_of_days_seconds _ _ _ now eq_refl).
  rewrite (proj1 (td_days_only ((7 - weekday now + wd) mod 7) ltac:(lia))), bind_return.
  apply add_days; lia.
Qed.

Lemma subscript_tom a b :
  subscript
    [("tod", a); ("tom", b); ("mon", 0); ("tue", 1); ("wed", 2); ("thu", 3);
     ("fri", 4); ("sat", 5); ("sun", 6)] "tom" = Return b.
Proof. by vm_compute. Qed.

(** What "tomorrow at 09:00" collects: the weekday after the one the host
    shows at the second reading, hour 9 and minute 0; no second. *)
Lemma tomorrow_at_nine_fields clk :
  parse_fields "tomorrow at 09:00" clk
  = (Return (17%nat, {["hour" := 9; "minute" := 0]}
                     ∪ {["weekday" := weekday (host_fields clk 1) + 1]}),
     advance (advance clk)).
Proof.
  assert (re_match timedelta_regex "tomorrow at 09:00" 0 = Some (MatchObj 0 ∅)) as Hm
    by (by vm_compute).
  rewrite (parse_fields_no_delta _ _ clk Hm eq_refl).
  assert (day_or_date' "tomorrow at 09:00" (MatchObj 0 ∅) clk
          = (Return (8%nat, {["weekday" := weekday (host_fields clk 1) + 1]}),
             advance (advance clk))) as Hday.
  { destruct (day_or_date_cases _ _ clk Hm eq_refl)
      as [(fd & wd & Hfd & Hwd & ->) | (Hfd & _)].
    - assert (re_match day_regex "tomorrow at 09:00" 0 = Some (MatchObj 8 ∅)) as Hfd'
        by (by vm_compute).
      rewrite Hfd' in Hfd. injection Hfd as <-.
      assert (lower (str_take 3 "tomorrow at 09:00") = "tom") as Hkey by (by vm_compute).
      rewrite Hkey in Hwd. unfold day_table in Hwd. rewrite subscript_tom in Hwd.
      by injection Hwd as <-.
    - by vm_compute in Hfd. }
  rewrite (run_bind _ _ _ _ _ Hday). cbn [fst snd].
  destruct (clock_time_cases "tomorrow at 09:00" 8
              {["weekday" := weekday (host_fields clk 1) + 1]} (advance (advance clk)))
    as [(ft & cf & Hft & Hcf & ->) | (Hft & _)].
  - assert (re_match time_regex "tomorrow at 09:00" 8
            = Some (MatchObj 17 {["hour" := "09"; "minute" := "00"]})) as Hft'
      by (by vm_compute).
    rewrite Hft' in Hft. injection Hft as <-.
    assert (dict_of py_int
              (groupdict time_regex (MatchObj 17 {["hour" := "09"; "minute" := "00"]}))
            = Return {["hour" := 9; "minute" := 0]}) as Hcf' by (by vm_compute).
    rewrite Hcf' in Hcf. by injection Hcf as <-.
  - by vm_compute in Hft.
Qed.

Lemma relativedelta_new_clock_weekday wd :
  0 <= wd < 7 →
  relativedelta_new ({["hour" := 9; "minute" := 0]} ∪ {["weekday" := wd]})
  = Return (RelativeDelta 0 0 0 0 0 0 0 0 None None None (Some wd) (Some 9) (Some 0)
              None None).
Proof.
  intros H.
  assert (wd ∈ [0; 1; 2; 3; 4; 5; 6]) as Hin.
  { assert (∃ n, wd = Z.of_nat n ∧ (n < 7)%nat) as (n & -> & Hn)
      by (exists (Z.to_nat wd); lia).
    do 7 (destruct n as [|n]; [in_list|]). lia. }
  repeat (apply elem_of_cons in Hin as [->|Hin]; [by vm_compute|]).
  by apply elem_of_nil in Hin.
Qed.

Lemma size_clock_weekday (wd : Z) :
  Nat.ltb 0 (size (({["hour" := 9; "minute" := 0]} : gmap string Z) ∪ {["weekday" := wd]}))
  = true.
Proof. by vm_compute. Qed.

(** C6, as stated, fails: "09:00" carries no seconds, so the second and the
    microsecond of the current moment stay in the result; it is not at
    09:00:00. *)
Lemma C6_second_is_not_reset :
  match_ "tomorrow at 09:00" None (frozen tuesday_noon UTC)
  = (Return ("", Some (DateTime (Fields 2026 11 4 9 0 56 789012) (UTC 0))),
     advance (advance (advance (frozen tuesday_noon UTC))))
  ∧ second (Fields 2026 11 4 9 0 56 789012) ≠ 0.
Proof. split; [by vm_compute | done]. Qed.

(** C6, amended: when the host's clock shows the weekday that the current
    moment has in [tz], that weekday is not Sunday, and the next day is within
    the calendar, "tomorrow at 09:00" is consumed whole and the timestamp is
    on the next calendar day in [tz] with hour 9 and minute 0; second and
    microsecond are those of the current moment. *)
Theorem C6_tomorrow_at_nine (instance : option timezone) (clk : sysclock) :
  let tz := default UTC instance in
  let t := readings clk (reads clk + 2) in
  let now := fields_at t (utcoffset (tz t)) in
  weekday (host_fields clk 1) = weekday now →
  weekday now ≠ 6 →
  0 < day_number t (utcoffset (tz t)) < MAXORDINAL →
  ∃ d, match_ "tomorrow at 09:00" instance clk
       = (Return ("", Some (DateTime d (tz t))), advance (advance (advance clk)))
       ∧ toordinal d = toordinal now + 1
       ∧ hour d = 9 ∧ minute d = 0
       ∧ second d = second now ∧ microsecond d = microsecond now.
Proof.
  intros tz t now Hsame Hsun Hrange.
  assert (fields_ok now = true) as Hok by (apply fields_at_ok; lia).
  assert (toordinal now = day_number t (utcoffset (tz t))) as Hord
    by (unfold now, fields_at; apply of_days_seconds_ordinal).
  assert (0 <= weekday now < 7) as Hwd by (unfold weekday; apply Z.mod_pos_bound; lia).
  pose proof (fields_ok_inv now Hok) as (_ & _ & _ & Hs & Hus).
  rewrite (match_run _ instance _ _ _ _ (tomorrow_at_nine_fields clk)).
  rewrite Hsame, size_clock_weekday. cbv zeta.
  replace (readings (advance (advance clk)) (reads (advance (advance clk)))) with t
    by (unfold t; simpl; f_equal; lia).
  fold tz. fold now.
  rewrite relativedelta_new_clock_weekday by lia. rewrite bind_return.
  unfold datetime_add_relativedelta. cbn [wall zone].
  rewrite radd_weekday_clock; [|done|lia|lia|lia|].
  - replace ((7 - weekday now + (weekday now + 1)) mod 7) with 1
      by (replace (7 - weekday now + (weekday now + 1)) with 8 by lia; done).
    rewrite bind_return. eexists. split; [reflexivity|].
    rewrite of_days_seconds_ordinal.
    destruct (of_days_seconds_time (toordinal now + 1) (9 * 3600 + 0 * 60 + second now)
                (microsecond now)) as (-> & -> & -> & ->).
    repeat split; divlia.
  - replace ((7 - weekday now + (weekday now + 1)) mod 7) with 1
      by (replace (7 - weekday now + (weekday now + 1)) with 8 by lia; done).
    lia.
Qed.

Lemma C6_tomorrow_at_nine_witness :
  ∃ d, match_ "tomorrow at 09:00" None (frozen tuesday_noon UTC)
       = (Return ("", Some (DateTime d (UTC tuesday_noon))),
          advance (advance (advance (frozen tuesday_noon UTC))))
       ∧ toordinal d = toordinal (fields_at tuesday_noon 0) + 1
       ∧ hour d = 9 ∧ minute d = 0.
Proof.
  destruct (C6_tomorrow_at_nine None (frozen tuesday_noon UTC))
    as (d & Hd & Hord & Hh & Hm & _); [by vm_compute | by vm_compute | by vm_compute |].
  exists d. repeat split; assumption.
Defined.

(** * Further properties of the code *)

(** ** The patterns and the conversions of their groups *)

(** X1: [timedelta_regex.match(val)] is never [None], so [found_delta.end()]
    in lines 73 to 75 cannot fail; the match ends within the text, and when it
    consumed nothing no group is set. *)
Theorem X1_delta_pattern_always_matches (val : string) :
  ∃ found_delta,
    re_match timedelta_regex val 0 = Some found_delta
    ∧ (m_end found_delta <= String.length val)%nat
    ∧ (m_end found_delta = 0%nat → m_groups found_delta = ∅).
Proof.
  destruct (timedelta_always_matches val) as [m Hm]. exists m. split; [done|].
  split; [|by apply (timedelta_match val)].
  destruct (module_pattern_anchored timedelta_regex val 0 m ltac:(in_list) Hm)
    as (w & _ & Hval & ->).
  simpl in Hval. apply (f_equal String.length) in Hval.
  rewrite str_app_length in Hval. lia.
Qed.

Lemma digits_value_bound s :
  Forall (λ x, digit x = true) (list_ascii_of_string s) →
  ∀ acc, 0 <= acc →
    ∃ n, digits_value acc s = Some n
         ∧ acc * 10 ^ Z.of_nat (String.length s) <= n
           < (acc + 1) * 10 ^ Z.of_nat (String.length s).
Proof.
  induction s as [|c s IH]; intros H acc Hacc.
  - exists acc. split; [done|]. change (10 ^ Z.of_nat (String.length "")) with 1. lia.
  - simpl in H. apply Forall_cons in H as [Hc Hs].
    cbn [digits_value]. rewrite Hc.
    assert (0 <= Z.of_nat (code c - 48) <= 9) as Hd.
    { unfold digit, in_range in Hc. apply andb_prop in Hc as [H1 H2].
      apply Nat.leb_le in H1, H2. lia. }
    destruct (IH Hs (acc * 10 + Z.of_nat (code c - 48))) as (n & Hn & Hlo & Hhi); [lia|].
    exists n. split; [done|].
    replace (Z.of_nat (String.length (String c s)))
      with (Z.succ (Z.of_nat (String.length s))) by (simpl; lia).
    rewrite Z.pow_succ_r by lia.
    assert (0 < 10 ^ Z.of_nat (String.length s)) by (apply Z.pow_pos_nonneg; lia).
    nia.
Qed.

(** [\d{2}] captures a number from 0 to 99. *)
Lemma two_digits_captured ic w : accepts ic (times 2 (Class digit)) w → two_digits w.
Proof.
  intros (w1 & w2 & -> & (x1 & -> & H1) & (x2 & -> & H2)).
  split; [done|].
  assert (Forall (λ x, digit x = true) (list_ascii_of_string (String x1 (String x2 ""))))
    as Hall by (simpl; by repeat constructor).
  destruct (digits_value_bound _ Hall 0 ltac:(lia)) as (n & Hn & Hlo & Hhi).
  exists n. split.
  - change (String x1 "" ++ String x2 "") with (String x1 (String x2 "")).
    change (py_int (String x1 (String x2 "")))
      with (let '(sign, body) :=
              if Ascii.eqb x1 "-" then (-1, String x2 "")
              else if Ascii.eqb x1 "+" then (1, String x2 "")
              else (1, String x1 (String x2 "")) in
            match body with
            | "" => Raise ValueError
            | _ => match digits_value 0 body with
                   | Some n => Return (sign * n)
                   | None => Raise ValueError
                   end
            end).
    destruct (digit_not_sign x1 H1) as [-> ->]. rewrite Hn. f_equal. lia.
  - simpl String.length in *. change (10 ^ Z.of_nat 2) with 100 in *. lia.
Qed.

Lemma two_digits_nonempty w : two_digits w → w ≠ "".
Proof. by intros [? _]. Qed.

Lemma time_groups_two_digits : groups_capture true two_digits (pat_regex time_regex).
Proof.
  cbv [pat_regex time_regex cat str groups_capture].
  repeat match goal with
         | |- _ ∧ _ => split
         | |- True => exact I
         | |- ∀ w, _ → two_digits w => apply two_digits_captured
         end.
  all: by simpl.
Qed.

(** The values of a dict built from groups come from captured groups. *)
Lemma dict_of_values conv items d k x :
  dict_of conv items = Return d → d !! k = Some x →
  ∃ v, (k, Some v) ∈ items ∧ v ≠ "" ∧ conv v = Return x.
Proof.
  revert d. induction items as [|[k' v] items IH]; intros d H Hk; simpl in H.
  - injection H as <-. by rewrite lookup_empty in Hk.
  - destruct v as [[|c v]|];
      try (destruct (IH d H Hk) as (v' & ? & ? & ?); exists v'; split; [by right | done]).
    destruct (conv (String c v)) as [y|] eqn:Hy; [|done]. simpl in H.
    destruct (dict_of conv items) as [d'|] eqn:Hd'; [|done]. simpl in H.
    injection H as <-. rewrite lookup_insert in Hk. case_decide as Hkk.
    + injection Hk as <-. subst k'. exists (String c v). split; [left | done].
    + destruct (IH d' eq_refl Hk) as (v' & ? & ? & ?). exists v'. split; [by right | done].
Qed.

(** X2: the conversions of lines 76 and 97 cannot fail. Every group that
    [timedelta_regex] captures is a signed decimal numeral, which [float]
    accepts, and every group that [time_regex] captures is two digits, which
    [int] turns into a number from 0 to 99: nothing narrower is checked. *)
Theorem X2_captured_groups_convert (val : string) (pos : nat) (m : match_obj) :
  (re_match timedelta_regex val 0 = Some m →
   ∃ params, dict_of py_float (groupdict timedelta_regex m) = Return params)
  ∧ (re_match time_regex val pos = Some m →
     ∃ clock_fields,
       dict_of py_int (groupdict time_regex m) = Return clock_fields
       ∧ ∀ k x, clock_fields !! k = Some x → 0 <= x <= 99).
Proof.
  split; intros Hm.
  - apply dict_of_groups. by apply (timedelta_match val).
  - apply (re_match_sound true two_digits two_digits_nonempty) in Hm
      as (w & _ & _ & _ & Hg & _); [|apply time_groups_two_digits].
    destruct (dict_of_total py_int (groupdict time_regex m)) as [d Hd].
    { intros k v Hin _. apply groupdict_some in Hin.
      destruct (Hg k v Hin) as (_ & n & Hn & _). by exists n. }
    exists d. split; [done|]. intros k x Hk.
    destruct (dict_of_values _ _ _ _ _ Hd Hk) as (v & Hin & _ & Hv).
    apply groupdict_some in Hin. destruct (Hg k v Hin) as (_ & n & Hn & Hrange).
    rewrite Hn in Hv. by injection Hv as <-.
Qed.

Lemma X2_captured_groups_convert_witness :
  (∃ params,
      dict_of py_float (groupdict timedelta_regex (MatchObj 3 {["days" := "-5"]}))
      = Return params)
  ∧ ∃ clock_fields,
      dict_of py_int
        (groupdict time_regex (MatchObj 5 {["hour" := "99"; "minute" := "59"]}))
      = Return clock_fields
      ∧ ∀ k x, clock_fields !! k = Some x → 0 <= x <= 99.
Proof.
  split.
  - apply (proj1 (X2_captured_groups_convert "-5d" 0 _)). by vm_compute.
  - apply (proj2 (X2_captured_groups_convert "99:59" 0 _)). by vm_compute.
Defined.

(** X3: on text over the code points 0..255 the subscript of lines 83 to
    86 cannot raise [KeyError]: wherever [day_regex] matches such a text, its
    first three characters, lowered, are a key of the table. (Beyond these
    code points [IGNORECASE] lets U+017F stand for s and U+0130, U+0131 for
    i; the property does not hold there.) *)
Theorem X3_day_table_has_the_key (val : string) (found_day : match_obj) (a b : Z) :
  re_match day_regex val 0 = Some found_day →
  lower (str_take 3 val) ∈ day_keys
  ∧ ∃ wd, subscript
            [("tod", a); ("tom", b); ("mon", 0); ("tue", 1); ("wed", 2); ("thu", 3);
             ("fri", 4); ("sat", 5); ("sun", 6)] (lower (str_take 3 val)) = Return wd.
Proof.
  intros H. pose proof (day_match_key val found_day H) as Hkey.
  split; [done | by apply subscript_day_key].
Qed.

Lemma X3_day_table_has_the_key_witness :
  lower (str_take 3 "THURSday 10:00") ∈ day_keys
  ∧ ∃ wd, subscript
            [("tod", 1); ("tom", 2); ("mon", 0); ("tue", 1); ("wed", 2); ("thu", 3);
             ("fri", 4); ("sat", 5); ("sun", 6)] (lower (str_take 3 "THURSday 10:00"))
          = Return wd.
Proof.
  apply (X3_day_table_has_the_key "THURSday 10:00" (MatchObj 8 ∅) 1 2). by vm_compute.
Defined.

(** ** What [relativedelta] is called with *)

Lemma clock_keys_not_weekday (cf : gmap string Z) :
  (∀ k, is_Some (cf !! k) → k ∈ clock_keys) → cf !! "weekday" = None.
Proof.
  intros H. destruct (cf !! "weekday") eqn:E; [|done].
  assert ("weekday" ∈ clock_keys) as Hin by (apply H; by eexists).
  revert Hin. unfold clock_keys. not_in_list.
Qed.

(** A [weekday] in the field map is what the table of line 83 gave for the
    first three characters of the text. *)
Lemma parse_fields_weekday val clk end_ params clk' wd :
  parse_fields val clk = (Return (end_, params), clk') →
  params !! "weekday" = Some wd →
  lower (str_take 3 val) ∈ day_keys
  ∧ subscript (day_table clk) (lower (str_take 3 val)) = Return wd.
Proof.
  intros H Hwd. destruct (timedelta_always_matches val) as [m Hm].
  destruct (decide (m_end m = 0%nat)) as [H0|Hpos].
  - rewrite (parse_fields_no_delta _ _ _ Hm H0) in H.
    destruct (day_or_date_cases val m clk Hm H0)
      as [(fd & wd0 & Hfd & Hsub & Hd) | (_ & Hd)];
      rewrite (run_bind _ _ _ _ _ Hd) in H; cbn [fst snd] in H;
      match type of H with
      | clock_time' val ?e ?p ?c = _ =>
          destruct (clock_time_cases val e p c)
            as [(ft & cf & _ & Hcf & Hr) | (_ & Hr)]
      end; rewrite Hr in H; injection H as <- <- <-.
    + rewrite lookup_union_r in Hwd
        by (apply clock_keys_not_weekday; intros k Hk; by eapply clock_dict_keys).
      rewrite lookup_singleton_eq in Hwd. injection Hwd as <-.
      split; [by eapply day_match_key | done].
    + rewrite lookup_singleton_eq in Hwd. injection Hwd as <-.
      split; [by eapply day_match_key | done].
    + rewrite lookup_union_r, lookup_empty in Hwd; [done|].
      apply clock_keys_not_weekday. intros k Hk. by eapply clock_dict_keys.
    + by rewrite lookup_empty in Hwd.
  - destruct (parse_fields_delta val m clk Hm) as (p & Hp & Hr); [lia|].
    rewrite Hr in H. injection H as <- <- <-.
    assert ("weekday" ∈ delta_keys) as Hin
      by (eapply delta_dict_keys; [exact Hp | by eexists]).
    revert Hin. unfold delta_keys. not_in_list.
Qed.

Lemma weekday_range f : 0 <= weekday f <= 6.
Proof. unfold weekday. pose proof (Z.mod_pos_bound (toordinal f + 6) 7). lia. Qed.

Lemma day_table_value clk key wd :
  key ∈ day_keys → subscript (day_table clk) key = Return wd →
  0 <= wd <= 6 ∨ (wd = 7 ∧ key = "tom" ∧ weekday (host_fields clk 1) = 6).
Proof.
  intros Hkey Hsub. unfold day_keys in Hkey. unfold day_table in Hsub.
  pose proof (weekday_range (host_fields clk 0)) as Ha.
  pose proof (weekday_range (host_fields clk 1)) as Hb.
  revert Hsub Ha Hb.
  generalize (weekday (host_fields clk 0)), (weekday (host_fields clk 1)).
  intros a b Hsub Ha Hb. remember (b + 1) as c eqn:Hc.
  repeat (apply elem_of_cons in Hkey as [->|Hkey];
          [vm_compute in Hsub; injection Hsub as <-;
           first [left; lia | idtac]|]).
  - assert (b + 1 <= 6 ∨ b = 6) as [|Hsun] by lia; [left; lia | right; repeat split; lia].
  - by apply elem_of_nil in Hkey.
Qed.

Lemma keywords_accepted (kw : gmap string Z) :
  (∀ k, is_Some (kw !! k) → k ∈ rd_keywords) →
  forallb (fun k => bool_decide (k ∈ rd_keywords)) (map fst (map_to_list kw)) = true.
Proof.
  intros H. apply forallb_forall. intros k Hin.
  apply in_map_iff in Hin as ([k' x] & <- & Hin).
  apply list_elem_of_In, elem_of_map_to_list in Hin.
  apply bool_decide_eq_true. apply H. by eexists.
Qed.

Lemma field_keys_are_keywords k :
  k ∈ (delta_keys ++ "weekday" :: clock_keys)%list → k ∈ rd_keywords.
Proof.
  unfold delta_keys, clock_keys, rd_keywords. simpl. intros H.
  repeat (apply elem_of_cons in H as [->|H]; [in_list|]).
  by apply elem_of_nil in H.
Qed.

Lemma constructor_on_collected_fields val clk end_ params clk' :
  parse_fields val clk = (Return (end_, params), clk') →
  (∀ k, is_Some (params !! k) → k ∈ rd_keywords)
  ∧ ((∃ delta, relativedelta_new params = Return delta)
     ∨ (relativedelta_new params = Raise IndexError
        ∧ params !! "weekday" = Some 7
        ∧ lower (str_take 3 val) = "tom"
        ∧ weekday (host_fields clk 1) = 6)).
Proof.
  intros H.
  assert (∀ k, is_Some (params !! k) → k ∈ rd_keywords) as Hkeys.
  { intros k Hk. apply field_keys_are_keywords. by eapply parse_fields_keys. }
  split; [done|]. unfold relativedelta_new.
  rewrite (keywords_accepted _ Hkeys). cbn [negb].
  destruct (params !! "weekday") as [wd|] eqn:Hwd; [|left; by eexists].
  destruct (parse_fields_weekday _ _ _ _ _ _ H Hwd) as [Hkey Hsub].
  destruct (day_table_value _ _ _ Hkey Hsub) as [Hr | (-> & Hk & Hsun)].
  - left.
    replace ((0 <=? wd) && (wd <? 7)) with true
      by (symmetry; apply andb_true_intro; split; [apply Z.leb_le | apply Z.ltb_lt]; lia).
    by eexists.
  - right. by repeat split.
Qed.

Ltac small_numbers :=
  unfold exact_floats, delta_keys; repeat (constructor; [by vm_compute|]); constructor.

(** X4: [relativedelta] is only ever called with keyword arguments it knows,
    so it cannot raise [TypeError]; on the collected fields, with numbers
    that [float] holds exactly, its constructor fails in one case only, with
    [IndexError]: the text begins with "tom" (tomorrow) while the host's
    clock shows a Sunday, for then line 84 asks for weekday 7. *)
Theorem X4_relativedelta_called_with_known_fields (val : string) (clk : sysclock)
    (end_ : nat) (params : gmap string Z) (clk' : sysclock) :
  parse_fields val clk = (Return (end_, params), clk') →
  exact_floats params →
  (∀ k, is_Some (params !! k) → k ∈ rd_keywords)
  ∧ ((∃ delta, relativedelta_new params = Return delta)
     ∨ (relativedelta_new params = Raise IndexError
        ∧ params !! "weekday" = Some 7
        ∧ lower (str_take 3 val) = "tom"
        ∧ weekday (host_fields clk 1) = 6)).
Proof. intros H _. by eapply constructor_on_collected_fields. Qed.

Lemma X4_relativedelta_called_with_known_fields_witness :
  relativedelta_new {["weekday" := 7]} = Raise IndexError
  ∧ ∃ delta, relativedelta_new {["days" := 2]} = Return delta.
Proof.
  split.
  - destruct (X4_relativedelta_called_with_known_fields "tomorrow"
                (frozen (tuesday_noon + 5 * US_PER_DAY) UTC) 8
                {["weekday" := 7]}
                (advance (advance (frozen (tuesday_noon + 5 * US_PER_DAY) UTC)))
                ltac:(by vm_compute) ltac:(small_numbers)) as [_ [[delta Hd] | (Hr & _)]].
    + by vm_compute in Hd.
    + exact Hr.
  - destruct (X4_relativedelta_called_with_known_fields "2d" (frozen tuesday_noon UTC) 2
                {["days" := 2]} (frozen tuesday_noon UTC) ltac:(by vm_compute) ltac:(small_numbers))
      as [_ [Hd | (Hr & _)]].
    + exact Hd.
    + by vm_compute in Hr.
Defined.

(** ** When there is no timestamp *)

Lemma many_same_captures p : ∀ s pos g k m,
  many p s pos g k = Some m → ∃ s' pos', k s' pos' g = Some m.
Proof.
  induction s as [|x s IH]; intros pos g k m H; simpl in H; [done|].
  destruct (p x); [|done].
  destruct (many p s (S pos) g k) as [m'|] eqn:Hm; [|by eauto].
  injection H as ->. by eapply IH.
Qed.

(** Captures are only added, by the groups of the pattern; a pattern that
    [sets] leaves captures behind, and a [quiet] one does so unless it stayed
    where it was. *)
Lemma exec_marks ic r : ∀ s pos g k m,
  exec ic r s pos g k = Some m →
  ∃ s' pos' g',
    k s' pos' g' = Some m
    ∧ (g ≠ ∅ → g' ≠ ∅)
    ∧ (∀ n, is_Some (g' !! n) → is_Some (g !! n) ∨ n ∈ group_names r)
    ∧ (sets r = true → g' ≠ ∅)
    ∧ (quiet r = true → g' ≠ ∅ ∨ pos' = pos).
Proof.
  induction r as [|c|p|r1 IH1 r2 IH2|r1 IH1 r2 IH2|r1 IH1|p|name r1 IH1];
    intros s pos g k m H; simpl in H.
  - exists s, pos, g. repeat split; auto; try done.
  - destruct s as [|x s]; [done|]. destruct (lit_eq ic c x); [|done].
    exists s, (S pos), g. repeat split; auto; try done.
  - destruct s as [|x s]; [done|]. destruct (p x); [|done].
    exists s, (S pos), g. repeat split; auto; try done.
  - apply IH1 in H as (s1 & pos1 & g1 & H & Hm1 & Hn1 & Hs1 & Hq1).
    apply IH2 in H as (s2 & pos2 & g2 & H & Hm2 & Hn2 & Hs2 & Hq2).
    exists s2, pos2, g2. split; [done|]. split; [auto|]. split; [|split].
    + intros n Hn. simpl. rewrite elem_of_app.
      destruct (Hn2 n Hn) as [Hn'|]; [|auto]. destruct (Hn1 n Hn'); auto.
    + simpl. intros Hs. apply orb_prop in Hs as [Hs|Hs]; auto.
    + simpl. intros Hq. apply orb_prop in Hq as [Hq|Hq].
      * apply orb_prop in Hq as [Hs|Hs]; left; auto.
      * apply andb_prop in Hq as [Hqa Hqb].
        destruct (Hq2 Hqb) as [? | ->]; [by left|].
        destruct (Hq1 Hqa) as [? | ->]; [left; auto | by right].
  - destruct (exec ic r1 s pos g k) as [m'|] eqn:H1.
    + injection H as ->.
      apply IH1 in H1 as (s1 & pos1 & g1 & H & Hm1 & Hn1 & Hs1 & Hq1).
      exists s1, pos1, g1. split; [done|]. split; [auto|]. split; [|split]; simpl.
      * intros n Hn. rewrite elem_of_app. destruct (Hn1 n Hn); auto.
      * intros Hs. apply andb_prop in Hs as [? ?]. auto.
      * intros Hq. apply andb_prop in Hq as [? ?]. auto.
    + apply IH2 in H as (s1 & pos1 & g1 & H & Hm1 & Hn1 & Hs1 & Hq1).
      exists s1, pos1, g1. split; [done|]. split; [auto|]. split; [|split]; simpl.
      * intros n Hn. rewrite elem_of_app. destruct (Hn1 n Hn); auto.
      * intros Hs. apply andb_prop in Hs as [? ?]. auto.
      * intros Hq. apply andb_prop in Hq as [? ?]. auto.
  - destruct (exec ic r1 s pos g k) as [m'|] eqn:H1.
    + injection H as ->.
      apply IH1 in H1 as (s1 & pos1 & g1 & H & Hm1 & Hn1 & Hs1 & Hq1).
      exists s1, pos1, g1. split; [done|]. split; [auto|]. split; [|split]; simpl.
      * done.
      * done.
      * intros Hq. apply orb_prop in Hq as [?|?]; auto.
    + exists s, pos, g. repeat split; auto; try done.
  - apply many_same_captures in H as (s' & pos' & H).
    exists s', pos', g. repeat split; auto; try done.
  - apply IH1 in H as (s1 & pos1 & g1 & H & Hm1 & Hn1 & Hs1 & Hq1).
    exists s1, pos1, (<[name := str_take (pos1 - pos) s]> g1).
    split; [done|].
    assert (<[name := str_take (pos1 - pos) s]> g1 ≠ ∅) by apply insert_non_empty.
    split; [done|]. split; [|by auto].
    intros n Hn. simpl. rewrite lookup_insert in Hn. case_decide as Hd.
    + subst. right. left.
    + destruct (Hn1 n Hn); [by left | right; by right].
Qed.

(** A match of a [quiet] pattern from offset 0 that went past offset 0, or a
    match of a pattern that [sets], has captured a group of the pattern. *)
Lemma re_match_marks p val pos m :
  re_match p val pos = Some m →
  (∀ n, is_Some (m_groups m !! n) → n ∈ group_names (pat_regex p))
  ∧ (sets (pat_regex p) = true → m_groups m ≠ ∅)
  ∧ (quiet (pat_regex p) = true → m_groups m ≠ ∅ ∨ m_end m = pos).
Proof.
  unfold re_match. intros H.
  apply exec_marks in H as (s' & pos' & g' & H & _ & Hn & Hs & Hq).
  injection H as <-. cbn [m_groups m_end]. split; [|by split].
  intros n Hin. destruct (Hn n Hin) as [Hempty|]; [|done].
  rewrite lookup_empty in Hempty. by destruct Hempty.
Qed.

Lemma dict_of_has conv items d k v :
  (k, Some v) ∈ items → v ≠ "" → dict_of conv items = Return d → is_Some (d !! k).
Proof.
  revert d. induction items as [|[k' v'] items IH]; intros d Hin Hv H;
    [by apply elem_of_nil in Hin|].
  simpl in H. apply elem_of_cons in Hin as [[= <- <-]|Hin].
  - destruct v as [|c v]; [done|].
    destruct (conv (String c v)); [|done]. simpl in H.
    destruct (dict_of conv items); [|done]. simpl in H. injection H as <-.
    rewrite lookup_insert_eq. by eexists.
  - destruct v' as [[|c v']|]; try by eapply IH.
    destruct (conv (String c v')); [|done]. simpl in H.
    destruct (dict_of conv items) as [d'|]; [|done]. simpl in H. injection H as <-.
    rewrite lookup_insert. case_decide; [by eexists | by eapply IH].
Qed.

(** The dict built from a match with captures is not empty. *)
Lemma dict_of_nonempty conv p m d :
  (∀ n, is_Some (m_groups m !! n) → n ∈ group_names (pat_regex p)) →
  captures_good numeral (m_groups m) →
  m_groups m ≠ ∅ →
  dict_of conv (groupdict p m) = Return d → d ≠ ∅.
Proof.
  intros Hnames Hgood Hne Hd.
  apply map_choose in Hne as (n & v & Hv).
  assert (is_Some (d !! n)) as [x Hx].
  { eapply dict_of_has; [|by apply (Hgood n v Hv)|exact Hd].
    unfold groupdict. apply list_elem_of_fmap. exists n. rewrite Hv.
    split; [done|]. apply Hnames. by eexists. }
  intros ->. by rewrite lookup_empty in Hx.
Qed.

Lemma size_pos (d : gmap string Z) : d ≠ ∅ → Nat.ltb 0 (size d) = true.
Proof.
  intros H. apply Nat.ltb_lt. destruct (size d) eqn:Hs; [|lia].
  by apply map_size_empty_iff in Hs.
Qed.

Lemma delta_fields_nonempty val m clk :
  re_match timedelta_regex val 0 = Some m → (0 < m_end m)%nat →
  ∃ params, parse_fields val clk = (Return (m_end m, params), clk) ∧ params ≠ ∅.
Proof.
  intros Hm Hpos.
  destruct (parse_fields_delta val _ clk Hm Hpos) as (params & Hp & Hr).
  exists params. split; [done|].
  destruct (re_match_marks _ _ _ _ Hm) as (Hnames & _ & Hq).
  eapply dict_of_nonempty; [exact Hnames | by apply (timedelta_match val) | | exact Hp].
  destruct (Hq eq_refl) as [|H0]; [done | lia].
Qed.

(** X5: whenever the relative-delta step consumes text, the field map is not
    empty; so [match] then reads the clock once and does produce a timestamp,
    unless the date arithmetic raises. *)
Theorem X5_delta_always_yields_fields (val : string) (found_delta : match_obj)
    (instance : option timezone) (clk : sysclock) :
  re_match timedelta_regex val 0 = Some found_delta →
  (0 < m_end found_delta)%nat →
  ∃ params,
    parse_fields val clk = (Return (m_end found_delta, params), clk)
    ∧ params ≠ ∅
    ∧ ((∃ d, match_ val instance clk
             = (Return (str_drop (m_end found_delta) val, Some d), advance clk))
       ∨ ∃ e, match_ val instance clk = (Raise e, advance clk)).
Proof.
  intros Hm Hpos.
  destruct (delta_fields_nonempty val _ clk Hm Hpos) as (params & Hr & Hne).
  exists params. split; [done|]. split; [done|].
  rewrite (match_run _ instance _ _ _ _ Hr), (size_pos _ Hne). cbv zeta.
  destruct (_ ← relativedelta_new params; _) as [d|e]; [left | right]; by eexists.
Qed.

Lemma X5_delta_always_yields_fields_witness :
  ∃ params,
    parse_fields "3 weeks -2h call" (frozen tuesday_noon UTC)
    = (Return (12%nat, params), frozen tuesday_noon UTC)
    ∧ params ≠ ∅.
Proof.
  destruct (X5_delta_always_yields_fields "3 weeks -2h call"
              (MatchObj 12 {["weeks" := "3"; "hours" := "-2"]}) None
              (frozen tuesday_noon UTC) ltac:(by vm_compute) ltac:(simpl; lia))
    as (params & Hp & Hne & _).
  exists params. split; [exact Hp | exact Hne].
Defined.

Lemma fields_give_no_none val instance clk end_ params c rest c' :
  parse_fields val clk = (Return (end_, params), c) → params ≠ ∅ →
  match_ val instance clk ≠ (Return (rest, None), c').
Proof.
  intros Hp Hne. rewrite (match_run _ instance _ _ _ _ Hp), (size_pos _ Hne).
  cbv zeta. by destruct (_ ← relativedelta_new params; _).
Qed.

Lemma union_nonempty_l (a b : gmap string Z) : a ≠ ∅ → a ∪ b ≠ ∅.
Proof.
  intros Ha Hu. apply map_choose in Ha as (k & x & Hk).
  assert ((a ∪ b) !! k = Some x) as Hx by (by apply lookup_union_Some_l).
  by rewrite Hu, lookup_empty in Hx.
Qed.

Lemma union_nonempty_r (a b : gmap string Z) : b ≠ ∅ → a ∪ b ≠ ∅.
Proof.
  intros Hb Hu. apply map_choose in Hb as (k & x & Hk).
  assert (is_Some ((a ∪ b) !! k)) as [y Hy]
    by (apply lookup_union_is_Some; right; by eexists).
  by rewrite Hu, lookup_empty in Hy.
Qed.

(** X6: when [match] returns no timestamp, it has not read the clock, and
    the remaining text is the whole text, or the text behind an ISO date
    that stood at its start: line 90 consumes the date although line 91 gets
    no field from it. *)
Theorem X6_no_timestamp_means_text_untouched_or_date_dropped (val : string)
    (instance : option timezone) (clk : sysclock) (rest : string) (clk' : sysclock) :
  match_ val instance clk = (Return (rest, None), clk') →
  clk' = clk
  ∧ re_match day_regex val 0 = None
  ∧ ((re_match date_regex val 0 = None ∧ rest = val)
     ∨ ∃ found_date,
         re_match date_regex val 0 = Some found_date
         ∧ rest = str_drop (m_end found_date) val).
Proof.
  intros H. destruct (timedelta_always_matches val) as [m Hm].
  destruct (decide (m_end m = 0%nat)) as [H0|Hpos].
  - pose proof (parse_fields_no_delta _ _ clk Hm H0) as Hpf.
    destruct (day_or_date_cases val m clk Hm H0)
      as [(fd & wd & Hfd & _ & Hd) | (Hnoday & Hd)];
      rewrite (run_bind _ _ _ _ _ Hd) in Hpf; cbn [fst snd] in Hpf;
      match type of Hpf with
      | _ = clock_time' val ?e ?p ?c =>
          destruct (clock_time_cases val e p c)
            as [(ft & cf & Hft & Hcf & Hr) | (Hnotime & Hr)]
      end; rewrite Hr in Hpf.
    + exfalso. eapply fields_give_no_none; [exact Hpf | | exact H].
      apply union_nonempty_r, insert_non_empty.
    + exfalso. eapply fields_give_no_none; [exact Hpf | | exact H].
      apply insert_non_empty.
    + exfalso. eapply fields_give_no_none; [exact Hpf | | exact H].
      apply union_nonempty_l.
      destruct (re_match_marks _ _ _ _ Hft) as (Hnames & Hsets & _).
      eapply dict_of_nonempty; [exact Hnames | by eapply time_match | by apply Hsets
                               | exact Hcf].
    + rewrite (match_run _ instance _ _ _ _ Hpf) in H.
      rewrite map_size_empty in H. cbn [Nat.ltb Nat.leb] in H.
      injection H as <- <-. split; [done|]. split; [done|].
      destruct (re_match date_regex val 0) as [found_date|]; [right | left].
      * by exists found_date.
      * done.
  - exfalso.
    destruct (delta_fields_nonempty val m clk Hm ltac:(lia)) as (params & Hp & Hne).
    eapply fields_give_no_none; [exact Hp | exact Hne | exact H].
Qed.

Lemma X6_no_timestamp_means_text_untouched_or_date_dropped_witness :
  ∃ found_date,
    re_match date_regex "2024-05-01 buy milk" 0 = Some found_date
    ∧ " buy milk" = str_drop (m_end found_date) "2024-05-01 buy milk".
Proof.
  destruct (X6_no_timestamp_means_text_untouched_or_date_dropped
              "2024-05-01 buy milk" None (frozen tuesday_noon UTC) " buy milk"
              (frozen tuesday_noon UTC) ltac:(by vm_compute))
    as (_ & _ & [[Hnone _] | Hdate]).
  - by vm_compute in Hnone.
  - exact Hdate.
Defined.

(** ** [format_time] at its edges *)

(** A day count that is not above zero gives no clause, whatever it is. *)
Lemma relative_without_days d s us :
  d <= 0 → relative (TimeDelta d s us) = relative (TimeDelta 0 s us).
Proof.
  intros Hd. unfold relative. cbn [td_days td_seconds].
  replace (0 <? d) with false by (symmetry; apply Z.ltb_ge; lia).
  by replace (0 <? 0) with false by done.
Qed.

Lemma relative_general d s us :
  0 <= s → 0 < d ∨ 0 < s →
  relative (TimeDelta d s us)
  = Return (spec_format (Z.max 0 d) (s / 3600) (s mod 3600 / 60) (s mod 3600 mod 60)).
Proof.
  intros Hs Hpos. destruct (decide (0 <= d)) as [Hd|Hd].
  - rewrite Z.max_r by lia. by apply relative_spec.
  - rewrite relative_without_days by lia. rewrite Z.max_l by lia.
    apply relative_spec; lia.
Qed.

(** X7: within the seven days the outcome of [format_time] depends on the
    units of the difference alone. With no day above zero and zero seconds of
    the day (the target is this very second, or whole days in the past) the
    list of clauses is empty and line 137 raises [IndexError]; in every other
    case a string comes back, built from the positive units only. *)
Theorem X7_format_time_raises_exactly_without_units (time : datetime) (clk : sysclock)
    (D : Z) :
  0 < day_number (readings clk (reads clk)) 0 <= MAXORDINAL →
  posix_micros time = readings clk (reads clk) / US_PER_SECOND * US_PER_SECOND + D →
  - 999999999 * US_PER_DAY <= D <= 7 * US_PER_DAY →
  (D / US_PER_DAY <= 0 ∧ D mod US_PER_DAY / US_PER_SECOND = 0 →
   format_time time clk = (Raise IndexError, advance clk))
  ∧ (0 < D / US_PER_DAY ∨ 0 < D mod US_PER_DAY / US_PER_SECOND →
     format_time time clk
     = (Return (spec_format (Z.max 0 (D / US_PER_DAY))
                  (D mod US_PER_DAY / US_PER_SECOND / 3600)
                  (D mod US_PER_DAY / US_PER_SECOND mod 3600 / 60)
                  (D mod US_PER_DAY / US_PER_SECOND mod 3600 mod 60)),
        advance clk)).
Proof.
  intros Hc Ht HD.
  assert (format_time time clk
          = (relative (TimeDelta (D / US_PER_DAY) (D mod US_PER_DAY / US_PER_SECOND)
                         (D mod US_PER_DAY mod US_PER_SECOND)), advance clk)) as ->.
  { rewrite (format_time_micros time clk D); [|done|done|].
    - by replace (D <=? 7 * US_PER_DAY) with true by (symmetry; apply Z.leb_le; lia).
    - unfold US_PER_DAY, US_PER_SECOND in *. divlia. }
  split.
  - intros [Hd ->]. by rewrite relative_empty.
  - intros Hpos. rewrite relative_general; [done| |done].
    unfold US_PER_DAY, US_PER_SECOND. divlia.
Qed.

Lemma X7_format_time_raises_exactly_without_units_witness :
  format_time (DateTime (Fields 2026 11 1 12 34 56 500000) (UTC 0))
    (frozen tuesday_noon UTC)
  = (Raise IndexError, advance (frozen tuesday_noon UTC))
  ∧ format_time (DateTime (Fields 2026 11 3 12 34 55 0) (UTC 0)) (frozen tuesday_noon UTC)
    = (Return "in 23 hours, 59 minutes and 59 seconds", advance (frozen tuesday_noon UTC)).
Proof.
  split.
  - apply (proj1 (X7_format_time_raises_exactly_without_units
                    (DateTime (Fields 2026 11 1 12 34 56 500000) (UTC 0))
                    (frozen tuesday_noon UTC) (-172799500000)
                    ltac:(by vm_compute) ltac:(by vm_compute) ltac:(by vm_compute))).
    by vm_compute.
  - apply (proj2 (X7_format_time_raises_exactly_without_units
                    (DateTime (Fields 2026 11 3 12 34 55 0) (UTC 0))
                    (frozen tuesday_noon UTC) (-1000000)
                    ltac:(by vm_compute) ltac:(by vm_compute) ltac:(by vm_compute))).
    right. by vm_compute.
Defined.

(** X8: a target in the past is not told apart from one in the future. A
    target [T] seconds before now, less than a day, has the difference
    [-1 day + (86400 - T) seconds]; the day is dropped and the text reads
    "in" what is left of the day. *)
Theorem X8_format_time_past_target (time : datetime) (clk : sysclock) (T : Z) :
  0 < day_number (readings clk (reads clk)) 0 <= MAXORDINAL →
  posix_micros time
  = readings clk (reads clk) / US_PER_SECOND * US_PER_SECOND - T * US_PER_SECOND →
  0 < T < 86400 →
  format_time time clk
  = (Return (spec_format 0 ((86400 - T) / 3600) ((86400 - T) mod 3600 / 60)
               ((86400 - T) mod 3600 mod 60)), advance clk).
Proof.
  intros Hc Ht HT.
  rewrite (format_time_seconds time clk (- T)); [|done|rewrite Ht; lia|divlia].
  replace (- T <=? 7 * 86400) with true by (symmetry; apply Z.leb_le; lia).
  replace (- T / 86400) with (-1) by divlia.
  replace (- T mod 86400) with (86400 - T) by divlia.
  rewrite relative_without_days by lia.
  by rewrite relative_spec by lia.
Qed.

Lemma X8_format_time_past_target_witness :
  format_time (DateTime (Fields 2026 11 3 12 33 26 0) (UTC 0)) (frozen tuesday_noon UTC)
  = (Return "in 23 hours, 58 minutes and 30 seconds", advance (frozen tuesday_noon UTC)).
Proof.
  apply (X8_format_time_past_target (DateTime (Fields 2026 11 3 12 33 26 0) (UTC 0))
           (frozen tuesday_noon UTC) 90); [by vm_compute | by vm_compute | lia].
Defined.

(** X9: the seven days are part of the relative range: a target exactly
    seven days ahead reads "in 7 days", and one microsecond more switches to
    the absolute form of line 138. *)
Theorem X9_format_time_threshold (time : datetime) (clk : sysclock) (D : Z) :
  0 < day_number (readings clk (reads clk)) 0 <= MAXORDINAL →
  posix_micros time = readings clk (reads clk) / US_PER_SECOND * US_PER_SECOND + D →
  (D = 7 * US_PER_DAY → format_time time clk = (Return "in 7 days", advance clk))
  ∧ (7 * US_PER_DAY < D <= 999999999 * US_PER_DAY →
     format_time time clk = (Return (strftime_at time), advance clk)).
Proof.
  intros Hc Ht. split.
  - intros ->. by rewrite (format_time_micros time clk _ Hc Ht) by (by vm_compute).
  - intros HD. rewrite (format_time_micros time clk D); [|done|done|].
    + by replace (D <=? 7 * US_PER_DAY) with false by (symmetry; apply Z.leb_gt; lia).
    + unfold US_PER_DAY, US_PER_SECOND in *. divlia.
Qed.

Lemma X9_format_time_threshold_witness :
  format_time (DateTime (Fields 2026 11 10 12 34 56 0) (UTC 0)) (frozen tuesday_noon UTC)
  = (Return "in 7 days", advance (frozen tuesday_noon UTC))
  ∧ format_time (DateTime (Fields 2026 11 10 12 34 56 1) (TzInfo "EET" 7200))
      (frozen (tuesday_noon - 7200 * US_PER_SECOND) UTC)
    = (Return "at 12:34:56 EET on Tuesday, November 10 2026",
       advance (frozen (tuesday_noon - 7200 * US_PER_SECOND) UTC)).
Proof.
  split.
  - apply (proj1 (X9_format_time_threshold
                    (DateTime (Fields 2026 11 10 12 34 56 0) (UTC 0))
                    (frozen tuesday_noon UTC) (7 * US_PER_DAY)
                    ltac:(by vm_compute) ltac:(by vm_compute)) eq_refl).
  - apply (proj2 (X9_format_time_threshold
                    (DateTime (Fields 2026 11 10 12 34 56 1) (TzInfo "EET" 7200))
                    (frozen (tuesday_noon - 7200 * US_PER_SECOND) UTC)
                    (7 * US_PER_DAY + 1)
                    ltac:(by vm_compute) ltac:(by vm_compute))).
    by vm_compute.
Defined.

(** ** The result of the date arithmetic *)

Lemma weekday_seven_raises (params : gmap string Z) :
  (∀ k, is_Some (params !! k) → k ∈ rd_keywords) →
  params !! "weekday" = Some 7 →
  relativedelta_new params = Raise IndexError.
Proof.
  intros Hkeys Hwd. unfold relativedelta_new.
  rewrite (keywords_accepted _ Hkeys), Hwd. reflexivity.
Qed.

(** X10: "tomorrow" cannot be asked for on a Sunday. When the text begins
    with a match of [day_regex] whose first three letters are "tom" and the
    host's clock shows a Sunday at the second reading, the table of line 83
    yields weekday 7, [relativedelta] fails on it, and [match] raises
    [IndexError] after its third reading of the clock. *)
Theorem X10_tomorrow_raises_on_sunday (val : string) (instance : option timezone)
    (clk : sysclock) (found_delta found_day : match_obj) :
  re_match timedelta_regex val 0 = Some found_delta →
  m_end found_delta = 0%nat →
  re_match day_regex val 0 = Some found_day →
  lower (str_take 3 val) = "tom" →
  weekday (host_fields clk 1) = 6 →
  match_ val instance clk = (Raise IndexError, advance (advance (advance clk))).
Proof.
  intros Hm H0 Hfd Hkey Hsun.
  pose proof (parse_fields_no_delta _ _ clk Hm H0) as Hpf.
  destruct (day_or_date_cases val _ clk Hm H0)
    as [(fd & wd & Hfd' & Hsub & Hd) | (Hnoday & _)]; [|congruence].
  rewrite Hkey in Hsub. unfold day_table in Hsub. rewrite subscript_tom in Hsub.
  injection Hsub as <-. rewrite Hsun in Hd. change (6 + 1) with 7 in Hd.
  rewrite (run_bind _ _ _ _ _ Hd) in Hpf. cbn [fst snd] in Hpf.
  assert (∃ end_ params,
            parse_fields val clk = (Return (end_, params), advance (advance clk))
            ∧ params !! "weekday" = Some 7) as (end_ & params & Hp & Hwd).
  { destruct (clock_time_cases val (m_end fd) {["weekday" := 7]} (advance (advance clk)))
      as [(ft & cf & _ & Hcf & Hr) | (_ & Hr)]; rewrite Hr in Hpf.
    - eexists _, _. split; [exact Hpf|].
      rewrite lookup_union_r
        by (apply clock_keys_not_weekday; intros k Hk; by eapply clock_dict_keys).
      apply lookup_singleton_eq.
    - eexists _, _. split; [exact Hpf|]. apply lookup_singleton_eq. }
  rewrite (match_run _ instance _ _ _ _ Hp).
  assert (params ≠ ∅) as Hne by (intros ->; by rewrite lookup_empty in Hwd).
  rewrite (size_pos _ Hne). cbv zeta.
  rewrite weekday_seven_raises; [done| |done].
  intros k Hk. apply field_keys_are_keywords. by eapply parse_fields_keys.
Qed.

Lemma X10_tomorrow_raises_on_sunday_witness :
  match_ "Tomorrow at 09:00" None (frozen sunday_noon UTC)
  = (Raise IndexError, advance (advance (advance (frozen sunday_noon UTC)))).
Proof.
  apply (X10_tomorrow_raises_on_sunday "Tomorrow at 09:00" None (frozen sunday_noon UTC)
           (MatchObj 0 ∅) (MatchObj 8 ∅)); by vm_compute.
Defined.

Lemma not_listed (params : gmap string Z) (keys : list string) k :
  (∀ k, is_Some (params !! k) → k ∈ keys) → k ∉ keys → params !! k = None.
Proof.
  intros H Hk. destruct (params !! k) eqn:E; [|done]. destruct Hk. apply H. by eexists.
Qed.

Lemma rd_fix_days n wdo ho mio so :
  rd_fix (RelativeDelta 0 0 n 0 0 0 0 0 None None None wdo ho mio so None)
  = RelativeDelta 0 0 n 0 0 0 0 0 None None None wdo ho mio so None.
Proof. reflexivity. Qed.

(** The constructor on fields that only move the date by days or set the
    weekday and the clock. *)
Lemma relativedelta_new_simple (params : gmap string Z) :
  (∀ k, is_Some (params !! k) → k ∈ simple_keys) →
  (∀ wd, params !! "weekday" = Some wd → 0 <= wd <= 6) →
  relativedelta_new params
  = Return (RelativeDelta 0 0
              (default 0 (params !! "days") + default 0 (params !! "weeks") * 7)
              0 0 0 0 0 None None None (params !! "weekday")
              (params !! "hour") (params !! "minute") (params !! "second") None).
Proof.
  intros Hkeys Hwd. unfold relativedelta_new.
  rewrite keywords_accepted
    by (intros k Hk; specialize (Hkeys k Hk); revert Hkeys;
        unfold simple_keys, rd_keywords; intros Hin;
        repeat (apply elem_of_cons in Hin as [->|Hin]; [in_list|]);
        by apply elem_of_nil in Hin).
  cbn [negb].
  rewrite !(not_listed params simple_keys "years"),
          !(not_listed params simple_keys "months"),
          !(not_listed params simple_keys "leapdays"),
          !(not_listed params simple_keys "hours"),
          !(not_listed params simple_keys "minutes"),
          !(not_listed params simple_keys "seconds"),
          !(not_listed params simple_keys "microseconds"),
          !(not_listed params simple_keys "year"),
          !(not_listed params simple_keys "month"),
          !(not_listed params simple_keys "day"),
          !(not_listed params simple_keys "microsecond")
    by (done || (unfold simple_keys; not_in_list)).
  cbn [default from_option id].
  destruct (params !! "weekday") as [wd|] eqn:E.
  - specialize (Hwd wd eq_refl).
    replace ((0 <=? wd) && (wd <? 7)) with true
      by (symmetry; apply andb_true_intro; split; [apply Z.leb_le | apply Z.ltb_lt]; lia).
    rewrite bind_return. by rewrite rd_fix_days.
  - rewrite bind_return. by rewrite rd_fix_days.
Qed.

Lemma radd_unfold now n wdo ho mio so :
  1 <= month now <= 12 → day now <= days_in_month (year now) (month now) →
  relativedelta_radd
    (RelativeDelta 0 0 n 0 0 0 0 0 None None None wdo ho mio so None) now
  = (repl ← replace (Fields (year now) (month now) (day now)
                       (default (hour now) ho) (default (minute now) mio)
                       (default (second now) so) (microsecond now));
     td ← timedelta_new n 0 0 0 0;
     ret ← add_timedelta repl td;
     match wdo with
     | None => Return ret
     | Some w =>
         jump ← timedelta_new ((7 - weekday ret + w) mod 7) 0 0 0 0;
         add_timedelta ret jump
     end).
Proof.
  intros Hm Hd. unfold relativedelta_radd.
  cbn [rd_year rd_years rd_month rd_months rd_day rd_days rd_leapdays rd_hour rd_minute
       rd_second rd_microsecond rd_hours rd_minutes rd_seconds rd_microseconds
       rd_weekday or_else]. cbn [Z.eqb negb andb].
  rewrite Z.add_0_r. unfold monthrange.
  replace ((1 <=? month now) && (month now <=? 12)) with true
    by (symmetry; apply andb_true_intro; split; apply Z.leb_le; lia).
  unfold mbind at 1, outcome_bind at 1.
  rewrite Z.min_r by lia. reflexivity.
Qed.

Lemma replace_time now h mi s :
  fields_ok now = true →
  replace (Fields (year now) (month now) (day now) h mi s (microsecond now))
  = if (0 <=? h) && (h <=? 23) && (0 <=? mi) && (mi <=? 59) && (0 <=? s) && (s <=? 59)
    then Return (Fields (year now) (month now) (day now) h mi s (microsecond now))
    else Raise ValueError.
Proof.
  intros Hok. unfold replace.
  set (ok := _ && (s <=? 59)).
  assert (fields_ok (Fields (year now) (month now) (day now) h mi s (microsecond now)) = ok)
    as ->; [|done].
  unfold fields_ok in *. cbn [year month day hour minute second microsecond].
  repeat (apply andb_prop in Hok as [Hok ?]).
  repeat match goal with
         | H : ?b = true |- _ => rewrite H; clear H
         end.
  cbn [andb]. by rewrite !andb_true_r.
Qed.

Lemma add_days_time now h mi s n :
  0 <= h <= 23 → 0 <= mi <= 59 → 0 <= s <= 59 → 0 <= microsecond now <= 999999 →
  0 < toordinal now <= MAXORDINAL → Z.abs n <= 999999999 →
  0 < toordinal now + n <= MAXORDINAL →
  add_timedelta (Fields (year now) (month now) (day now) h mi s (microsecond now))
    (TimeDelta n 0 0)
  = Return (of_days_seconds (toordinal now + n) (h * 3600 + mi * 60 + s)
              (microsecond now)).
Proof.
  intros Hh Hmi Hs Hus Hord Hn Hsum.
  set (repl := Fields _ _ _ _ _ _ _).
  assert (wall_micros repl
          = (toordinal now * 86400 + (h * 3600 + mi * 60 + s)) * US_PER_SECOND
            + microsecond now) as Hwall.
  { unfold wall_micros, toordinal, repl.
    cbn [year month day hour minute second microsecond]. lia. }
  destruct (td_days_only n Hn) as [_ Htd].
  rewrite add_timedelta_eq; rewrite ?Htd, ?Hwall;
    [|unfold US_PER_DAY, US_PER_SECOND, MAXORDINAL in *; divlia..].
  f_equal. f_equal; unfold US_PER_DAY, US_PER_SECOND; divlia.
Qed.

(** The date arithmetic on such fields: the clock fields are put in place
    (or rejected), the date moves by [n] days and then on to the weekday asked
    for, the time of day stays. *)
Lemma radd_general now n wdo ho mio so :
  fields_ok now = true →
  let h := default (hour now) ho in
  let mi := default (minute now) mio in
  let s := default (second now) so in
  let jump :=
    match wdo with
    | Some wd => (7 - (toordinal now + n + 6) mod 7 + wd) mod 7
    | None => 0
    end in
  0 <= h <= 23 → 0 <= mi <= 59 → 0 <= s <= 59 →
  Z.abs n <= 999999999 →
  0 < toordinal now <= MAXORDINAL →
  0 < toordinal now + n → toordinal now + n + jump <= MAXORDINAL →
  relativedelta_radd
    (RelativeDelta 0 0 n 0 0 0 0 0 None None None wdo ho mio so None) now
  = Return (of_days_seconds (toordinal now + n + jump) (h * 3600 + mi * 60 + s)
              (microsecond now)).
Proof.
  intros Hok h mi s jump Hh Hmi Hs Hn Hord Hlo Hhi.
  pose proof (fields_ok_inv now Hok) as ((Hy & Hm & Hd) & _ & _ & _ & Hus).
  assert (0 <= jump < 7) as Hjump.
  { unfold jump. destruct wdo; [apply Z.mod_pos_bound|]; lia. }
  rewrite radd_unfold by lia. fold h mi s.
  rewrite (replace_time now h mi s Hok).
  replace ((0 <=? h) && (h <=? 23) && (0 <=? mi) && (mi <=? 59) && (0 <=? s) && (s <=? 59))
    with true
    by (symmetry; repeat (apply andb_true_intro; split); apply Z.leb_le; lia).
  rewrite bind_return.
  rewrite (proj1 (td_days_only n Hn)), bind_return.
  rewrite (add_days_time now h mi s n) by lia.
  rewrite bind_return.
  destruct wdo as [wd|].
  - unfold weekday at 1. rewrite of_days_seconds_ordinal. fold jump.
    rewrite (proj1 (td_days_only jump ltac:(lia))), bind_return.
    apply add_days; lia.
  - unfold jump. by rewrite Z.add_0_r.
Qed.

Lemma radd_rejects now n wdo ho mio so :
  fields_ok now = true →
  let h := default (hour now) ho in
  let mi := default (minute now) mio in
  let s := default (second now) so in
  23 < h ∨ 59 < mi ∨ 59 < s →
  relativedelta_radd
    (RelativeDelta 0 0 n 0 0 0 0 0 None None None wdo ho mio so None) now
  = Raise ValueError.
Proof.
  intros Hok h mi s Hbad.
  pose proof (fields_ok_inv now Hok) as ((Hy & Hm & Hd) & _).
  rewrite radd_unfold by lia. fold h mi s.
  rewrite (replace_time now h mi s Hok).
  replace ((0 <=? h) && (h <=? 23) && (0 <=? mi) && (mi <=? 59) && (0 <=? s) && (s <=? 59))
    with false; [done|].
  symmetry. apply not_true_is_false. intros Htrue.
  repeat (apply andb_prop in Htrue as [Htrue ?]).
  repeat match goal with
         | H : (_ <=? _) = true |- _ => apply Z.leb_le in H
         end. lia.
Qed.

(** The numbers that the clock-time step converts lie between 0 and 99. *)
Lemma clock_values_bound val pos m cf k x :
  re_match time_regex val pos = Some m →
  dict_of py_int (groupdict time_regex m) = Return cf →
  cf !! k = Some x → 0 <= x <= 99.
Proof.
  intros Hm Hd Hk.
  apply (re_match_sound true two_digits two_digits_nonempty) in Hm
    as (w & _ & _ & _ & Hg & _); [|apply time_groups_two_digits].
  destruct (dict_of_values _ _ _ _ _ Hd Hk) as (v & Hin & _ & Hv).
  apply groupdict_some in Hin. destruct (Hg k v Hin) as (_ & n & Hn & Hrange).
  rewrite Hn in Hv. by injection Hv as <-.
Qed.

(** The two ways in which lines 73 to 99 fill the field map: from the groups
    of the delta, with the clock untouched; or from a clock time, on top of
    at most a weekday, for which the clock was read twice. *)
Lemma parse_fields_shape val clk end_ params clk' :
  parse_fields val clk = (Return (end_, params), clk') →
  ((∀ k, is_Some (params !! k) → k ∈ delta_keys) ∧ clk' = clk)
  ∨ ∃ cf day : gmap string Z,
      params = cf ∪ day
      ∧ (∀ k x, cf !! k = Some x → k ∈ clock_keys ∧ 0 <= x <= 99)
      ∧ ((day = ∅ ∧ clk' = clk)
         ∨ ∃ wd, day = {["weekday" := wd]} ∧ clk' = advance (advance clk)).
Proof.
  intros H. destruct (timedelta_always_matches val) as [m Hm].
  destruct (decide (m_end m = 0%nat)) as [H0|Hpos].
  - right. rewrite (parse_fields_no_delta _ _ _ Hm H0) in H.
    destruct (day_or_date_cases val m clk Hm H0)
      as [(fd & wd0 & Hfd & Hsub & Hd) | (_ & Hd)];
      rewrite (run_bind _ _ _ _ _ Hd) in H; cbn [fst snd] in H;
      match type of H with
      | clock_time' val ?e ?p ?c = _ =>
          destruct (clock_time_cases val e p c)
            as [(ft & cf & Hft & Hcf & Hr) | (_ & Hr)]
      end; rewrite Hr in H; injection H as <- <- <-.
    + exists cf, {["weekday" := wd0]}. split; [done|]. split; [|right; by eexists].
      intros k x Hk. split; [eapply clock_dict_keys; [exact Hcf | by eexists]|].
      by eapply clock_values_bound.
    + exists ∅, {["weekday" := wd0]}. split; [by rewrite (left_id_L ∅ (∪))|].
      split; [|right; by eexists]. intros k x Hk. by rewrite lookup_empty in Hk.
    + exists cf, ∅. split; [done|]. split; [|by left].
      intros k x Hk. split; [eapply clock_dict_keys; [exact Hcf | by eexists]|].
      by eapply clock_values_bound.
    + exists ∅, ∅. split; [by rewrite (left_id_L ∅ (∪))|].
      split; [|by left]. intros k x Hk. by rewrite lookup_empty in Hk.
  - left. destruct (parse_fields_delta val m clk Hm) as (p & Hp & Hr); [lia|].
    rewrite Hr in H. injection H as <- <- <-.
    split; [|done]. intros k Hk. by eapply delta_dict_keys.
Qed.

(** What the collected fields say about the clock: without a weekday the
    clock was not read, and the clock fields are two-digit numbers. *)
Lemma parse_fields_clock val clk end_ params clk' :
  parse_fields val clk = (Return (end_, params), clk') →
  (params !! "weekday" = None → clk' = clk)
  ∧ (is_Some (params !! "weekday") →
     clk' = advance (advance clk) ∧ ∀ k, k ∈ delta_keys → params !! k = None)
  ∧ (∀ k x, k ∈ clock_keys → params !! k = Some x → 0 <= x <= 99).
Proof.
  intros H.
  assert (∀ cf : gmap string Z,
            (∀ k x, cf !! k = Some x → k ∈ clock_keys ∧ 0 <= x <= 99) →
            cf !! "weekday" = None) as Hnw.
  { intros cf Hcf. destruct (cf !! "weekday") as [x|] eqn:E; [|done].
    destruct (Hcf _ _ E) as [Hin _]. revert Hin. unfold clock_keys. not_in_list. }
  assert (∀ k, k ∈ delta_keys → (k ∉ clock_keys) ∧ (k ≠ "weekday")) as Hdk.
  { intros k Hk. unfold delta_keys in Hk.
    repeat (apply elem_of_cons in Hk as [->|Hk];
            [split; [unfold clock_keys; not_in_list | done]|]).
    by apply elem_of_nil in Hk. }
  destruct (parse_fields_shape _ _ _ _ _ H)
    as [[Hkeys ->] | (cf & day & -> & Hcf & [[-> ->] | (wd & -> & ->)])].
  - split; [done|]. split.
    + intros Hwd. apply Hkeys in Hwd. revert Hwd. unfold delta_keys. not_in_list.
    + intros k x Hk Hx. assert (k ∈ delta_keys) as Hin by (apply Hkeys; by eexists).
      by destruct (Hdk k Hin).
  - split; [done|]. split.
    + intros [x Hx]. rewrite lookup_union_l, (Hnw cf Hcf) in Hx by apply lookup_empty. done.
    + intros k x _ Hx. rewrite lookup_union_l in Hx by apply lookup_empty.
      by destruct (Hcf _ _ Hx).
  - split; [|split].
    + intros Hx. apply lookup_union_None in Hx as [_ Hx].
      by rewrite lookup_singleton_eq in Hx.
    + intros _. split; [done|]. intros k Hk. destruct (Hdk k Hk) as [Hc Hw].
      apply lookup_union_None. split.
      * destruct (cf !! k) as [x|] eqn:E; [|done]. by destruct (Hcf _ _ E).
      * by apply lookup_singleton_ne.
    + intros k x Hk Hx. apply lookup_union_Some_raw in Hx as [Hx | [_ Hx]].
      * by destruct (Hcf _ _ Hx).
      * apply lookup_singleton_Some in Hx as [<- _].
        revert Hk. unfold clock_keys. not_in_list.
Qed.

(** The whole of [match] on fields that move the date by days or set the
    weekday and the clock. *)
Lemma match_simple val instance clk end_ params clk' :
  parse_fields val clk = (Return (end_, params), clk') → params ≠ ∅ →
  (∀ k, is_Some (params !! k) → k ∈ simple_keys) →
  (∀ wd, params !! "weekday" = Some wd → 0 <= wd <= 6) →
  let tz := default UTC instance in
  let t := readings clk' (reads clk') in
  let now := fields_at t (utcoffset (tz t)) in
  let n := default 0 (params !! "days") + default 0 (params !! "weeks") * 7 in
  let h := default (hour now) (params !! "hour") in
  let mi := default (minute now) (params !! "minute") in
  let s := default (second now) (params !! "second") in
  let jump :=
    match params !! "weekday" with
    | Some wd => (7 - (toordinal now + n + 6) mod 7 + wd) mod 7
    | None => 0
    end in
  0 < day_number t (utcoffset (tz t)) <= MAXORDINAL →
  0 <= h → 0 <= mi → 0 <= s →
  (h <= 23 → mi <= 59 → s <= 59 → Z.abs n <= 999999999 →
   0 < toordinal now + n → toordinal now + n + jump <= MAXORDINAL →
   match_ val instance clk
   = (Return (str_drop end_ val,
              Some (DateTime (of_days_seconds (toordinal now + n + jump)
                                (h * 3600 + mi * 60 + s) (microsecond now)) (tz t))),
      advance clk'))
  ∧ (23 < h ∨ 59 < mi ∨ 59 < s → match_ val instance clk = (Raise ValueError, advance clk')).
Proof.
  intros H Hne Hkeys Hwd tz t now n h mi s jump Hrange Hh Hmi Hs.
  assert (fields_ok now = true) as Hok by (apply fields_at_ok; lia).
  assert (toordinal now = day_number t (utcoffset (tz t))) as Hord
    by (unfold now, fields_at; apply of_days_seconds_ordinal).
  rewrite (match_run _ instance _ _ _ _ H), (size_pos _ Hne). cbv zeta.
  fold tz t now.
  rewrite (relativedelta_new_simple params Hkeys Hwd), bind_return.
  unfold datetime_add_relativedelta. cbn [wall zone].
  fold n. split.
  - intros Hh' Hmi' Hs' Hn Hlo Hhi.
    rewrite (radd_general now n _ _ _ _ Hok); [by rewrite bind_return|lia..].
  - intros Hbad. by rewrite (radd_rejects now n _ _ _ _ Hok).
Qed.

Lemma absent_keys (params : gmap string Z) (gone keep : list string) :
  Forall (λ k, params !! k = None) gone →
  (∀ k, is_Some (params !! k) → k ∈ (delta_keys ++ "weekday" :: clock_keys)%list) →
  (∀ k, k ∈ (delta_keys ++ "weekday" :: clock_keys)%list → k ∈ gone ∨ k ∈ keep) →
  ∀ k, is_Some (params !! k) → k ∈ keep.
Proof.
  intros Hgone Hall Hsplit k Hk.
  destruct (Hsplit k (Hall k Hk)) as [Hin|Hin]; [|done].
  rewrite Forall_forall in Hgone. rewrite (Hgone k Hin) in Hk. by destruct Hk.
Qed.

Ltac split_keys :=
  intros key Hkey; unfold delta_keys, clock_keys in Hkey; simpl in Hkey;
  repeat (apply elem_of_cons in Hkey as [->|Hkey];
          [first [left; solve [in_list] | right; solve [in_list]]|]);
  by apply elem_of_nil in Hkey.

(** X11: a clock time on its own. When the fields collected by lines 73 to
    99 hold neither a weekday nor a part of a delta, [match] reads the
    clock once and sets the time of day on the current date in [tz]: the fields
    that the text gave replace those of the current moment, a second that the
    text left out stays that of the current moment, and so does the
    microsecond. The date never moves: a time of day that is already over
    gives a timestamp in the past. An hour above 23, a minute or a second above
    59 makes the call raise [ValueError], after the clock was read. *)
Theorem X11_clock_time_sets_the_time_of_today (val : string)
    (instance : option timezone) (clk : sysclock) (end_ : nat)
    (params : gmap string Z) (clk' : sysclock) :
  parse_fields val clk = (Return (end_, params), clk') →
  params ≠ ∅ →
  Forall (λ k, params !! k = None) ("weekday" :: delta_keys) →
  let tz := default UTC instance in
  let t := readings clk (reads clk) in
  let now := fields_at t (utcoffset (tz t)) in
  let h := default (hour now) (params !! "hour") in
  let mi := default (minute now) (params !! "minute") in
  let s := default (second now) (params !! "second") in
  0 < day_number t (utcoffset (tz t)) <= MAXORDINAL →
  (h <= 23 → mi <= 59 → s <= 59 →
   ∃ d, match_ val instance clk
        = (Return (str_drop end_ val, Some (DateTime d (tz t))), advance clk)
        ∧ toordinal d = toordinal now
        ∧ hour d = h ∧ minute d = mi ∧ second d = s
        ∧ microsecond d = microsecond now)
  ∧ (23 < h ∨ 59 < mi ∨ 59 < s →
     match_ val instance clk = (Raise ValueError, advance clk)).
Proof.
  intros H Hne Hgone tz t now h mi s Hrange.
  destruct (parse_fields_clock _ _ _ _ _ H) as (Hclk & _ & Hval).
  pose proof (Forall_inv Hgone) as Hnw. cbv beta in Hnw.
  rewrite (Hclk Hnw) in H. clear Hclk.
  assert (∀ k, is_Some (params !! k) → k ∈ clock_keys) as Hkeys.
  { apply (absent_keys params ("weekday" :: delta_keys)); [done| |split_keys].
    intros k Hk. by eapply parse_fields_keys. }
  assert (fields_ok now = true) as Hok by (apply fields_at_ok; lia).
  pose proof (fields_ok_inv now Hok) as (_ & Hh0 & Hmi0 & Hs0 & Hus).
  assert (0 <= h ∧ 0 <= mi ∧ 0 <= s) as (Hh & Hmi & Hs).
  { unfold h, mi, s.
    destruct (params !! "hour") as [x|] eqn:E1;
      [apply (Hval "hour") in E1; [|unfold clock_keys; in_list]|];
    (destruct (params !! "minute") as [y|] eqn:E2;
      [apply (Hval "minute") in E2; [|unfold clock_keys; in_list]|]);
    (destruct (params !! "second") as [z|] eqn:E3;
      [apply (Hval "second") in E3; [|unfold clock_keys; in_list]|]);
    cbn [default from_option id]; lia. }
  assert (params !! "days" = None ∧ params !! "weeks" = None) as [Hd Hw].
  { rewrite Forall_forall in Hgone.
    split; apply Hgone; unfold delta_keys; in_list. }
  destruct (match_simple val instance clk end_ params clk H Hne) as [Hgood Hbad].
  - intros k Hk. apply Hkeys in Hk. revert Hk. unfold clock_keys, simple_keys.
    intros Hk. repeat (apply elem_of_cons in Hk as [->|Hk]; [in_list|]).
    by apply elem_of_nil in Hk.
  - intros wd Hwd. by rewrite Hnw in Hwd.
  - done.
  - done.
  - done.
  - done.
  - fold tz t now h mi s in Hgood, Hbad. rewrite Hnw, Hd, Hw in Hgood.
    cbn [default from_option id] in Hgood.
    assert (toordinal now = day_number t (utcoffset (tz t))) as Hord
      by (unfold now, fields_at; apply of_days_seconds_ordinal).
    split; [|done]. intros Hh' Hmi' Hs'.
    eexists. split; [apply Hgood; lia|].
    rewrite of_days_seconds_ordinal.
    destruct (of_days_seconds_time (toordinal now + (0 + 0 * 7) + 0) (h * 3600 + mi * 60 + s)
                (microsecond now)) as (-> & -> & -> & ->).
    repeat split; divlia.
Qed.

Lemma X11_clock_time_sets_the_time_of_today_witness :
  ∃ d, match_ "09:15 stand-up" None (frozen tuesday_noon UTC)
       = (Return (" stand-up", Some (DateTime d (UTC tuesday_noon))),
          advance (frozen tuesday_noon UTC))
       ∧ toordinal d = toordinal (fields_at tuesday_noon 0)
       ∧ hour d = 9 ∧ minute d = 15 ∧ second d = 56.
Proof.
  destruct (X11_clock_time_sets_the_time_of_today "09:15 stand-up" None
              (frozen tuesday_noon UTC) 5 {["hour" := 9; "minute" := 15]}
              (frozen tuesday_noon UTC)) as [Hgood _].
  - by vm_compute.
  - by vm_compute.
  - repeat constructor.
  - by vm_compute.
  - destruct Hgood as (d & Hd & Hord & Hh & Hmi & Hs & _); [by vm_compute..|].
    exists d. repeat split; assumption.
Defined.

(** X12: a day name. When lines 80 to 86 put a weekday between 0 and 6 in
    the field map, the clock is read three times and the timestamp falls on
    the first day with that weekday from the current date in [tz] on, the
    current date included: naming the weekday of today gives today, not the
    day a week later. The time of day is that of the current moment, with the
    fields replaced that a clock time in the text gave. *)
Theorem X12_weekday_is_the_next_such_day (val : string) (instance : option timezone)
    (clk : sysclock) (end_ : nat) (params : gmap string Z) (clk' : sysclock) (wd : Z) :
  parse_fields val clk = (Return (end_, params), clk') →
  params !! "weekday" = Some wd → wd ≠ 7 →
  let tz := default UTC instance in
  let t := readings clk (reads clk + 2) in
  let now := fields_at t (utcoffset (tz t)) in
  let h := default (hour now) (params !! "hour") in
  let mi := default (minute now) (params !! "minute") in
  let s := default (second now) (params !! "second") in
  0 < day_number t (utcoffset (tz t)) → day_number t (utcoffset (tz t)) + 6 <= MAXORDINAL →
  h <= 23 → mi <= 59 → s <= 59 →
  ∃ d, match_ val instance clk
       = (Return (str_drop end_ val, Some (DateTime d (tz t))),
          advance (advance (advance clk)))
       ∧ weekday d = wd
       ∧ toordinal now <= toordinal d <= toordinal now + 6
       ∧ hour d = h ∧ minute d = mi ∧ second d = s
       ∧ microsecond d = microsecond now.
Proof.
  intros H Hwd H7 tz t now h mi s Hlo Hhi Hh' Hmi' Hs'.
  destruct (parse_fields_clock _ _ _ _ _ H) as (_ & Hclk & Hval).
  destruct (Hclk ltac:(by eexists)) as [-> Hnd]. clear Hclk.
  assert (0 <= wd <= 6) as Hrange.
  { destruct (parse_fields_weekday _ _ _ _ _ _ H Hwd) as [Hkey Hsub].
    destruct (day_table_value _ _ _ Hkey Hsub) as [?|(? & _)]; [done | lia]. }
  assert (params ≠ ∅) as Hne by (intros ->; by rewrite lookup_empty in Hwd).
  assert (∀ k, is_Some (params !! k) → k ∈ "weekday" :: clock_keys) as Hkeys.
  { apply (absent_keys params delta_keys); [|by intros k Hk; eapply parse_fields_keys|split_keys].
    apply Forall_forall. intros k Hk. by apply Hnd. }
  assert (fields_ok now = true) as Hok by (apply fields_at_ok; unfold MAXORDINAL in *; lia).
  pose proof (fields_ok_inv now Hok) as (_ & Hh0 & Hmi0 & Hs0 & Hus).
  assert (0 <= h ∧ 0 <= mi ∧ 0 <= s) as (Hh & Hmi & Hs).
  { unfold h, mi, s.
    destruct (params !! "hour") as [x|] eqn:E1;
      [apply (Hval "hour") in E1; [|unfold clock_keys; in_list]|];
    (destruct (params !! "minute") as [y|] eqn:E2;
      [apply (Hval "minute") in E2; [|unfold clock_keys; in_list]|]);
    (destruct (params !! "second") as [z|] eqn:E3;
      [apply (Hval "second") in E3; [|unfold clock_keys; in_list]|]);
    cbn [default from_option id]; lia. }
  assert (params !! "days" = None ∧ params !! "weeks" = None) as [Hd Hw]
    by (split; apply Hnd; unfold delta_keys; in_list).
  assert (readings (advance (advance clk)) (reads (advance (advance clk))) = t) as Ht
    by (unfold t; simpl; f_equal; lia).
  destruct (match_simple val instance clk end_ params _ H Hne) as [Hgood _].
  - intros k Hk. apply Hkeys in Hk. revert Hk. unfold clock_keys, simple_keys.
    intros Hk. repeat (apply elem_of_cons in Hk as [->|Hk]; [in_list|]).
    by apply elem_of_nil in Hk.
  - intros wd' Hwd'. rewrite Hwd in Hwd'. by injection Hwd' as <-.
  - rewrite Ht. fold tz. unfold MAXORDINAL in *. lia.
  - rewrite Ht. by fold tz now h.
  - rewrite Ht. by fold tz now mi.
  - rewrite Ht. by fold tz now s.
  - rewrite Ht in Hgood. fold tz t now h mi s in Hgood.
    rewrite Hwd, Hd, Hw in Hgood. cbn [default from_option id] in Hgood.
    assert (toordinal now = day_number t (utcoffset (tz t))) as Hord
      by (unfold now, fields_at; apply of_days_seconds_ordinal).
    set (jump := (7 - (toordinal now + (0 + 0 * 7) + 6) mod 7 + wd) mod 7) in Hgood.
    assert (0 <= jump < 7) as Hjump by (apply Z.mod_pos_bound; lia).
    eexists. split; [apply Hgood; lia|].
    unfold weekday at 1. rewrite !of_days_seconds_ordinal.
    destruct (of_days_seconds_time (toordinal now + (0 + 0 * 7) + jump)
                (h * 3600 + mi * 60 + s) (microsecond now)) as (-> & -> & -> & ->).
    split; [unfold jump; divlia|]. repeat split; divlia.
Qed.

Lemma X12_weekday_is_the_next_such_day_witness :
  ∃ d, match_ "Tuesday at 18:30" None (frozen tuesday_noon UTC)
       = (Return ("", Some (DateTime d (UTC tuesday_noon))),
          advance (advance (advance (frozen tuesday_noon UTC))))
       ∧ weekday d = 1
       ∧ toordinal (fields_at tuesday_noon 0) <= toordinal d
         <= toordinal (fields_at tuesday_noon 0) + 6.
Proof.
  destruct (X12_weekday_is_the_next_such_day "Tuesday at 18:30" None
              (frozen tuesday_noon UTC) 16
              ({["hour" := 18; "minute" := 30]} ∪ {["weekday" := 1]})
              (advance (advance (frozen tuesday_noon UTC))) 1)
    as (d & Hd & Hwd & Hord & _); [by vm_compute..|].
  exists d. repeat split; assumption || apply Hord.
Defined.

(** One carry step of [_fix] keeps the amount that the two fields hold. *)
Lemma carry_sum limit lo hi lo' hi' :
  0 < limit → carry limit lo hi = (lo', hi') → hi' * limit + lo' = hi * limit + lo.
Proof.
  intros Hl. unfold carry. destruct (limit - 1 <? Z.abs lo); intros [= <- <-]; [|done].
  pose proof (Z.div_mod (lo * Z.sgn lo) limit ltac:(lia)) as Hdm.
  destruct lo as [|p|p]; cbn [Z.sgn] in *; nia.
Qed.

Lemma rd_fix_duration d h mi s :
  ∃ d' h' mi' s',
    rd_fix (RelativeDelta 0 0 d 0 h mi s 0 None None None None None None None None)
    = RelativeDelta 0 0 d' 0 h' mi' s' 0 None None None None None None None None
    ∧ ((d' * 24 + h') * 60 + mi') * 60 + s' = ((d * 24 + h) * 60 + mi) * 60 + s.
Proof.
  unfold rd_fix.
  cbn [rd_years rd_months rd_days rd_leapdays rd_hours rd_minutes rd_seconds rd_microseconds
       rd_year rd_month rd_day rd_weekday rd_hour rd_minute rd_second rd_microsecond].
  assert (carry 1000000 0 s = (0, s)) as -> by reflexivity.
  assert (carry 12 0 0 = (0, 0)) as -> by reflexivity.
  destruct (carry 60 s mi) as [s' mi1] eqn:E1.
  destruct (carry 60 mi1 h) as [mi' h1] eqn:E2.
  destruct (carry 24 h1 d) as [h' d'] eqn:E3.
  apply carry_sum in E1, E2, E3; [|lia..].
  exists d', h', mi', s'. split; [reflexivity | lia].
Qed.

Lemma relativedelta_new_duration (params : gmap string Z) :
  (∀ k, is_Some (params !! k) → k ∈ duration_keys) →
  relativedelta_new params
  = Return (rd_fix (RelativeDelta 0 0
                      (default 0 (params !! "days") + default 0 (params !! "weeks") * 7) 0
                      (default 0 (params !! "hours")) (default 0 (params !! "minutes"))
                      (default 0 (params !! "seconds")) 0
                      None None None None None None None None)).
Proof.
  intros Hkeys. unfold relativedelta_new.
  rewrite keywords_accepted
    by (intros k Hk; specialize (Hkeys k Hk); revert Hkeys;
        unfold duration_keys, rd_keywords; intros Hin;
        repeat (apply elem_of_cons in Hin as [->|Hin]; [in_list|]);
        by apply elem_of_nil in Hin).
  cbn [negb].
  rewrite !(not_listed params duration_keys "years"),
          !(not_listed params duration_keys "months"),
          !(not_listed params duration_keys "leapdays"),
          !(not_listed params duration_keys "microseconds"),
          !(not_listed params duration_keys "year"),
          !(not_listed params duration_keys "month"),
          !(not_listed params duration_keys "day"),
          !(not_listed params duration_keys "weekday"),
          !(not_listed params duration_keys "hour"),
          !(not_listed params duration_keys "minute"),
          !(not_listed params duration_keys "second"),
          !(not_listed params duration_keys "microsecond")
    by (done || (unfold duration_keys; not_in_list)).
  cbn [default from_option id]. by rewrite bind_return.
Qed.

Lemma radd_duration now d h mi s :
  fields_ok now = true →
  relativedelta_radd
    (RelativeDelta 0 0 d 0 h mi s 0 None None None None None None None None) now
  = (td ← timedelta_new d h mi s 0; add_timedelta now td).
Proof.
  intros Hok. pose proof (fields_ok_inv now Hok) as ((Hy & Hm & Hd) & _).
  destruct now as [y m d0 hh mm ss us].
  cbn [year month day] in Hy, Hm, Hd.
  unfold relativedelta_radd.
  cbn [rd_year rd_years rd_month rd_months rd_day rd_days rd_leapdays rd_hour rd_minute
       rd_second rd_microsecond rd_hours rd_minutes rd_seconds rd_microseconds
       rd_weekday or_else year month day hour minute second microsecond
       default from_option id]. cbn [Z.eqb negb andb].
  rewrite Z.add_0_r. unfold monthrange.
  replace ((1 <=? m) && (m <=? 12)) with true
    by (symmetry; apply andb_true_intro; split; apply Z.leb_le; lia).
  unfold mbind at 1, outcome_bind at 1.
  rewrite Z.min_r by lia. unfold replace. rewrite Hok.
  unfold mbind at 1, outcome_bind at 1.
  destruct (timedelta_new d h mi s 0) as [td|e]; [|done].
  unfold mbind at 1, outcome_bind at 1.
  unfold mbind at 1, outcome_bind at 1.
  rewrite bind_return.
  by destruct (add_timedelta _ td).
Qed.

(** Adding a length of time to the fields of a moment gives the fields of
    the moment that much later. *)
Lemma add_seconds t off total :
  0 < day_number t off <= MAXORDINAL →
  Z.abs (total / 86400) <= 999999999 →
  0 < day_number (t + total * US_PER_SECOND) off <= MAXORDINAL →
  (td ← td_of_micros (total * US_PER_SECOND + 0); add_timedelta (fields_at t off) td)
  = Return (fields_at (t + total * US_PER_SECOND) off).
Proof.
  intros Hnow Hlen Hthen.
  rewrite td_of_micros_eq by (unfold US_PER_DAY, US_PER_SECOND; divlia).
  rewrite bind_return.
  pose proof (fields_at_micros t off) as Hwall.
  assert (td_micros
            (TimeDelta ((total * US_PER_SECOND + 0) / US_PER_DAY)
               ((total * US_PER_SECOND + 0) mod US_PER_DAY / US_PER_SECOND)
               ((total * US_PER_SECOND + 0) mod US_PER_DAY mod US_PER_SECOND))
          = total * US_PER_SECOND) as Htd.
  { unfold td_micros. cbn [td_days td_seconds td_microseconds].
    unfold US_PER_DAY, US_PER_SECOND. divlia. }
  assert (wall_micros (fields_at t off) + total * US_PER_SECOND
          = t + total * US_PER_SECOND + (EPOCH_ORDINAL * 86400 + off) * US_PER_SECOND) as HX
    by lia.
  unfold day_number in Hnow, Hthen.
  rewrite add_timedelta_eq; rewrite ?Htd, ?HX, ?Hwall;
    [reflexivity | unfold MAXORDINAL in *; lia..].
Qed.

(** X13: a delta without years and months is a fixed length of time. When
    the fields collected by lines 73 to 77 hold only weeks, days, hours,
    minutes and seconds, in numbers that [float] holds exactly, [match] reads
    the clock once and the timestamp is what the clock shows, in the same zone, exactly that length of time later
    (earlier for a negative length): the normalisation of the fields by
    [relativedelta] and the addition lose nothing. *)
Theorem X13_duration_is_added_exactly (val : string) (instance : option timezone)
    (clk : sysclock) (end_ : nat) (params : gmap string Z) (clk' : sysclock) :
  parse_fields val clk = (Return (end_, params), clk') →
  params ≠ ∅ →
  exact_floats params →
  Forall (λ k, params !! k = None)
    ["years"; "months"; "weekday"; "hour"; "minute"; "second"] →
  let tz := default UTC instance in
  let t := readings clk (reads clk) in
  let off := utcoffset (tz t) in
  let later := t + duration_seconds params * US_PER_SECOND in
  0 < day_number t off <= MAXORDINAL →
  Z.abs (duration_seconds params / 86400) <= 999999999 →
  0 < day_number later off <= MAXORDINAL →
  match_ val instance clk
  = (Return (str_drop end_ val, Some (DateTime (fields_at later off) (tz t))),
     advance clk).
Proof.
  intros H Hne _ Hgone tz t off later Hnow Hlen Hthen.
  destruct (parse_fields_clock _ _ _ _ _ H) as (Hclk & _ & _).
  assert (params !! "weekday" = None) as Hnw
    by (rewrite Forall_forall in Hgone; apply Hgone; in_list).
  rewrite (Hclk Hnw) in H. clear Hclk.
  assert (∀ k, is_Some (params !! k) → k ∈ duration_keys) as Hkeys.
  { apply (absent_keys params ["years"; "months"; "weekday"; "hour"; "minute"; "second"]);
      [done| |unfold duration_keys; split_keys].
    intros k Hk. by eapply parse_fields_keys. }
  assert (fields_ok (fields_at t off) = true) as Hok by (apply fields_at_ok; lia).
  rewrite (match_run _ instance _ _ _ _ H), (size_pos _ Hne). cbv zeta.
  fold tz t off.
  rewrite (relativedelta_new_duration params Hkeys), bind_return.
  destruct (rd_fix_duration
              (default 0 (params !! "days") + default 0 (params !! "weeks") * 7)
              (default 0 (params !! "hours")) (default 0 (params !! "minutes"))
              (default 0 (params !! "seconds"))) as (d' & h' & mi' & s' & -> & Hsum).
  unfold datetime_add_relativedelta. cbn [wall zone].
  rewrite (radd_duration _ d' h' mi' s' Hok). unfold timedelta_new.
  replace ((((d' * 24 + h') * 60 + mi') * 60 + s')) with (duration_seconds params)
    by (symmetry; exact Hsum).
  rewrite (add_seconds t off (duration_seconds params) Hnow Hlen Hthen).
  by rewrite bind_return.
Qed.

Lemma X13_duration_is_added_exactly_witness :
  ∃ later,
    match_ "3 weeks -2h call" None (frozen tuesday_noon UTC)
    = (Return ("call", Some (DateTime (fields_at later 0) (UTC tuesday_noon))),
       advance (frozen tuesday_noon UTC))
    ∧ later = tuesday_noon + (21 * 24 - 2) * 3600 * 1000000.
Proof.
  eexists. split.
  - apply (X13_duration_is_added_exactly "3 weeks -2h call" None
             (frozen tuesday_noon UTC) 12 {["weeks" := 3; "hours" := -2]}
             (frozen tuesday_noon UTC)).
    + by vm_compute.
    + by vm_compute.
    + small_numbers.
    + repeat constructor.
    + by vm_compute.
    + by vm_compute.
    + by vm_compute.
  - by vm_compute.
Defined.

(** ** Years and months *)

Lemma carry_bound limit lo hi lo' hi' :
  0 < limit → carry limit lo hi = (lo', hi') → Z.abs lo' <= limit - 1.
Proof.
  intros Hl. unfold carry. destruct (limit - 1 <? Z.abs lo) eqn:E; intros [= <- <-].
  - pose proof (Z.mod_pos_bound (lo * Z.sgn lo) limit Hl) as Hm.
    destruct lo as [|p|p]; cbn [Z.sgn] in *; lia.
  - apply Z.ltb_ge in E. lia.
Qed.

Lemma rd_fix_months Y M :
  ∃ y mo,
    rd_fix (RelativeDelta Y M (0 + 0 * 7) 0 0 0 0 0 None None None None None None None None)
    = RelativeDelta y mo 0 0 0 0 0 0 None None None None None None None None
    ∧ y * 12 + mo = Y * 12 + M ∧ -11 <= mo <= 11.
Proof.
  unfold rd_fix.
  cbn [rd_years rd_months rd_days rd_leapdays rd_hours rd_minutes rd_seconds rd_microseconds
       rd_year rd_month rd_day rd_weekday rd_hour rd_minute rd_second rd_microsecond].
  change (carry 1000000 0 0) with (0, 0). cbv beta iota.
  change (carry 60 0 0) with (0, 0). cbv beta iota.
  change (carry 24 0 (0 + 0 * 7)) with (0, 0). cbv beta iota.
  destruct (carry 12 M Y) as [mo y] eqn:E.
  pose proof (carry_sum 12 _ _ _ _ ltac:(lia) E).
  pose proof (carry_bound 12 _ _ _ _ ltac:(lia) E).
  exists y, mo. split; [reflexivity | lia].
Qed.

Lemma relativedelta_new_months (params : gmap string Z) :
  (∀ k, is_Some (params !! k) → k ∈ ["years"; "months"]) →
  relativedelta_new params
  = Return (rd_fix (RelativeDelta (default 0 (params !! "years"))
                      (default 0 (params !! "months")) (0 + 0 * 7) 0 0 0 0 0
                      None None None None None None None None)).
Proof.
  intros Hkeys. unfold relativedelta_new.
  rewrite keywords_accepted
    by (intros k Hk; specialize (Hkeys k Hk); revert Hkeys;
        unfold rd_keywords; intros Hin;
        repeat (apply elem_of_cons in Hin as [->|Hin]; [in_list|]);
        by apply elem_of_nil in Hin).
  cbn [negb].
  rewrite !(not_listed params ["years"; "months"] "days"),
          !(not_listed params ["years"; "months"] "weeks"),
          !(not_listed params ["years"; "months"] "hours"),
          !(not_listed params ["years"; "months"] "minutes"),
          !(not_listed params ["years"; "months"] "seconds"),
          !(not_listed params ["years"; "months"] "leapdays"),
          !(not_listed params ["years"; "months"] "microseconds"),
          !(not_listed params ["years"; "months"] "year"),
          !(not_listed params ["years"; "months"] "month"),
          !(not_listed params ["years"; "months"] "day"),
          !(not_listed params ["years"; "months"] "weekday"),
          !(not_listed params ["years"; "months"] "hour"),
          !(not_listed params ["years"; "months"] "minute"),
          !(not_listed params ["years"; "months"] "second"),
          !(not_listed params ["years"; "months"] "microsecond")
    by (done || not_in_list).
  cbn [default from_option id]. by rewrite bind_return.
Qed.

(** The year and the month that [__radd__] arrives at. *)
Lemma month_step yr mth y mo :
  1 <= mth <= 12 → -11 <= mo <= 11 →
  (if mo =? 0 then (yr + y, mth)
   else if 12 <? mth + mo then (yr + y + 1, mth + mo - 12)
        else if mth + mo <? 1 then (yr + y - 1, mth + mo + 12)
             else (yr + y, mth + mo))
  = ((yr * 12 + (mth - 1) + y * 12 + mo) / 12,
     (yr * 12 + (mth - 1) + y * 12 + mo) mod 12 + 1).
Proof.
  intros Hm Hmo.
  destruct (mo =? 0) eqn:E0; [apply Z.eqb_eq in E0|apply Z.eqb_neq in E0];
    [f_equal; divlia|].
  destruct (12 <? mth + mo) eqn:E1; [apply Z.ltb_lt in E1|apply Z.ltb_ge in E1];
    [f_equal; divlia|].
  destruct (mth + mo <? 1) eqn:E2; [apply Z.ltb_lt in E2|apply Z.ltb_ge in E2];
    f_equal; divlia.
Qed.

Lemma days_in_month_range y m : 1 <= m <= 12 → 28 <= days_in_month y m <= 31.
Proof.
  intros Hm. unfold days_in_month.
  assert (m = 1 ∨ m = 2 ∨ m = 3 ∨ m = 4 ∨ m = 5 ∨ m = 6 ∨ m = 7 ∨ m = 8 ∨ m = 9
          ∨ m = 10 ∨ m = 11 ∨ m = 12) as Hcases by lia.
  destruct (is_leap y);
    repeat (destruct Hcases as [->|Hcases]; [by vm_compute|]); subst m; by vm_compute.
Qed.

Lemma days_before_year_bounds y :
  1 <= y <= 9998 → 0 <= days_before_year y <= 3651693.
Proof. intros Hy. unfold days_before_year. cbv zeta. divlia. Qed.

(** A date of the calendar has an ordinal of the calendar. *)
Lemma ymd2ord_range y m d :
  MINYEAR <= y <= MAXYEAR → 1 <= m <= 12 → 1 <= d <= days_in_month y m →
  0 < ymd2ord y m d <= MAXORDINAL.
Proof.
  unfold MINYEAR, MAXYEAR, MAXORDINAL. intros Hy Hm Hd.
  assert (0 <= days_before_month y m ∧ days_before_month y m + days_in_month y m <= 366
          ∧ (is_leap y = false → days_before_month y m + days_in_month y m <= 365))
    as (Hb0 & Hb1 & Hb2).
  { unfold days_before_month, days_in_month.
    assert (m = 1 ∨ m = 2 ∨ m = 3 ∨ m = 4 ∨ m = 5 ∨ m = 6 ∨ m = 7 ∨ m = 8 ∨ m = 9
            ∨ m = 10 ∨ m = 11 ∨ m = 12) as Hcases by lia.
    destruct (is_leap y);
      repeat (destruct Hcases as [->|Hcases]; [by vm_compute|]); subst m; by vm_compute. }
  unfold ymd2ord. destruct (decide (y = 9999)) as [->|Hne].
  - assert (days_before_year 9999 = 3651694) as -> by reflexivity.
    specialize (Hb2 eq_refl). lia.
  - pose proof (days_before_year_bounds y ltac:(lia)). lia.
Qed.

Lemma add_nothing f :
  fields_ok f = true →
  add_timedelta f (TimeDelta 0 0 0)
  = Return (of_days_seconds (toordinal f) (hour f * 3600 + minute f * 60 + second f)
              (microsecond f)).
Proof.
  intros Hok. pose proof (fields_ok_inv f Hok) as (Hdate & Hh & Hmi & Hs & Hus).
  assert (0 < toordinal f <= MAXORDINAL) as Hord
    by (unfold toordinal; apply ymd2ord_range; tauto).
  assert (wall_micros f
          = (toordinal f * 86400 + (hour f * 3600 + minute f * 60 + second f))
            * US_PER_SECOND + microsecond f) as Hwall
    by (unfold wall_micros; lia).
  assert (td_micros (TimeDelta 0 0 0) = 0) as Htd by reflexivity.
  rewrite add_timedelta_eq; rewrite ?Htd, ?Hwall;
    [|unfold US_PER_DAY, US_PER_SECOND, MAXORDINAL in *; divlia..].
  f_equal. f_equal; unfold US_PER_DAY, US_PER_SECOND; divlia.
Qed.

(** [now + relativedelta(years=.., months=..)], the fields normalised: the
    month moves by [y * 12 + mo] months, the day of the month stays unless the
    month arrived at is too short for it, the time of day stays; a year
    outside the calendar is refused. *)
Lemma radd_months now y mo :
  fields_ok now = true → -11 <= mo <= 11 →
  let idx := month_index now + y * 12 + mo in
  let yf := idx / 12 in
  let mf := idx mod 12 + 1 in
  let dd := Z.min (days_in_month yf mf) (day now) in
  relativedelta_radd
    (RelativeDelta y mo 0 0 0 0 0 0 None None None None None None None None) now
  = if (MINYEAR <=? yf) && (yf <=? MAXYEAR)
    then Return (of_days_seconds (ymd2ord yf mf dd)
                   (hour now * 3600 + minute now * 60 + second now) (microsecond now))
    else Raise ValueError.
Proof.
  intros Hok Hmo idx yf mf dd.
  pose proof (fields_ok_inv now Hok) as ((Hy & Hm & Hd) & Hh & Hmi & Hs & Hus).
  unfold relativedelta_radd.
  cbn [rd_year rd_years rd_month rd_months rd_day rd_days rd_leapdays rd_hour rd_minute
       rd_second rd_microsecond rd_hours rd_minutes rd_seconds rd_microseconds
       rd_weekday or_else default from_option id].
  cbv zeta.
  rewrite (month_step (year now) (month now) y mo Hm Hmo).
  fold (month_index now). fold idx. fold yf mf. cbv beta iota.
  cbn [Z.eqb negb andb].
  assert (1 <= mf <= 12) as Hmf by (unfold mf; divlia).
  pose proof (days_in_month_range yf mf Hmf) as Hdim.
  unfold monthrange.
  replace ((1 <=? mf) && (mf <=? 12)) with true
    by (symmetry; apply andb_true_intro; split; apply Z.leb_le; lia).
  rewrite bind_return. fold dd.
  assert (fields_ok (Fields yf mf dd (hour now) (minute now) (second now) (microsecond now))
          = (MINYEAR <=? yf) && (yf <=? MAXYEAR)) as Hrepl.
  { unfold fields_ok. cbn [year month day hour minute second microsecond].
    repeat match goal with
           | |- context [?a <=? ?b] =>
               lazymatch a with
               | MINYEAR => fail
               | _ => lazymatch b with
                      | MAXYEAR => fail
                      | _ => replace (a <=? b) with true
                               by (symmetry; apply Z.leb_le; unfold dd; lia)
                      end
               end
           end.
    by rewrite !andb_true_r. }
  unfold replace. rewrite Hrepl.
  destruct ((MINYEAR <=? yf) && (yf <=? MAXYEAR)); [|reflexivity].
  rewrite bind_return, td_zero, bind_return.
  rewrite add_nothing by exact Hrepl.
  rewrite bind_return. unfold toordinal.
  cbn [year month day hour minute second microsecond]. reflexivity.
Qed.

(** X14: years and months. When the fields collected by lines 73 to 77 hold
    only years and months, in numbers that [float] holds exactly, the timestamp
    lies as many months after the current month in [tz] as 12 times the years
    plus the months, on the day of the month of the current date, or on the
    last day of that month if it has fewer days; the time of day is that of the
    current moment. When the year arrived at is outside 1..9999, and still a
    number that [datetime.replace] takes, the call raises [ValueError], after
    the clock was read. *)
Theorem X14_months_keep_or_clip_the_day (val : string) (instance : option timezone)
    (clk : sysclock) (end_ : nat) (params : gmap string Z) (clk' : sysclock) :
  parse_fields val clk = (Return (end_, params), clk') →
  params ≠ ∅ →
  exact_floats params →
  Forall (λ k, params !! k = None)
    ["weeks"; "days"; "hours"; "minutes"; "seconds"; "weekday"; "hour"; "minute"; "second"] →
  let tz := default UTC instance in
  let t := readings clk (reads clk) in
  let now := fields_at t (utcoffset (tz t)) in
  let idx := month_index now + default 0 (params !! "years") * 12
             + default 0 (params !! "months") in
  let y := idx / 12 in
  let m := idx mod 12 + 1 in
  let dd := Z.min (days_in_month y m) (day now) in
  0 < day_number t (utcoffset (tz t)) <= MAXORDINAL →
  (MINYEAR <= y <= MAXYEAR →
   ∃ d, match_ val instance clk
        = (Return (str_drop end_ val, Some (DateTime d (tz t))), advance clk)
        ∧ toordinal d = ymd2ord y m dd
        ∧ hour d = hour now ∧ minute d = minute now ∧ second d = second now
        ∧ microsecond d = microsecond now)
  ∧ ((y < MINYEAR ∨ MAXYEAR < y) ∧ Z.abs y < 2 ^ 31 →
     match_ val instance clk = (Raise ValueError, advance clk)).
Proof.
  intros H Hne _ Hgone tz t now idx y m dd Hnow.
  destruct (parse_fields_clock _ _ _ _ _ H) as (Hclk & _ & _).
  assert (params !! "weekday" = None) as Hnw
    by (rewrite Forall_forall in Hgone; apply Hgone; in_list).
  rewrite (Hclk Hnw) in H. clear Hclk.
  assert (∀ k, is_Some (params !! k) → k ∈ ["years"; "months"]) as Hkeys.
  { apply (absent_keys params
             ["weeks"; "days"; "hours"; "minutes"; "seconds"; "weekday"; "hour"; "minute";
              "second"]); [done| |split_keys].
    intros k Hk. by eapply parse_fields_keys. }
  assert (fields_ok now = true) as Hok by (apply fields_at_ok; lia).
  pose proof (fields_ok_inv now Hok) as (_ & Hh & Hmi & Hs & Hus).
  rewrite (match_run _ instance _ _ _ _ H), (size_pos _ Hne). cbv zeta.
  fold tz t now.
  rewrite (relativedelta_new_months params Hkeys), bind_return.
  destruct (rd_fix_months (default 0 (params !! "years")) (default 0 (params !! "months")))
    as (y' & mo & -> & Hsum & Hmo).
  unfold datetime_add_relativedelta. cbn [wall zone].
  rewrite (radd_months now y' mo Hok Hmo).
  replace (month_index now + y' * 12 + mo) with idx by (unfold idx; lia).
  fold y m dd. split.
  - intros Hy.
    replace ((MINYEAR <=? y) && (y <=? MAXYEAR)) with true
      by (symmetry; apply andb_true_intro; split; apply Z.leb_le; lia).
    rewrite bind_return. eexists. split; [reflexivity|].
    rewrite of_days_seconds_ordinal.
    destruct (of_days_seconds_time (ymd2ord y m dd)
                (hour now * 3600 + minute now * 60 + second now) (microsecond now))
      as (-> & -> & -> & ->).
    repeat split; divlia.
  - intros [Hy _].
    replace ((MINYEAR <=? y) && (y <=? MAXYEAR)) with false; [done|].
    symmetry. apply andb_false_iff. destruct Hy; [left | right]; apply Z.leb_gt; lia.
Qed.

Lemma X14_months_keep_or_clip_the_day_witness :
  ∃ d, match_ "1 month" None (frozen (tuesday_noon + 89 * US_PER_DAY) UTC)
       = (Return ("", Some (DateTime d (UTC (tuesday_noon + 89 * US_PER_DAY)))),
          advance (frozen (tuesday_noon + 89 * US_PER_DAY) UTC))
       ∧ day (fields_at (tuesday_noon + 89 * US_PER_DAY) 0) = 31
       ∧ toordinal d = ymd2ord 2027 2 28.
Proof.
  destruct (X14_months_keep_or_clip_the_day "1 month" None
              (frozen (tuesday_noon + 89 * US_PER_DAY) UTC) 7 {["months" := 1]}
              (frozen (tuesday_noon + 89 * US_PER_DAY) UTC)) as [Hgood _].
  - by vm_compute.
  - by vm_compute.
  - small_numbers.
  - repeat constructor.
  - by vm_compute.
  - destruct Hgood as (d & Hd & Hord & _); [by vm_compute|].
    exists d. split; [exact Hd|]. split; [by vm_compute | exact Hord].
Defined.
